(** * pandasai.dataset_loader: the dataset loader's decision pipeline

    A shallow embedding of [pandasai/dataset_loader.py] (class
    [DatasetLoader]) and the properties of its pipeline: schema
    resolution, source-type validation, cache path and freshness
    decision, query construction, post-load transformations and cache
    persistence.

    Conventions of the embedding.
    - A Python [str] is the [string] of its UTF-8 bytes.  The only
      characters the loader looks for are ASCII ("@", "/"), and a byte
      below 128 never occurs inside a multi-byte UTF-8 sequence, so
      searching and splitting on bytes agrees with searching and
      splitting on code points.  A [PStr] holds no string without a UTF-8
      encoding (one with a lone surrogate); the anonymize transform, the
      one place where the encoding of a string can fail, is embedded a
      second time over [Text.t], which holds every [str] of Python.
    - Values produced by [yaml.safe_load] and the cells of a data frame
      are [pyval].  Mappings keep their insertion order and are looked up
      by their first binding; keys are strings (the loader only ever
      indexes with string literals).
    - An exception is a value of [exn]; a computation that may raise
      returns [result].
    - Files, the clock and the observable calls to external
      collaborators live in [state]; the methods of the loader are
      computations in the monad [M]. *)

From Stdlib Require Import ZArith Ascii String List Bool Lia.
From stdpp Require Import base option list strings gmap pretty.

Local Open Scope list_scope.
Local Open Scope string_scope.
Local Set Warnings "-register-all".

(** ** Python values *)

Inductive pyval : Type :=
| PNone
| PBool (b : bool)
| PInt (n : Z)
| PStr (s : string)
| POther (text : string)
    (* any other hashable scalar (float, date, timestamp), with its str() *)
| PList (items : list pyval)
| PDict (bindings : list (string * pyval)).

Inductive exn : Type :=
| KeyError (key : string)
| TypeError
| AttributeError
| ValueError (msg : string)
| FileNotFoundError (msg : string)
| ImportError (msg : string)
| ExternalError (msg : string)
    (* raised by an external collaborator: parser, codec, backend *)
| NotModelled.
    (* pandas behaviour the embedding does not cover *)

Inductive result (A : Type) : Type :=
| Ok (a : A)
| Raise (e : exn).
Arguments Ok {A} a.
Arguments Raise {A} e.

Definition rbind {A B} (r : result A) (k : A → result B) : result B :=
  match r with
  | Ok a => k a
  | Raise e => Raise e
  end.

Declare Scope result_scope.
Delimit Scope result_scope with res.
Notation "'let?' x ':=' r 'in' k" := (rbind r (fun x => k))
  (at level 10, x pattern, r at level 100, k at level 200) : result_scope.

(** Whether an optional value is there. *)
Definition present {A} (o : option A) : bool :=
  match o with
  | Some _ => true
  | None => false
  end.

Fixpoint rmapM {A B} (f : A → result B) (l : list A) : result (list B) :=
  match l with
  | [] => Ok []
  | x :: l' =>
      match f x with
      | Ok y =>
          match rmapM f l' with
          | Ok ys => Ok (y :: ys)
          | Raise e => Raise e
          end
      | Raise e => Raise e
      end
  end.

(** ** Strings *)

Module Str.

(** [sep.join(parts)] *)
Fixpoint join (sep : string) (parts : list string) : string :=
  match parts with
  | [] => EmptyString
  | [p] => p
  | p :: rest => p ++ sep ++ join sep rest
  end.

(** [s.startswith(p)] *)
Fixpoint startswith (p s : string) : bool :=
  match p, s with
  | EmptyString, _ => true
  | String a p', String b s' => if ascii_dec a b then startswith p' s' else false
  | String _ _, EmptyString => false
  end.

(** [p in s] for two strings: [p] occurs in [s] as a substring. *)
Fixpoint contains (p s : string) : bool :=
  startswith p s ||
  match s with
  | EmptyString => false
  | String _ s' => contains p s'
  end.

(** [s.endswith(c)] for a one-character [c] *)
Fixpoint endswith_char (c : ascii) (s : string) : bool :=
  match s with
  | EmptyString => false
  | String a EmptyString => if ascii_dec a c then true else false
  | String _ s' => endswith_char c s'
  end.

(** Occurrence of a character, as a proposition. *)
Fixpoint has_char (c : ascii) (s : string) : Prop :=
  match s with
  | EmptyString => False
  | String a s' => a = c ∨ has_char c s'
  end.

(** The split of [s] around the last occurrence of [sep], if any. *)
Fixpoint rpartition (sep : ascii) (s : string) : option (string * string) :=
  match s with
  | EmptyString => None
  | String a s' =>
      match rpartition sep s' with
      | Some (l, r) => Some (String a l, r)
      | None => if ascii_dec a sep then Some (EmptyString, s') else None
      end
  end.

(** [s.rsplit(sep, 1)] for a one-character separator: at most one
    split, made at the last occurrence. *)
Definition rsplit1 (sep : ascii) (s : string) : list string :=
  match rpartition sep s with
  | Some (l, r) => [l; r]
  | None => [s]
  end.

Definition lower_char (a : ascii) : ascii :=
  let n := nat_of_ascii a in
  if (65 <=? n)%nat && (n <=? 90)%nat then ascii_of_nat (n + 32) else a.

Definition upper_char (a : ascii) : ascii :=
  let n := nat_of_ascii a in
  if (97 <=? n)%nat && (n <=? 122)%nat then ascii_of_nat (n - 32) else a.

Fixpoint lower (s : string) : string :=
  match s with
  | EmptyString => EmptyString
  | String a s' => String (lower_char a) (lower s')
  end.

(** [s.capitalize()] on ASCII text: first character upper-cased, the
    rest lower-cased. *)
Definition capitalize (s : string) : string :=
  match s with
  | EmptyString => EmptyString
  | String a s' => String (upper_char a) (lower s')
  end.

End Str.

(** [a, b = parts]: unpacking into exactly two names. *)
Definition unpack2 {A} (parts : list A) : result (A * A) :=
  match parts with
  | [a; b] => Ok (a, b)
  | _ => Raise (ValueError "unpack")
  end.

(** ** Strings of Python in full

    A [str] of Python is a sequence of code points, and a lone surrogate
    (U+D800 to U+DFFF) is one of them although UTF-8 has no encoding for
    it.  A text is the UTF-8 bytes of the characters that have an
    encoding, with the lone surrogates standing between them. *)

Module Text.

Inductive code : Type :=
| Enc (a : ascii)      (* a byte of the UTF-8 encoding of a character *)
| Lone (n : N).        (* the lone surrogate U+D800 + n, for n below 2048 *)

Definition t := list code.

Definition is_char (c : ascii) (x : code) : bool :=
  match x with
  | Enc a => if ascii_dec a c then true else false
  | Lone _ => false
  end.

Definition is_lone (x : code) : bool :=
  match x with
  | Enc _ => false
  | Lone _ => true
  end.

(** Whether a text holds a lone surrogate. *)
Definition has_lone (value : t) : bool := existsb is_lone value.

(** The text of a string that has a UTF-8 encoding. *)
Fixpoint of_string (s : string) : t :=
  match s with
  | EmptyString => []
  | String a s' => Enc a :: of_string s'
  end.

(** [c in value] for a one-character ASCII [c] *)
Definition contains_char (c : ascii) (value : t) : bool :=
  existsb (is_char c) value.

(** The split of a text around the last occurrence of [sep], if any. *)
Fixpoint rpartition (sep : ascii) (value : t) : option (t * t) :=
  match value with
  | [] => None
  | x :: rest =>
      match rpartition sep rest with
      | Some (l, r) => Some (x :: l, r)
      | None => if is_char sep x then Some ([], rest) else None
      end
  end.

(** [value.rsplit(sep, 1)] for a one-character separator *)
Definition rsplit1 (sep : ascii) (value : t) : list t :=
  match rpartition sep value with
  | Some (l, r) => [l; r]
  | None => [value]
  end.

(** [value.encode()]: the UTF-8 bytes, or [UnicodeEncodeError], which is
    a [ValueError], at the first lone surrogate. *)
Fixpoint encode (value : t) : result string :=
  match value with
  | [] => Ok EmptyString
  | Lone _ :: _ => Raise (ValueError "surrogates not allowed")
  | Enc a :: rest =>
      match encode rest with
      | Ok bytes => Ok (String a bytes)
      | Raise e => Raise e
      end
  end.

End Text.

(** ** Operations on Python values *)

Module Py.

Fixpoint assoc (k : string) (kvs : list (string * pyval)) : option pyval :=
  match kvs with
  | [] => None
  | (k', v) :: rest => if decide (k' = k) then Some v else assoc k rest
  end.

(** [v[k]] with a string key *)
Definition getitem (v : pyval) (k : string) : result pyval :=
  match v with
  | PDict kvs =>
      match assoc k kvs with
      | Some x => Ok x
      | None => Raise (KeyError k)
      end
  | _ => Raise TypeError
  end.

(** [v.get(k, default)] *)
Definition get (v : pyval) (k : string) (default : pyval) : result pyval :=
  match v with
  | PDict kvs =>
      match assoc k kvs with
      | Some x => Ok x
      | None => Ok default
      end
  | _ => Raise AttributeError
  end.

(** [v == s] against a string *)
Definition eq_str (v : pyval) (s : string) : bool :=
  match v with
  | PStr t => if decide (t = s) then true else false
  | _ => false
  end.

(** [k in v] for a string [k]: key membership on a mapping, element
    membership on a sequence, substring on a string. *)
Definition contains (k : string) (v : pyval) : result bool :=
  match v with
  | PDict kvs => Ok (present (assoc k kvs))
  | PList items => Ok (existsb (fun x => eq_str x k) items)
  | PStr s => Ok (Str.contains k s)
  | _ => Raise TypeError
  end.

(** Whether [v] can be a dictionary key. *)
Definition hashable (v : pyval) : bool :=
  match v with PList _ | PDict _ => false | _ => true end.

(** [for x in v]: the elements the loop visits (for a string its
    characters, here its bytes: the loader fails on the first of them
    whatever it is). *)
Definition iter (v : pyval) : result (list pyval) :=
  match v with
  | PList items => Ok items
  | PDict kvs => Ok (map (fun kv => PStr (fst kv)) kvs)
  | PStr s => Ok (map (fun a => PStr (String a EmptyString)) (list_ascii_of_string s))
  | _ => Raise TypeError
  end.

(** An element of a list handed to [str.join] must be a [str]. *)
Definition as_str (v : pyval) : result string :=
  match v with
  | PStr s => Ok s
  | _ => Raise TypeError
  end.

End Py.

(** ** Paths: [os.path.join] on POSIX *)

Module Path.

(** One step of [posixpath.join]: an absolute component replaces what
    was built so far, otherwise it is appended after a single "/". *)
Definition join_step (path b : string) : string :=
  if Str.startswith "/" b then b
  else if (if decide (path = EmptyString) then true else false)
          || Str.endswith_char "/" path
  then path ++ b
  else path ++ "/" ++ b.

Definition join (a : string) (parts : list string) : string :=
  fold_left join_step parts a.

End Path.

(** ** Data frames

    A data frame is its columns in order, each a label and the cells of
    the column.  Labels of a query result are strings. *)

Definition series := list pyval.
Definition table := list (string * series).

Module Frame.

Fixpoint column (c : string) (df : table) : option series :=
  match df with
  | [] => None
  | (c', col) :: rest => if decide (c' = c) then Some col else column c rest
  end.

(** Assignment to a column: an existing column is replaced where it
    stands, a new one is added last. *)
Fixpoint set_column (c : string) (col : series) (df : table) : table :=
  match df with
  | [] => [(c, col)]
  | (c', old) :: rest =>
      if decide (c' = c) then (c', col) :: rest
      else (c', old) :: set_column c col rest
  end.

(** The columns that carry the label [c], in their order. *)
Fixpoint select (c : string) (df : table) : list series :=
  match df with
  | [] => []
  | (c', col) :: rest =>
      if decide (c' = c) then col :: select c rest else select c rest
  end.

Definition labels (df : table) : list string := map fst df.

End Frame.

(** What [df[label]] is: the column that carries the label, or, when
    several columns carry it, the frame of these columns. *)
Inductive selection : Type :=
| OneColumn (col : series)
| SeveralColumns (cols : list series).

(** ** The world of the loader *)

(** A regular file: its modification time, as the naive local datetime
    [datetime.fromtimestamp(os.path.getmtime(p))] in microseconds, and
    its bytes. *)
Record file := File { mtime : Z; content : string }.

(** Calls to the outside that a run of the loader makes, in order. *)
Inductive event : Type :=
| PathExists (p : string)                  (* os.path.exists(p) *)
| OpenRead (p : string)                    (* open(p, "r") and reading it *)
| GetMtime (p : string)                    (* os.path.getmtime(p) *)
| ClockNow                                 (* datetime.now() *)
| ReadTable (fmt p : string)               (* pd.read_parquet(p) / pd.read_csv(p) *)
| ImportModule (m : string)                (* importlib.import_module(m) *)
| BackendCall (m entry : string) (conn : pyval) (query : string)
                                           (* resolving and running a backend entry point *)
| WriteTable (fmt p : string).             (* df.to_parquet(p) / df.to_csv(p) *)

(** The loader object ([self.schema], [self.dataset_path]) together with
    the file system, the clock and the calls made so far. *)
Record state := State {
  schema : pyval;
  dataset_path : pyval;
  fs : gmap string file;
  clock : Z;
  trace : list event
}.

Definition M (A : Type) : Type := state → result A * state.

Definition ret {A} (a : A) : M A := fun st => (Ok a, st).
Definition raise {A} (e : exn) : M A := fun st => (Raise e, st).
Definition bind {A B} (c : M A) (k : A → M B) : M B :=
  fun st =>
    match c st with
    | (Ok a, st') => k a st'
    | (Raise e, st') => (Raise e, st')
    end.
Definition lift {A} (r : result A) : M A := fun st => (r, st).

Declare Scope loader_scope.
Delimit Scope loader_scope with M.
Notation "'let!' x ':=' c 'in' k" := (bind c (fun x => k))
  (at level 10, x pattern, c at level 100, k at level 200) : loader_scope.

(** [try: body except ImportError: raise handler] *)
Definition except_ImportError {A} (body : M A) (handler : exn) : M A :=
  fun st =>
    match body st with
    | (Raise (ImportError _), st') => (Raise handler, st')
    | other => other
    end.

(** [try: body except ValueError: return fallback] *)
Definition except_ValueError {A} (body : result A) (fallback : A) : result A :=
  match body with
  | Raise (ValueError _) => Ok fallback
  | other => other
  end.

(** The state after the calls [evs] have been made. *)
Definition log (evs : list event) (st : state) : state :=
  State (schema st) (dataset_path st) (fs st) (clock st) (trace st ++ evs)%list.

Definition emit (ev : event) : M unit := fun st => (Ok tt, log [ev] st).

Definition self_schema : M pyval := fun st => (Ok (schema st), st).
Definition self_dataset_path : M pyval := fun st => (Ok (dataset_path st), st).
Definition set_schema (v : pyval) : M unit :=
  fun st => (Ok tt, State v (dataset_path st) (fs st) (clock st) (trace st)).
Definition set_dataset_path (v : pyval) : M unit :=
  fun st => (Ok tt, State (schema st) v (fs st) (clock st) (trace st)).

Definition os_path_exists (p : string) : M bool :=
  bind (emit (PathExists p))
       (fun _ st => (Ok (present (fs st !! p)), st)).

Definition os_path_getmtime (p : string) : M Z :=
  bind (emit (GetMtime p))
       (fun _ st => match fs st !! p with
                    | Some f => (Ok (mtime f), st)
                    | None => (Raise (FileNotFoundError p), st)
                    end).

Definition open_read (p : string) : M string :=
  bind (emit (OpenRead p))
       (fun _ st => match fs st !! p with
                    | Some f => (Ok (content f), st)
                    | None => (Raise (FileNotFoundError p), st)
                    end).

Definition datetime_now : M Z :=
  bind (emit ClockNow) (fun _ st => (Ok (clock st), st)).

(** Replacing the bytes of [p]; the file's modification time becomes the
    current time. *)
Definition write_file (p : string) (bytes : string) : M unit :=
  fun st => (Ok tt, State (schema st) (dataset_path st)
                          (<[p := File (clock st) bytes]> (fs st))
                          (clock st) (trace st)).

(** [timedelta(weeks=1)] in microseconds *)
Definition one_week : Z := 7 * 24 * 3600 * 1000000.

(** [DatasetLoader.SUPPORTED_SOURCES] *)
Definition SUPPORTED_SOURCES : list (string * string) :=
  [ ("mysql", "pandasai_sql");
    ("postgres", "pandasai_sql");
    ("yahoo_finance", "pandasai.connectors.yfinance");
    ("bigquery", "pandasai.ee.connectors.bigquery");
    ("snowflake", "pandasai.ee.connectors.snowflake");
    ("databricks", "pandasai.ee.connectors.databricks");
    ("oracle", "pandasai.ee.connectors.oracle") ].

Fixpoint registry_lookup (k : string) (reg : list (string * string)) : option string :=
  match reg with
  | [] => None
  | (k', m) :: rest => if decide (k' = k) then Some m else registry_lookup k rest
  end.

(** [SUPPORTED_SOURCES[v]] *)
Definition registry_getitem (v : pyval) : result string :=
  match v with
  | PStr k =>
      match registry_lookup k SUPPORTED_SOURCES with
      | Some m => Ok m
      | None => Raise (KeyError k)
      end
  | PList _ | PDict _ => Raise TypeError
  | PNone => Raise (KeyError "None")
  | PBool b => Raise (KeyError (if b then "True" else "False"))
  | PInt n => Raise (KeyError (pretty n))
  | POther t => Raise (KeyError t)
  end.

(** [v in SUPPORTED_SOURCES] *)
Definition registry_contains (v : pyval) : result bool :=
  match v with
  | PStr k => Ok (present (registry_lookup k SUPPORTED_SOURCES))
  | PList _ | PDict _ => Raise TypeError
  | _ => Ok false
  end.

(** [os.path.join(a, *parts)]: every component has to be a [str]. *)
Definition os_path_join (a : string) (parts : list pyval) : result string :=
  (let? parts := rmapM Py.as_str parts in
   Ok (Path.join a parts))%res.

(** [df[key]] *)
Definition df_getitem (df : table) (key : pyval) : result selection :=
  match key with
  | PStr c =>
      match Frame.select c df with
      | [] => Raise (KeyError c)
      | [col] => Ok (OneColumn col)
      | cols => Ok (SeveralColumns cols)
      end
  | PList _ | PDict _ => Raise NotModelled
  | PNone => Raise (KeyError "None")
  | PBool b => Raise (KeyError (if b then "True" else "False"))
  | PInt n => Raise (KeyError (pretty n))
  | POther t => Raise (KeyError t)
  end.

(** [df[key] = col] for a column [col] *)
Definition df_setitem (df : table) (key : pyval) (col : series) : result table :=
  match key with
  | PStr c => Ok (Frame.set_column c col df)
  | _ => Raise NotModelled
  end.

(** ** The loader *)

(** External collaborators, consumed through their interface. *)
Class Collaborators := {
  (** [repr] of a list or a mapping, as an f-string prints it *)
  container_repr : pyval → string;
  (** [hashlib.md5(b).hexdigest()] of the UTF-8 bytes [b] of a string *)
  md5_hexdigest : string → string;
  (** [yaml.safe_load] on the bytes of a file *)
  yaml_safe_load : string → result pyval;
  (** the decoders behind [pd.read_parquet] and [pd.read_csv] *)
  read_parquet : string → result table;
  read_csv : string → result table;
  (** the encoders behind [df.to_parquet(_, index=False)] and
      [df.to_csv(_, index=False)] *)
  to_parquet : table → result string;
  to_csv : table → result string;
  (** [importlib.import_module(name)] *)
  import_module : string → result unit;
  (** [getattr(module, fn)(connection_info, query)] *)
  load_function : string → string → pyval → string → result table;
  (** [getattr(module, cls)(config=connection_info).execute_query(query)] *)
  connector_query : string → string → pyval → string → result table;
  (** [pd.to_datetime(col).dt] and [_.tz_convert(tz)] *)
  to_datetime_dt : series → result series;
  tz_convert : series → pyval → result series;
  (** the conversion [Series.apply] makes of the values its function
      returned ([lib.map_infer] with [convert=True]): a column of
      [None] alone, for one, comes back as a column of NaN *)
  convert_objects : series → series
}.

Section Loader.

Context `{!Collaborators}.

(** [f"{v}"] *)
Definition py_str (v : pyval) : string :=
  match v with
  | PNone => "None"
  | PBool true => "True"
  | PBool false => "False"
  | PInt n => pretty n
  | PStr s => s
  | POther t => t
  | PList _ | PDict _ => container_repr v
  end.

Local Open Scope res.

Definition _validate_source_type (schema : pyval) : result unit :=
  let? source := Py.getitem schema "source" in
  let? source_type := Py.getitem source "type" in
  let? known := registry_contains source_type in
  if negb known
  then Raise (ValueError ("Unsupported database type: " ++ py_str source_type))
  else Ok tt.

Definition _get_cache_file_path (dataset_path schema : pyval) : result string :=
  let? destination := Py.getitem schema "destination" in
  let? has_path := Py.contains "path" destination in
  if has_path then
    let? destination := Py.getitem schema "destination" in
    let? path := Py.getitem destination "path" in
    os_path_join "datasets" [dataset_path; path]
  else
    let? destination := Py.getitem schema "destination" in
    let? format := Py.getitem destination "format" in
    let file_extension :=
      if Py.eq_str format "parquet" then "parquet" else "csv" in
    os_path_join "datasets" [dataset_path; PStr ("data." ++ file_extension)].

Definition _generate_query (self_schema schema : pyval) : result string :=
  let schema := match schema with PNone => self_schema | _ => schema end in
  let? cols := Py.getitem schema "columns" in
  let? cols := Py.iter cols in
  let? names := rmapM (fun col => Py.getitem col "name") cols in
  let? names := rmapM Py.as_str names in
  let columns := Str.join ", " names in
  let? source := Py.getitem schema "source" in
  let? table_name := Py.getitem source "table" in
  let query := "SELECT " ++ columns ++ " FROM " ++ py_str table_name in
  let? has_order := Py.contains "order_by" schema in
  let? query :=
    if has_order then
      let? order_by := Py.getitem schema "order_by" in
      let? order_by_clause :=
        match order_by with
        | PList items =>
            let? items := rmapM Py.as_str items in Ok (Str.join ", " items)
        | _ => Ok (py_str order_by)
        end in
      Ok (query ++ " ORDER BY " ++ order_by_clause)
    else Ok query in
  let? has_limit := Py.contains "limit" schema in
  if has_limit then
    let? limit := Py.getitem schema "limit" in
    Ok (query ++ " LIMIT " ++ py_str limit)
  else Ok query.

(** [_anonymize] on the values of the model.  The local part of a [PStr]
    is UTF-8 text, which [local.encode()] returns as it is. *)
Definition _anonymize (value : pyval) : result pyval :=
  match value with
  | PStr s =>
      if negb (Str.contains "@" s) then Ok value
      else
        except_ValueError
          (let? (local, domain) := unpack2 (Str.rsplit1 "@" s) in
           Ok (PStr (md5_hexdigest local ++ "@" ++ domain)))
          value
  | _ => Ok value
  end.

(** The body of the [try] of [_anonymize], on any [str] of Python:
    [local.encode()] raises on a lone surrogate. *)
Definition anonymize_attempt (value : Text.t) : result Text.t :=
  let? (local, domain) := unpack2 (Text.rsplit1 "@" value) in
  let? bytes := Text.encode local in
  Ok (Text.of_string (md5_hexdigest bytes) ++ Text.of_string "@" ++ domain)%list.

(** [_anonymize] on a value that is a [str], every [str] of Python in
    its domain. *)
Definition _anonymize_str (value : Text.t) : result Text.t :=
  if negb (Text.contains_char "@" value) then Ok value
  else except_ValueError (anonymize_attempt value) value.

(** [col.apply(f)] on a column: nothing is called on a column without
    rows; otherwise [f] is called on the cells in order and the values
    it returned go through the conversion of pandas. *)
Definition series_apply (f : pyval → result pyval) (col : series) : result series :=
  match col with
  | [] => Ok []
  | _ => let? values := rmapM f col in Ok (convert_objects values)
  end.

(** One turn of the loop of [_apply_transformations].  When several
    columns carry the label, [df[label]] is a frame: its [apply] hands
    each column, a [Series] and not a [str], to [_anonymize], which
    returns it, and assigning these columns back leaves the table as it
    was; [pd.to_datetime] of a frame is not modelled. *)
Definition apply_transform (df : table) (transform : pyval) : result table :=
  let? type := Py.getitem transform "type" in
  if Py.eq_str type "anonymize" then
    let? params := Py.getitem transform "params" in
    let? column := Py.getitem params "column" in
    let? selected := df_getitem df column in
    match selected with
    | OneColumn col =>
        let? col := series_apply _anonymize col in
        df_setitem df column col
    | SeveralColumns _ => Ok df
    end
  else if Py.eq_str type "convert_timezone" then
    let? params := Py.getitem transform "params" in
    let? column := Py.getitem params "column" in
    let? selected := df_getitem df column in
    match selected with
    | OneColumn col =>
        let? col := to_datetime_dt col in
        let? params := Py.getitem transform "params" in
        let? to := Py.getitem params "to" in
        let? col := tz_convert col to in
        df_setitem df column col
    | SeveralColumns _ => Raise NotModelled
    end
  else Ok df.

Fixpoint apply_each (transforms : list pyval) (df : table) : result table :=
  match transforms with
  | [] => Ok df
  | transform :: rest =>
      let? df := apply_transform df transform in
      apply_each rest df
  end.

Definition _apply_transformations (schema : pyval) (df : table) : result table :=
  let? transformations := Py.get schema "transformations" (PList []) in
  let? transforms := Py.iter transformations in
  apply_each transforms df.

Local Close Scope res.
Local Open Scope M.

Definition _load_schema : M unit :=
  let! dataset_path := self_dataset_path in
  let! schema_path := lift (os_path_join "datasets" [dataset_path; PStr "schema.yaml"]) in
  let! found := os_path_exists schema_path in
  if negb found
  then raise (FileNotFoundError ("Schema file not found: " ++ schema_path))
  else
    let! text := open_read schema_path in
    let! doc := lift (yaml_safe_load text) in
    set_schema doc.

Definition _is_cache_valid (cache_file : string) : M bool :=
  let! found := os_path_exists cache_file in
  if negb found then ret false
  else
    let! file_mtime := os_path_getmtime cache_file in
    let! schema := self_schema in
    let! update_frequency := lift (Py.getitem schema "update_frequency") in
    if Py.eq_str update_frequency "weekly" then
      let! now := datetime_now in
      ret (file_mtime >? now - one_week)%Z
    else ret false.

(** [pd.read_<fmt>(cache_file)] *)
Definition pd_read (fmt : string) (decode : string → result table)
    (cache_file : string) : M table :=
  let! _ := emit (ReadTable fmt cache_file) in
  fun st =>
    match fs st !! cache_file with
    | Some f => (decode (content f), st)
    | None => (Raise (FileNotFoundError cache_file), st)
    end.

(** [df.to_<fmt>(cache_file, index=False)] *)
Definition df_write (fmt : string) (encode : table → result string)
    (df : table) (cache_file : string) : M unit :=
  let! _ := emit (WriteTable fmt cache_file) in
  let! bytes := lift (encode df) in
  write_file cache_file bytes.

Definition _read_cache (cache_file : string) : M table :=
  let! schema := self_schema in
  let! destination := lift (Py.getitem schema "destination") in
  let! cache_format := lift (Py.getitem destination "format") in
  if Py.eq_str cache_format "parquet" then pd_read "parquet" read_parquet cache_file
  else if Py.eq_str cache_format "csv" then pd_read "csv" read_csv cache_file
  else raise (ValueError ("Unsupported cache format: " ++ py_str cache_format)).

Definition _load_from_source : M table :=
  let! schema := self_schema in
  let! source := lift (Py.getitem schema "source") in
  let! source_type := lift (Py.getitem source "type") in
  let! source := lift (Py.getitem schema "source") in
  let! connection_info := lift (Py.get source "connection" (PDict [])) in
  let! query := lift (_generate_query schema schema) in
  (* the registry lookup opens the [try] block; it raises no [ImportError],
     so it is run ahead of the handler, whose message needs its result *)
  let! module_name := lift (registry_getitem source_type) in
  except_ImportError
    (let! _ := emit (ImportModule module_name) in
     let! _ := lift (import_module module_name) in
     if Py.eq_str source_type "mysql" || Py.eq_str source_type "postgres" then
       let entry := "load_from_" ++ py_str source_type in
       let! _ := emit (BackendCall module_name entry connection_info query) in
       lift (load_function module_name entry connection_info query)
     else
       let entry := Str.capitalize (py_str source_type) ++ "Connector" in
       let! _ := emit (BackendCall module_name entry connection_info query) in
       lift (connector_query module_name entry connection_info query))
    (ImportError (Str.capitalize (py_str source_type)
                  ++ " connector not found. Please install the "
                  ++ module_name ++ " library.")).

Definition _cache_data (df : table) (cache_file : string) : M unit :=
  let! schema := self_schema in
  let! destination := lift (Py.getitem schema "destination") in
  let! cache_format := lift (Py.getitem destination "format") in
  if Py.eq_str cache_format "parquet" then df_write "parquet" to_parquet df cache_file
  else if Py.eq_str cache_format "csv" then df_write "csv" to_csv df cache_file
  else raise (ValueError ("Unsupported cache format: " ++ py_str cache_format)).

Definition load (dataset_path : string) : M table :=
  let! _ := set_dataset_path (PStr dataset_path) in
  let! _ := _load_schema in
  let! schema := self_schema in
  let! _ := lift (_validate_source_type schema) in
  let! self_path := self_dataset_path in
  let! cache_file := lift (_get_cache_file_path self_path schema) in
  let! valid := _is_cache_valid cache_file in
  if valid then _read_cache cache_file
  else
    let! df := _load_from_source in
    let! df := lift (_apply_transformations schema df) in
    let! _ := _cache_data df cache_file in
    ret df.

End Loader.

(** ** Vocabulary of the statements *)

(** Where the schema document of a dataset lives. *)
Definition schema_path (id : string) : string :=
  Path.join "datasets" [id; "schema.yaml"].

(** The two reads that resolve a schema. *)
Definition schema_reads (id : string) : list event :=
  [PathExists (schema_path id); OpenRead (schema_path id)].

(** The loader once the schema [doc] of dataset [id] has been read. *)
Definition resolved (id : string) (doc : pyval) (st : state) : state :=
  State doc (PStr id) (fs st) (clock st) (trace st ++ schema_reads id)%list.

Definition is_source_event (ev : event) : bool :=
  match ev with
  | ImportModule _ | BackendCall _ _ _ _ => true
  | _ => false
  end.

Definition is_cache_io (ev : event) : bool :=
  match ev with
  | ReadTable _ _ | WriteTable _ _ => true
  | _ => false
  end.

Definition is_write (ev : event) : bool :=
  match ev with
  | WriteTable _ _ => true
  | _ => false
  end.

(** What a schema declares for [order_by], and the clause it stands for. *)
Inductive order_by_decl : Type :=
| NoOrder
| OrderScalar (clause : string)
| OrderList (keys : list string).

Definition order_by_value (d : order_by_decl) : option pyval :=
  match d with
  | NoOrder => None
  | OrderScalar clause => Some (PStr clause)
  | OrderList keys => Some (PList (map PStr keys))
  end.

Definition order_by_sql (d : order_by_decl) : string :=
  match d with
  | NoOrder => EmptyString
  | OrderScalar clause => " ORDER BY " ++ clause
  | OrderList keys => " ORDER BY " ++ Str.join ", " keys
  end.

Definition limit_sql (l : option Z) : string :=
  match l with
  | None => EmptyString
  | Some n => " LIMIT " ++ pretty n
  end.

(** The cache format a schema declares. *)
Definition declared_format (doc : pyval) : result pyval :=
  rbind (Py.getitem doc "destination")
        (fun destination => Py.getitem destination "format").

(** The codec of a supported cache format. *)
Definition decoder_of `{!Collaborators} (fmt : string) : string → result table :=
  if decide (fmt = "parquet") then read_parquet else read_csv.

Definition encoder_of `{!Collaborators} (fmt : string) : table → result string :=
  if decide (fmt = "parquet") then to_parquet else to_csv.

(** What a run that started in [st] and ended in [st'] did: the calls it
    added to the trace. *)
Definition calls_between (st st' : state) (evs : list event) : Prop :=
  trace st' = (trace st ++ evs)%list.

(** The calls [evs] include a fetch from the source of [src]: the backend
    module [m] is imported and, once imported, an entry point of it is run
    with the connection settings of [src] and the query [q]. *)
Definition source_fetch_made `{!Collaborators} (src : pyval) (m q : string)
    (evs : list event) : Prop :=
  ∃ conn,
    Py.get src "connection" (PDict []) = Ok conn
    ∧ In (ImportModule m) evs
    ∧ (import_module m = Ok tt → ∃ entry, In (BackendCall m entry conn q) evs).

(** ** A small concrete world, for the examples *)

Module Demo.

Definition customers : table :=
  [("id", [PInt 1; PInt 2]);
   ("email", [PStr "alice@example.com"; PStr "not-an-email"])].

Definition source (source_type : string) : pyval :=
  PDict [("type", PStr source_type);
         ("connection", PDict [("host", PStr "db")]);
         ("table", PStr "customers")].

Definition schema_with (frequency : list (string * pyval))
    (source_type format column : string) : pyval :=
  PDict ([("source", source source_type);
          ("columns", PList [PDict [("name", PStr "id")];
                             PDict [("name", PStr "email")]]);
          ("destination", PDict [("format", PStr format)])]
         ++ frequency
         ++ [("transformations",
              PList [PDict [("type", PStr "anonymize");
                            ("params", PDict [("column", PStr column)])]])])%list.

Definition weekly : pyval :=
  schema_with [("update_frequency", PStr "weekly")] "mysql" "parquet" "email".
Definition daily : pyval :=
  schema_with [("update_frequency", PStr "daily")] "mysql" "parquet" "email".
Definition undeclared : pyval := schema_with [] "mysql" "parquet" "email".
Definition mongodb : pyval :=
  schema_with [("update_frequency", PStr "weekly")] "mongodb" "parquet" "email".
(** A schema whose transformation names a column the source does not
    return. *)
Definition phoneless : pyval :=
  schema_with [("update_frequency", PStr "daily")] "mysql" "parquet" "phone".

(** The address "\ud800@x": a lone surrogate for its local part. *)
Definition lone_local : Text.t := [Text.Lone 0; Text.Enc "@"; Text.Enc "x"].

(** The parser of the examples knows its documents by their text. *)
Definition parse (text : string) : result pyval :=
  if decide (text = "weekly") then Ok weekly
  else if decide (text = "daily") then Ok daily
  else if decide (text = "undeclared") then Ok undeclared
  else if decide (text = "mongodb") then Ok mongodb
  else if decide (text = "phoneless") then Ok phoneless
  else Raise (ExternalError "yaml").

(** A codec that stores one column of one cell. *)
Definition decode (bytes : string) : result table := Ok [("email", [PStr bytes])].
Definition encode (df : table) : result string := Ok "stored".

#[local] Instance world : Collaborators := {|
  container_repr := fun _ => "<repr>";
  md5_hexdigest := fun s => "md5(" ++ s ++ ")";
  yaml_safe_load := parse;
  read_parquet := decode;
  read_csv := decode;
  to_parquet := encode;
  to_csv := encode;
  import_module := fun _ => Ok tt;
  load_function := fun _ _ _ _ => Ok customers;
  connector_query := fun _ _ _ _ => Ok customers;
  to_datetime_dt := fun col => Ok col;
  tz_convert := fun col _ => Ok col;
  convert_objects := fun col => col
|}.

(** A cache artifact last written at time 0. *)
Definition files (doc : string) : gmap string file :=
  {[ "datasets/sales/schema.yaml" := File 0 doc;
     "datasets/sales/data.parquet" := File 0 "bob@example.com" ]}.

Definition without_cache (doc : string) : gmap string file :=
  {[ "datasets/sales/schema.yaml" := File 0 doc ]}.

Definition start (files : gmap string file) (now : Z) : state :=
  State PNone PNone files now [].

End Demo.

(** The loader at a later time [now], everything else as [st] left it. *)
Definition at_time (now : Z) (st : state) : state :=
  State (schema st) (dataset_path st) (fs st) now (trace st).

(** The entry point the naming convention assigns to a source type. *)
Definition entry_point (source_type : string) : string :=
  if decide (source_type = "mysql" ∨ source_type = "postgres")
  then "load_from_" ++ source_type
  else Str.capitalize source_type ++ "Connector".

(** The message of the error raised when a backend cannot be imported. *)
Definition connector_not_found (source_type module_name : string) : exn :=
  ImportError (Str.capitalize source_type
               ++ " connector not found. Please install the "
               ++ module_name ++ " library.").

(** [DatasetLoader.__init__]: a loader made in the world of [st], with no
    schema and no dataset yet. *)
Definition __init__ (st : state) : state :=
  State PNone PNone (fs st) (clock st) (trace st).

(** The calls of a run that concern the cache artifact's content or the
    source. *)
Definition cache_and_source_calls (evs : list event) : list event :=
  List.filter (fun ev => is_cache_io ev || is_source_event ev) evs.

(** ** Further concrete worlds *)

Module Scenario.

(** A schema that declares a cache format without a codec. *)
Definition json : pyval :=
  Demo.schema_with [("update_frequency", PStr "daily")] "mysql" "json" "email".

(** A schema that declares no columns. *)
Definition columnless : pyval :=
  PDict [("source", Demo.source "mysql");
         ("destination", PDict [("format", PStr "parquet")]);
         ("update_frequency", PStr "daily")].

Definition parse (text : string) : result pyval :=
  if decide (text = "json") then Ok json
  else if decide (text = "columnless") then Ok columnless
  else Demo.parse text.

Definition files (doc : string) : gmap string file :=
  {[ "datasets/sales/schema.yaml" := File 0 doc ]}.

(** The world of [Demo], with the document above and a cache that cannot
    be decoded. *)
Definition unreadable : Collaborators := {|
  container_repr := fun _ => "<repr>";
  md5_hexdigest := fun s => "md5(" ++ s ++ ")";
  yaml_safe_load := parse;
  read_parquet := fun _ => Raise (ExternalError "corrupt");
  read_csv := fun _ => Raise (ExternalError "corrupt");
  to_parquet := Demo.encode;
  to_csv := Demo.encode;
  import_module := fun _ => Ok tt;
  load_function := fun _ _ _ _ => Ok Demo.customers;
  connector_query := fun _ _ _ _ => Ok Demo.customers;
  to_datetime_dt := fun col => Ok col;
  tz_convert := fun col _ => Ok col;
  convert_objects := fun col => col
|}.

(** A world in which no backend module is installed. *)
Definition offline : Collaborators := {|
  container_repr := fun _ => "<repr>";
  md5_hexdigest := fun s => "md5(" ++ s ++ ")";
  yaml_safe_load := parse;
  read_parquet := Demo.decode;
  read_csv := Demo.decode;
  to_parquet := Demo.encode;
  to_csv := Demo.encode;
  import_module := fun m => Raise (ImportError ("No module named " ++ m));
  load_function := fun _ _ _ _ => Ok Demo.customers;
  connector_query := fun _ _ _ _ => Ok Demo.customers;
  to_datetime_dt := fun col => Ok col;
  tz_convert := fun col _ => Ok col;
  convert_objects := fun col => col
|}.

(** The loader with the schema [doc] in place. *)
Definition holding (doc : pyval) : state :=
  State doc (PStr "sales") ∅ 0 [].

End Scenario.

(** * Properties *)

(** ** Strings: searching and splitting at "@" *)

Lemma contains_char_iff (c : ascii) (s : string) :
  Str.contains (String c EmptyString) s = true ↔ Str.has_char c s.
Proof.
  induction s as [|a s IH]; simpl.
  - split; [discriminate | tauto].
  - destruct (ascii_dec c a) as [->|Hne]; simpl.
    + split; [by left | by destruct s].
    + rewrite IH. split; [tauto |]. intros [Heq|Hin]; [congruence | done].
Qed.

Lemma contains_char_false (c : ascii) (s : string) :
  Str.contains (String c EmptyString) s = false ↔ ¬ Str.has_char c s.
Proof.
  rewrite <- contains_char_iff. by destruct (Str.contains _ s).
Qed.

(** [rpartition] cuts at the last occurrence: nothing of the separator is
    left on the right, and the pieces give the string back. *)
Lemma rpartition_spec (c : ascii) (s : string) :
  match Str.rpartition c s with
  | Some (l, r) => s = l ++ String c r ∧ ¬ Str.has_char c r
  | None => ¬ Str.has_char c s
  end.
Proof.
  induction s as [|a s IH]; simpl.
  - tauto.
  - destruct (Str.rpartition c s) as [[l r]|].
    + destruct IH as [-> Hr]. done.
    + destruct (ascii_dec a c) as [->|Hne].
      * done.
      * intros [Heq|Hin]; [done | by apply IH].
Qed.

Lemma rpartition_found (c : ascii) (s : string) :
  Str.has_char c s →
  ∃ l r, Str.rpartition c s = Some (l, r) ∧ s = l ++ String c r ∧ ¬ Str.has_char c r.
Proof.
  intros Hin. pose proof (rpartition_spec c s) as Hs.
  destruct (Str.rpartition c s) as [[l r]|]; [| done].
  exists l, r. tauto.
Qed.

Lemma str_app_nil_r (s : string) : s ++ EmptyString = s.
Proof.
  induction s as [|a s IH]; [done |].
  change (String a (s ++ EmptyString) = String a s). by rewrite IH.
Qed.

Lemma str_app_assoc (s t u : string) : (s ++ t) ++ u = s ++ t ++ u.
Proof.
  induction s as [|a s IH]; [done |].
  change (String a ((s ++ t) ++ u) = String a (s ++ t ++ u)). by rewrite IH.
Qed.

Lemma str_length_app (l r : string) :
  String.length (l ++ r) = String.length l + String.length r.
Proof. induction l as [|a l IH]; simpl; [done | by rewrite IH]. Qed.

Lemma has_char_app (c : ascii) (l r : string) :
  Str.has_char c (l ++ r) ↔ Str.has_char c l ∨ Str.has_char c r.
Proof. induction l as [|a l IH]; simpl; [tauto | rewrite IH; tauto]. Qed.

(** The cut at the last occurrence is the only one whose right piece is
    free of the separator. *)
Lemma last_cut_unique (c : ascii) (l1 r1 l2 r2 : string) :
  l1 ++ String c r1 = l2 ++ String c r2 →
  ¬ Str.has_char c r1 → ¬ Str.has_char c r2 →
  l1 = l2 ∧ r1 = r2.
Proof.
  revert l2. induction l1 as [|a l1 IH]; intros [|b l2] Heq H1 H2; simpl in *.
  - by injection Heq.
  - injection Heq as <- ->. exfalso. apply H1, has_char_app. right. by left.
  - injection Heq as -> <-. exfalso. apply H2, has_char_app. right. by left.
  - injection Heq as -> Heq. destruct (IH l2 Heq H1 H2) as [-> ->]. done.
Qed.

(** ** The anonymize transform *)

Section Anonymize.

Context `{!Collaborators}.


(** A string with an "@" is cut in two at its last "@", and the local
    part is replaced by its hash. *)
Lemma anonymize_email (s : string) :
  Str.contains "@" s = true →
  ∃ local domain,
    Str.rsplit1 "@" s = [local; domain]
    ∧ s = local ++ "@" ++ domain
    ∧ Str.contains "@" domain = false
    ∧ _anonymize (PStr s) = Ok (PStr (md5_hexdigest local ++ "@" ++ domain)).
Proof.
  intros Hat. pose proof Hat as Hin. apply contains_char_iff in Hin.
  destruct (rpartition_found _ _ Hin) as (l & r & Hp & Hs & Hr).
  exists l, r. unfold _anonymize, Str.rsplit1. rewrite Hat, Hp. simpl.
  split; [done |]. split; [done |]. split; [| done].
  by apply contains_char_false.
Qed.

Lemma anonymize_passthrough (value : pyval) :
  (∀ s, value = PStr s → Str.contains "@" s = false) →
  _anonymize value = Ok value.
Proof.
  intros Hv. destruct value as [| | |s| | |]; try done.
  simpl. by rewrite (Hv s eq_refl).
Qed.

(** [_anonymize] never raises. *)
Lemma anonymize_total (value : pyval) : ∃ v, _anonymize value = Ok v.
Proof.
  destruct value as [| | |s| | |]; try (by eexists).
  destruct (Str.contains "@" s) eqn:Hat.
  - destruct (anonymize_email s Hat) as (l & r & _ & _ & _ & ->). by eexists.
  - exists (PStr s). by apply anonymize_passthrough; intros ? [= <-].
Qed.


(** On the strings a [PStr] holds the split at the last "@" always
    yields two parts and the handler of the [try] is never entered; a
    string "@<domain>" is rewritten to "<hash of the empty
    string>@<domain>", which differs from the input as soon as that hash
    is not empty. *)
Lemma split_of_encoded_string_never_fails (s : string) :
  Str.contains "@" s = true →
  (∃ local domain,
     unpack2 (Str.rsplit1 "@" s) = Ok (local, domain)
     ∧ s = local ++ "@" ++ domain
     ∧ _anonymize (PStr s) = Ok (PStr (md5_hexdigest local ++ "@" ++ domain)))
  ∧ (∀ domain, s = "@" ++ domain → Str.contains "@" domain = false →
       _anonymize (PStr s) = Ok (PStr (md5_hexdigest EmptyString ++ "@" ++ domain))
       ∧ (md5_hexdigest EmptyString ≠ EmptyString → _anonymize (PStr s) ≠ Ok (PStr s))).
Proof.
  intros Hat.
  destruct (anonymize_email s Hat) as (l & r & Hsplit & Hs & Hr & Ha).
  split.
  - exists l, r. by rewrite Hsplit.
  - intros domain Hd Hfree.
    assert (l = EmptyString ∧ r = domain) as [-> ->].
    { apply (last_cut_unique "@").
      - transitivity s; [symmetry; exact Hs | exact Hd].
      - by apply contains_char_false.
      - by apply contains_char_false. }
    split; [done |]. intros Hne. rewrite Ha, Hd. simpl. intros [= Heq].
    destruct (md5_hexdigest EmptyString) as [|a h]; [done |].
    simpl in Heq. injection Heq as -> Heq.
    apply (f_equal String.length) in Heq.
    rewrite str_length_app in Heq. simpl in Heq. lia.
Qed.

(** *** Every [str] of Python *)

Lemma is_char_true (c : ascii) (x : Text.code) :
  Text.is_char c x = true → x = Text.Enc c.
Proof.
  destruct x as [a|n]; simpl; [| done].
  by destruct (ascii_dec a c) as [->|].
Qed.

Lemma text_rpartition_none (c : ascii) (value : Text.t) :
  Text.contains_char c value = false → Text.rpartition c value = None.
Proof.
  unfold Text.contains_char.
  induction value as [|x value IH]; simpl; [done |].
  intros Hno. apply orb_false_iff in Hno as [Hx Hrest].
  by rewrite (IH Hrest), Hx.
Qed.

(** A text with the separator is cut at its last occurrence. *)
Lemma text_rpartition_found (c : ascii) (value : Text.t) :
  Text.contains_char c value = true →
  ∃ l r, Text.rpartition c value = Some (l, r)
         ∧ value = (l ++ Text.Enc c :: r)%list
         ∧ Text.contains_char c r = false.
Proof.
  induction value as [|x value IH]; [done |].
  change (Text.contains_char c (x :: value))
    with (Text.is_char c x || Text.contains_char c value).
  destruct (Text.contains_char c value) eqn:Hrest; simpl.
  - intros _. destruct (IH eq_refl) as (l & r & -> & -> & Hr).
    by exists (x :: l), r.
  - rewrite orb_false_r. intros Hx.
    rewrite (text_rpartition_none _ _ Hrest), Hx.
    exists [], value. by rewrite (is_char_true _ _ Hx).
Qed.

Lemma text_rpartition_last (c : ascii) (l r : Text.t) :
  Text.contains_char c r = false →
  Text.rpartition c (l ++ Text.Enc c :: r)%list = Some (l, r).
Proof.
  intros Hr. induction l as [|x l IH]; simpl.
  - rewrite (text_rpartition_none _ _ Hr). by destruct (ascii_dec c c).
  - by rewrite IH.
Qed.

(** [encode] fails exactly on a text that holds a lone surrogate. *)
Lemma encode_ok (value : Text.t) :
  Text.has_lone value = false →
  ∃ bytes, Text.encode value = Ok bytes ∧ value = Text.of_string bytes.
Proof.
  unfold Text.has_lone.
  induction value as [|[a|n] value IH]; simpl; [by exists EmptyString | | done].
  intros Hno. destruct (IH Hno) as (bytes & -> & ->). by exists (String a bytes).
Qed.

Lemma encode_raises (value : Text.t) :
  Text.has_lone value = true →
  ∃ msg, Text.encode value = Raise (ValueError msg).
Proof.
  unfold Text.has_lone.
  induction value as [|[a|n] value IH]; simpl; [done | | by eexists].
  intros Hlone. destruct (IH Hlone) as (msg & ->). by exists msg.
Qed.

Lemma of_string_app (l r : string) :
  Text.of_string (l ++ r) = (Text.of_string l ++ Text.of_string r)%list.
Proof.
  induction l as [|a l IH]; [done |].
  change (Text.Enc a :: Text.of_string (l ++ r)
          = Text.Enc a :: (Text.of_string l ++ Text.of_string r)%list).
  by rewrite IH.
Qed.

Lemma of_string_has_lone (s : string) : Text.has_lone (Text.of_string s) = false.
Proof. induction s as [|a s IH]; [done | exact IH]. Qed.

Lemma of_string_encode (s : string) : Text.encode (Text.of_string s) = Ok s.
Proof. induction s as [|a s IH]; simpl; [done | by rewrite IH]. Qed.

Lemma of_string_contains_char (c : ascii) (s : string) :
  Text.contains_char c (Text.of_string s) = Str.contains (String c EmptyString) s.
Proof.
  assert (Text.contains_char c (Text.of_string s) = true ↔ Str.has_char c s) as Hiff.
  { unfold Text.contains_char. induction s as [|a s IH]; simpl; [done |].
    rewrite orb_true_iff, IH. destruct (ascii_dec a c); [tauto |].
    split; [intros [?|?]; [done | by right] | intros [?|?]; [done | by right]]. }
  rewrite <- contains_char_iff in Hiff.
  destruct (Text.contains_char c (Text.of_string s)), (Str.contains _ s);
    try done; [symmetry; by apply Hiff | by apply Hiff].
Qed.

Lemma of_string_rpartition (c : ascii) (s : string) :
  Text.rpartition c (Text.of_string s)
  = match Str.rpartition c s with
    | Some (l, r) => Some (Text.of_string l, Text.of_string r)
    | None => None
    end.
Proof.
  induction s as [|a s IH]; simpl; [done |].
  rewrite IH. destruct (Str.rpartition c s) as [[l r]|]; [done |].
  by destruct (ascii_dec a c).
Qed.

(** The two embeddings of [_anonymize] agree on the strings a [PStr]
    holds. *)
Lemma anonymize_str_agrees (s : string) :
  ∃ s', _anonymize (PStr s) = Ok (PStr s')
        ∧ _anonymize_str (Text.of_string s) = Ok (Text.of_string s').
Proof.
  unfold _anonymize_str, anonymize_attempt, Text.rsplit1.
  rewrite (of_string_contains_char "@"), of_string_rpartition.
  destruct (Str.contains "@" s) eqn:Hat.
  - destruct (anonymize_email s Hat) as (l & r & Hsplit & _ & _ & ->).
    exists (md5_hexdigest l ++ "@" ++ r). split; [done |].
    unfold Str.rsplit1 in Hsplit.
    destruct (Str.rpartition "@" s) as [[l' r']|]; [| done].
    injection Hsplit as -> ->. simpl. rewrite of_string_encode. simpl.
    by rewrite !of_string_app.
  - exists s. split; [| done]. simpl. by rewrite Hat.
Qed.

(** C9: a string with an "@" is always split in two at its last "@", so
    the unpacking never raises; the handler of the [try] is entered all
    the same, exactly when the local part holds a lone surrogate, which
    [encode] refuses with a [ValueError]: the value then comes back as it
    is.  When the local part has an encoding, as it has in every string
    a [PStr] holds, the handler is not entered and the value is rewritten
    to "<hash(local)>@<domain>"; a string "@<domain>" is rewritten to
    "<hash of the empty string>@<domain>". *)
Theorem anonymize_handler_entered_by_encoding (value : Text.t) :
  Text.contains_char "@" value = true →
  (∃ local domain,
     unpack2 (Text.rsplit1 "@" value) = Ok (local, domain)
     ∧ value = (local ++ Text.of_string "@" ++ domain)%list
     ∧ Text.contains_char "@" domain = false
     ∧ (Text.has_lone local = true →
          (∃ msg, anonymize_attempt value = Raise (ValueError msg))
          ∧ _anonymize_str value = Ok value)
     ∧ (Text.has_lone local = false →
          ∃ bytes,
            Text.encode local = Ok bytes
            ∧ anonymize_attempt value
              = Ok (Text.of_string (md5_hexdigest bytes)
                    ++ Text.of_string "@" ++ domain)%list
            ∧ _anonymize_str value
              = Ok (Text.of_string (md5_hexdigest bytes)
                    ++ Text.of_string "@" ++ domain)%list))
  ∧ (∀ s, value = Text.of_string s →
       ∃ local domain,
         unpack2 (Str.rsplit1 "@" s) = Ok (local, domain)
         ∧ _anonymize (PStr s) = Ok (PStr (md5_hexdigest local ++ "@" ++ domain))
         ∧ _anonymize_str value
           = Ok (Text.of_string (md5_hexdigest local ++ "@" ++ domain)))
  ∧ (∀ domain,
       value = (Text.of_string "@" ++ domain)%list →
       Text.contains_char "@" domain = false →
       _anonymize_str value
       = Ok (Text.of_string (md5_hexdigest EmptyString)
             ++ Text.of_string "@" ++ domain)%list).
Proof.
  intros Hat. split; [| split].
  - destruct (text_rpartition_found _ _ Hat) as (local & domain & Hcut & Hvalue & Hfree).
    exists local, domain.
    unfold _anonymize_str, anonymize_attempt, Text.rsplit1. rewrite Hat, Hcut. simpl.
    split; [done |]. split; [done |]. split; [done |]. split.
    + intros Hlone. destruct (encode_raises _ Hlone) as (msg & ->). simpl.
      split; [by exists msg | done].
    + intros Hnone. destruct (encode_ok _ Hnone) as (bytes & Henc & _).
      exists bytes. by rewrite Henc.
  - intros s ->. rewrite (of_string_contains_char "@") in Hat.
    destruct (anonymize_email s Hat) as (l & r & Hsplit & _ & _ & Ha).
    exists l, r. rewrite Hsplit. split; [done |]. split; [done |].
    destruct (anonymize_str_agrees s) as (s' & Hs' & ->).
    rewrite Ha in Hs'. by injection Hs' as <-.
  - intros domain -> Hfree.
    unfold _anonymize_str, anonymize_attempt, Text.rsplit1. rewrite Hat.
    change (Text.of_string "@" ++ domain)%list with ([] ++ Text.Enc "@" :: domain)%list.
    by rewrite (text_rpartition_last "@" [] domain Hfree).
Qed.

End Anonymize.

(** ** Query construction *)

Section Query.

Context `{!Collaborators}.

Lemma rmapM_names (cols : list pyval) (names : list string) :
  Forall2 (fun col n => Py.getitem col "name" = Ok (PStr n)) cols names →
  rmapM (fun col => Py.getitem col "name") cols = Ok (map PStr names).
Proof.
  induction 1 as [|col n cols names Hcol _ IH]; simpl; [done |].
  by rewrite Hcol, IH.
Qed.

Lemma rmapM_as_str (names : list string) :
  rmapM Py.as_str (map PStr names) = Ok names.
Proof. induction names as [|n names IH]; simpl; [done | by rewrite IH]. Qed.

(** The query of a schema with the columns [names], the table [t] and the
    declared ordering and limit. *)
Lemma generate_query_formula (kvs : list (string * pyval)) (cols : list pyval)
    (names : list string) (src : pyval) (t : string)
    (ob : order_by_decl) (lim : option Z) :
  Py.assoc "columns" kvs = Some (PList cols) →
  Forall2 (fun col n => Py.getitem col "name" = Ok (PStr n)) cols names →
  Py.assoc "source" kvs = Some src →
  Py.getitem src "table" = Ok (PStr t) →
  Py.assoc "order_by" kvs = order_by_value ob →
  Py.assoc "limit" kvs = PInt <$> lim →
  _generate_query (PDict kvs) (PDict kvs)
  = Ok ("SELECT " ++ Str.join ", " names ++ " FROM " ++ t
        ++ order_by_sql ob ++ limit_sql lim).
Proof.
  intros Hcols Hnames Hsrc Htable Hob Hlim.
  unfold _generate_query. simpl. rewrite Hcols. simpl.
  rewrite (rmapM_names _ _ Hnames). simpl. rewrite rmapM_as_str. simpl.
  rewrite Hsrc. simpl. rewrite Htable. simpl. rewrite Hob, Hlim.
  destruct ob as [|clause|keys], lim as [n|]; simpl;
    rewrite ?rmapM_as_str; simpl.
  all: rewrite ?str_app_nil_r, ?str_app_assoc; simpl;
    rewrite ?str_app_assoc; done.
Qed.

(** The query is the same for two schemas that agree on the columns, the
    table, the ordering and the limit. *)
Lemma generate_query_depends (kvs1 kvs2 : list (string * pyval)) :
  Py.assoc "columns" kvs1 = Py.assoc "columns" kvs2 →
  rbind (Py.getitem (PDict kvs1) "source") (fun src => Py.getitem src "table")
  = rbind (Py.getitem (PDict kvs2) "source") (fun src => Py.getitem src "table") →
  Py.assoc "order_by" kvs1 = Py.assoc "order_by" kvs2 →
  Py.assoc "limit" kvs1 = Py.assoc "limit" kvs2 →
  _generate_query (PDict kvs1) (PDict kvs1) = _generate_query (PDict kvs2) (PDict kvs2).
Proof.
  intros Hcols Htable Hob Hlim.
  unfold _generate_query. simpl in *. rewrite Hcols, Hob, Hlim.
  destruct (Py.assoc "columns" kvs2) as [cols|]; simpl; [| done].
  destruct (Py.iter cols) as [items|]; simpl; [| done].
  destruct (rmapM _ items) as [names|]; simpl; [| done].
  destruct (rmapM Py.as_str names) as [strs|]; simpl; [| done].
  destruct (Py.assoc "source" kvs1) as [src1|], (Py.assoc "source" kvs2) as [src2|];
    simpl in *.
  - by rewrite Htable.
  - by rewrite Htable.
  - by rewrite <- Htable.
  - congruence.
Qed.

(** C5: the query is a function of the columns, the table, the ordering
    and the limit alone.  With column names [names] and table [t] it is
    "SELECT <names joined with ', '> FROM <t>", names and table verbatim;
    a declared order_by appends " ORDER BY <clause>" (a list joined with
    ", ", a string as it is), a declared limit appends " LIMIT <n>" after
    it; columns [a, b] and table [t] alone give "SELECT a, b FROM t". *)
Theorem generate_query_pure :
  (∀ kvs cols names src t ob lim,
     Py.assoc "columns" kvs = Some (PList cols) →
     Forall2 (fun col n => Py.getitem col "name" = Ok (PStr n)) cols names →
     Py.assoc "source" kvs = Some src →
     Py.getitem src "table" = Ok (PStr t) →
     Py.assoc "order_by" kvs = order_by_value ob →
     Py.assoc "limit" kvs = PInt <$> lim →
     _generate_query (PDict kvs) (PDict kvs)
     = Ok ("SELECT " ++ Str.join ", " names ++ " FROM " ++ t
           ++ order_by_sql ob ++ limit_sql lim))
  ∧ (∀ kvs1 kvs2,
       Py.assoc "columns" kvs1 = Py.assoc "columns" kvs2 →
       rbind (Py.getitem (PDict kvs1) "source") (fun src => Py.getitem src "table")
       = rbind (Py.getitem (PDict kvs2) "source") (fun src => Py.getitem src "table") →
       Py.assoc "order_by" kvs1 = Py.assoc "order_by" kvs2 →
       Py.assoc "limit" kvs1 = Py.assoc "limit" kvs2 →
       _generate_query (PDict kvs1) (PDict kvs1)
       = _generate_query (PDict kvs2) (PDict kvs2))
  ∧ (∀ a b t : string,
       _generate_query PNone
         (PDict [("columns", PList [PDict [("name", PStr a)]; PDict [("name", PStr b)]]);
                 ("source", PDict [("table", PStr t)])])
       = Ok ("SELECT " ++ a ++ ", " ++ b ++ " FROM " ++ t)).
Proof.
  split; [exact generate_query_formula |].
  split; [exact generate_query_depends |].
  intros a b t. unfold _generate_query. simpl. by rewrite !str_app_assoc.
Qed.

End Query.

(** ** Cache path derivation *)

Section CachePath.

Context `{!Collaborators}.

Lemma endswith_char_app (c : ascii) (s t : string) :
  t ≠ EmptyString → Str.endswith_char c (s ++ t) = Str.endswith_char c t.
Proof.
  intros Ht. induction s as [|a s IH]; [done |].
  change (Str.endswith_char c (String a (s ++ t)) = Str.endswith_char c t).
  simpl. destruct (s ++ t) eqn:Hst; [| done].
  destruct s; [| done]. by destruct Ht.
Qed.

Lemma join_step_relative (path b : string) :
  path ≠ EmptyString →
  Str.endswith_char "/" path = false →
  Str.startswith "/" b = false →
  Path.join_step path b = path ++ "/" ++ b.
Proof.
  intros Hne Hend Hrel. unfold Path.join_step. rewrite Hrel, Hend.
  by destruct (decide (path = EmptyString)).
Qed.

(** With a relative identifier and a relative file name the join is the
    three components separated by "/". *)
Lemma join_relative (id p : string) :
  id ≠ EmptyString →
  Str.startswith "/" id = false →
  Str.endswith_char "/" id = false →
  Str.startswith "/" p = false →
  Path.join "datasets" [id; p] = "datasets/" ++ id ++ "/" ++ p.
Proof.
  intros Hid Hrel Hend Hp.
  change (Path.join "datasets" [id; p])
    with (Path.join_step (Path.join_step "datasets" id) p).
  rewrite (join_step_relative "datasets" id) by done.
  rewrite join_step_relative; [| | | done].
  - by rewrite !str_app_assoc.
  - done.
  - change ("datasets" ++ "/" ++ id) with ("datasets/" ++ id).
    by rewrite endswith_char_app.
Qed.

(** C8: when the destination declares a path, the cache file is the join
    of the datasets root, the dataset identifier and that path as it
    is; otherwise it is the join of the root, the identifier and
    "data.parquet" when the format is "parquet", "data.csv" for any
    other format. *)
Theorem cache_file_path_derivation (id : string) (kvs dest : list (string * pyval)) :
  Py.assoc "destination" kvs = Some (PDict dest) →
  (∀ p, Py.assoc "path" dest = Some (PStr p) →
     _get_cache_file_path (PStr id) (PDict kvs)
     = Ok (Path.join "datasets" [id; p]))
  ∧ (∀ fmt, Py.assoc "path" dest = None → Py.assoc "format" dest = Some fmt →
       _get_cache_file_path (PStr id) (PDict kvs)
       = Ok (Path.join "datasets"
               [id; if Py.eq_str fmt "parquet" then "data.parquet" else "data.csv"])).
Proof.
  intros Hdest. unfold _get_cache_file_path. simpl. rewrite Hdest. simpl. split.
  - intros p Hp. by rewrite Hp.
  - intros fmt Hp Hfmt. rewrite Hp, Hfmt. simpl.
    by destruct (Py.eq_str fmt "parquet").
Qed.

End CachePath.

(** ** The transformation engine *)

Section Transformations.

Context `{!Collaborators}.

Lemma column_set_same (c : string) (col : series) (df : table) :
  Frame.column c (Frame.set_column c col df) = Some col.
Proof.
  induction df as [|[c' old] df IH]; simpl.
  - by destruct (decide (c = c)).
  - destruct (decide (c' = c)) as [->|Hne]; simpl.
    + by destruct (decide (c = c)).
    + by destruct (decide (c' = c)).
Qed.

Lemma column_set_other (c c' : string) (col : series) (df : table) :
  c' ≠ c → Frame.column c' (Frame.set_column c col df) = Frame.column c' df.
Proof.
  intros Hne. induction df as [|[k old] df IH]; simpl.
  - by destruct (decide (c = c')).
  - destruct (decide (k = c)) as [->|Hk]; simpl.
    + by destruct (decide (c = c')).
    + by rewrite IH.
Qed.

Lemma labels_set (c : string) (col : series) (df : table) :
  is_Some (Frame.column c df) →
  Frame.labels (Frame.set_column c col df) = Frame.labels df.
Proof.
  unfold Frame.labels. induction df as [|[k old] df IH]; simpl.
  - by intros [? ?].
  - destruct (decide (k = c)) as [->|Hk]; simpl; [done |].
    intros Hc. by rewrite IH.
Qed.

Lemma column_select (c : string) (df : table) :
  Frame.column c df = head (Frame.select c df).
Proof.
  induction df as [|[k old] df IH]; simpl; [done |].
  by destruct (decide (k = c)).
Qed.



(** What [df[key]] can be when it is there. *)
Lemma df_getitem_ok (df : table) (key : pyval) (selected : selection) :
  df_getitem df key = Ok selected →
  ∃ c, key = PStr c
       ∧ match selected with
         | OneColumn col => Frame.select c df = [col]
         | SeveralColumns cols =>
             Frame.select c df = cols ∧ (2 ≤ List.length cols)%nat
         end.
Proof.
  destruct key as [| [] | |c| | |]; simpl; try done.
  destruct (Frame.select c df) as [|col [|col' cols]] eqn:Hc; [done | |].
  - intros [= <-]. by exists c.
  - intros [= <-]. exists c. split; [done |]. split; [done |]. simpl. lia.
Qed.

(** A transformation of a known type rewrites the one column that
    carries the label its parameters name, and nothing else; an
    anonymize entry on a label that several columns carry rewrites
    nothing. *)
Lemma apply_transform_one_column (df df' : table) (transform type : pyval) :
  Py.getitem transform "type" = Ok type →
  Py.eq_str type "anonymize" || Py.eq_str type "convert_timezone" = true →
  apply_transform df transform = Ok df' →
  ∃ c,
    rbind (Py.getitem transform "params") (fun params => Py.getitem params "column")
    = Ok (PStr c)
    ∧ is_Some (Frame.column c df)
    ∧ ((∃ old new,
          Frame.select c df = [old]
          ∧ df' = Frame.set_column c new df
          ∧ (Py.eq_str type "anonymize" = true →
               series_apply _anonymize old = Ok new))
       ∨ ((2 ≤ List.length (Frame.select c df))%nat
          ∧ Py.eq_str type "anonymize" = true
          ∧ df' = df)).
Proof.
  intros Hty Hknown. unfold apply_transform. rewrite Hty. simpl.
  destruct (Py.getitem transform "params") as [params|]; simpl;
    [| by destruct (Py.eq_str type "anonymize"), (Py.eq_str type "convert_timezone")].
  destruct (Py.getitem params "column") as [column|]; simpl;
    [| by destruct (Py.eq_str type "anonymize"), (Py.eq_str type "convert_timezone")].
  destruct (df_getitem df column) as [selected|] eqn:Hsel; simpl;
    [| by destruct (Py.eq_str type "anonymize"), (Py.eq_str type "convert_timezone")].
  destruct (df_getitem_ok _ _ _ Hsel) as (c & -> & Hc).
  assert (is_Some (Frame.column c df)) as Hsome.
  { rewrite column_select. destruct selected as [old|cols].
    - rewrite Hc. by eexists.
    - destruct Hc as [-> Hlen]. destruct cols as [|old cols]; simpl in *; [lia |].
      by eexists. }
  destruct selected as [old|cols].
  - destruct (Py.eq_str type "anonymize") eqn:Hanon.
    + destruct (series_apply _anonymize old) as [new|] eqn:Hnew; simpl; [| done].
      intros [= <-]. exists c. split; [done |]. split; [done |].
      left. by exists old, new.
    + simpl in Hknown. rewrite Hknown.
      destruct (to_datetime_dt old) as [parsed|]; simpl; [| done].
      destruct (Py.getitem params "to") as [to|]; simpl; [| done].
      destruct (tz_convert parsed to) as [new|]; simpl; [| done].
      intros [= <-]. exists c. split; [done |]. split; [done |].
      left. by exists old, new.
  - destruct Hc as [Hc Hlen]. destruct (Py.eq_str type "anonymize") eqn:Hanon.
    + intros [= <-]. exists c. split; [done |]. split; [done |].
      right. by rewrite Hc.
    + simpl in Hknown. by rewrite Hknown.
Qed.

Lemma apply_each_app (ts1 ts2 : list pyval) (df : table) :
  apply_each (ts1 ++ ts2)%list df = rbind (apply_each ts1 df) (apply_each ts2).
Proof.
  revert df. induction ts1 as [|t ts1 IH]; intros df; simpl; [done |].
  destruct (apply_transform df t) as [df1|]; simpl; [apply IH | done].
Qed.


End Transformations.

(** ** The pipeline of [load] *)

Section Pipeline.

Context `{!Collaborators}.

Lemma bind_ok {A B} (c : M A) (k : A → M B) (st st' : state) (a : A) :
  c st = (Ok a, st') → bind c k st = k a st'.
Proof. intros Hc. unfold bind. by rewrite Hc. Qed.

Lemma bind_raise {A B} (c : M A) (k : A → M B) (st st' : state) (e : exn) :
  c st = (Raise e, st') → bind c k st = (Raise e, st').
Proof. intros Hc. unfold bind. by rewrite Hc. Qed.

Lemma log_log (evs1 evs2 : list event) (st : state) :
  log evs2 (log evs1 st) = log (evs1 ++ evs2)%list st.
Proof. unfold log. simpl. by rewrite <- app_assoc. Qed.

Lemma log_nil (st : state) : log [] st = st.
Proof. destruct st. unfold log. simpl. by rewrite app_nil_r. Qed.

Lemma os_path_join_strs (a x y : string) :
  os_path_join a [PStr x; PStr y] = Ok (Path.join a [x; y]).
Proof. done. Qed.

(** *** Schema resolution *)

Lemma load_schema_missing (id : string) (st : state) :
  dataset_path st = PStr id →
  fs st !! schema_path id = None →
  _load_schema st
  = (Raise (FileNotFoundError ("Schema file not found: " ++ schema_path id)),
     log [PathExists (schema_path id)] st).
Proof.
  intros Hid Hf. unfold _load_schema, self_dataset_path, bind at 1. rewrite Hid.
  rewrite os_path_join_strs. fold (schema_path id).
  unfold bind, lift, os_path_exists, emit, bind. simpl. by rewrite Hf.
Qed.

Lemma load_schema_found (id : string) (st : state) (f : file) :
  dataset_path st = PStr id →
  fs st !! schema_path id = Some f →
  _load_schema st
  = match yaml_safe_load (content f) with
    | Ok doc => (Ok tt, State doc (PStr id) (fs st) (clock st)
                              (trace st ++ schema_reads id)%list)
    | Raise e => (Raise e, log (schema_reads id) st)
    end.
Proof.
  intros Hid Hf. unfold _load_schema, self_dataset_path, bind at 1. rewrite Hid.
  rewrite os_path_join_strs. fold (schema_path id).
  unfold bind, lift, os_path_exists, open_read, emit, bind, set_schema. simpl.
  rewrite Hf. simpl. rewrite Hf.
  destruct (yaml_safe_load (content f)); unfold log, schema_reads; simpl;
    rewrite <- ?app_assoc; simpl; by rewrite ?Hid.
Qed.

(** *** The freshness decision *)

(** What [_is_cache_valid] answers and which calls it makes, by cases on
    the artifact and on the declared update frequency. *)
Lemma is_cache_valid_run (cache_file : string) (st : state) :
  _is_cache_valid cache_file st
  = match fs st !! cache_file with
    | None => (Ok false, log [PathExists cache_file] st)
    | Some f =>
        match Py.getitem (schema st) "update_frequency" with
        | Raise e => (Raise e, log [PathExists cache_file; GetMtime cache_file] st)
        | Ok frequency =>
            if Py.eq_str frequency "weekly"
            then (Ok (mtime f >? clock st - one_week)%Z,
                  log [PathExists cache_file; GetMtime cache_file; ClockNow] st)
            else (Ok false, log [PathExists cache_file; GetMtime cache_file] st)
        end
    end.
Proof.
  unfold _is_cache_valid, os_path_exists, os_path_getmtime, datetime_now,
    self_schema, bind, lift, ret, emit. simpl.
  destruct (fs st !! cache_file) as [f|] eqn:Hf; simpl; rewrite ?Hf; simpl; [| done].
  destruct (Py.getitem (schema st) "update_frequency") as [frequency|e]; simpl.
  - destruct (Py.eq_str frequency "weekly"); simpl;
      unfold log; simpl; by rewrite <- ?app_assoc.
  - unfold log; simpl; by rewrite <- ?app_assoc.
Qed.

(** *** Reading and writing the cache *)

(** What [_read_cache] returns and which call it makes, by cases on the
    declared format. *)
Lemma read_cache_run (cache_file : string) (st : state) :
  _read_cache cache_file st
  = match rbind (Py.getitem (schema st) "destination")
                (fun destination => Py.getitem destination "format") with
    | Raise e => (Raise e, st)
    | Ok format =>
        if Py.eq_str format "parquet" then
          (match fs st !! cache_file with
           | Some f => read_parquet (content f)
           | None => Raise (FileNotFoundError cache_file)
           end, log [ReadTable "parquet" cache_file] st)
        else if Py.eq_str format "csv" then
          (match fs st !! cache_file with
           | Some f => read_csv (content f)
           | None => Raise (FileNotFoundError cache_file)
           end, log [ReadTable "csv" cache_file] st)
        else (Raise (ValueError ("Unsupported cache format: " ++ py_str format)), st)
    end.
Proof.
  unfold _read_cache, pd_read, self_schema, bind, lift, raise, emit. simpl.
  destruct (Py.getitem (schema st) "destination") as [destination|]; simpl; [| done].
  destruct (Py.getitem destination "format") as [format|]; simpl; [| done].
  destruct (Py.eq_str format "parquet"); simpl.
  - by destruct (fs st !! cache_file).
  - destruct (Py.eq_str format "csv"); simpl; [| done].
    by destruct (fs st !! cache_file).
Qed.

(** What [_cache_data] does, by cases on the declared format and on the
    encoder's answer. *)
Lemma cache_data_run (df : table) (cache_file : string) (st : state) :
  _cache_data df cache_file st
  = match rbind (Py.getitem (schema st) "destination")
                (fun destination => Py.getitem destination "format") with
    | Raise e => (Raise e, st)
    | Ok format =>
        let written fmt bytes :=
          State (schema st) (dataset_path st)
                (<[cache_file := File (clock st) bytes]> (fs st)) (clock st)
                (trace st ++ [WriteTable fmt cache_file])%list in
        if Py.eq_str format "parquet" then
          match to_parquet df with
          | Ok bytes => (Ok tt, written "parquet" bytes)
          | Raise e => (Raise e, log [WriteTable "parquet" cache_file] st)
          end
        else if Py.eq_str format "csv" then
          match to_csv df with
          | Ok bytes => (Ok tt, written "csv" bytes)
          | Raise e => (Raise e, log [WriteTable "csv" cache_file] st)
          end
        else (Raise (ValueError ("Unsupported cache format: " ++ py_str format)), st)
    end.
Proof.
  unfold _cache_data, df_write, write_file, self_schema, bind, lift, raise, emit.
  simpl.
  destruct (Py.getitem (schema st) "destination") as [destination|]; simpl; [| done].
  destruct (Py.getitem destination "format") as [format|]; simpl; [| done].
  destruct (Py.eq_str format "parquet"); simpl.
  - by destruct (to_parquet df).
  - destruct (Py.eq_str format "csv"); simpl; [| done].
    by destruct (to_csv df).
Qed.

Lemma read_cache_frame (cache_file : string) (st : state) :
  ∃ evs, snd (_read_cache cache_file st) = log evs st
         ∧ forallb (fun ev => negb (is_write ev) && negb (is_source_event ev)) evs = true.
Proof.
  rewrite read_cache_run.
  destruct (rbind _ _) as [format|]; [| exists []; by rewrite log_nil].
  destruct (Py.eq_str format "parquet"); [by eexists |].
  destruct (Py.eq_str format "csv"); [by eexists |].
  exists []. by rewrite log_nil.
Qed.

Lemma cache_data_schema (df : table) (cache_file : string) (st : state) :
  schema (snd (_cache_data df cache_file st)) = schema st.
Proof.
  rewrite cache_data_run.
  destruct (rbind _ _) as [format|]; [| done]. simpl.
  destruct (Py.eq_str format "parquet"); [by destruct (to_parquet df) |].
  destruct (Py.eq_str format "csv"); [by destruct (to_csv df) |]. done.
Qed.

(** *** The source fetch *)

(** The entry point a source type is dispatched to. *)
Lemma load_from_source_calls (doc src ty conn : pyval) (m q : string) :
  Py.getitem doc "source" = Ok src →
  Py.getitem src "type" = Ok ty →
  Py.get src "connection" (PDict []) = Ok conn →
  _generate_query doc doc = Ok q →
  registry_getitem ty = Ok m →
  ∃ r evs,
    (∀ st, schema st = doc → _load_from_source st = (r, log (ImportModule m :: evs) st))
    ∧ (import_module m = Ok tt → ∃ entry, evs = [BackendCall m entry conn q])
    ∧ forallb is_source_event evs = true.
Proof.
  intros Hsrc Hty Hconn Hq Hm.
  assert (∀ st, schema st = doc →
            _load_from_source st
            = except_ImportError
                (bind (emit (ImportModule m)) (fun _ =>
                 bind (lift (import_module m)) (fun _ =>
                 if Py.eq_str ty "mysql" || Py.eq_str ty "postgres" then
                   bind (emit (BackendCall m ("load_from_" ++ py_str ty) conn q))
                     (fun _ => lift (load_function m ("load_from_" ++ py_str ty) conn q))
                 else
                   bind (emit (BackendCall m (Str.capitalize (py_str ty) ++ "Connector")
                                 conn q))
                     (fun _ => lift (connector_query m
                                       (Str.capitalize (py_str ty) ++ "Connector")
                                       conn q)))))
                (ImportError (Str.capitalize (py_str ty)
                              ++ " connector not found. Please install the "
                              ++ m ++ " library.")) st) as Hrun.
  { intros st Hs. unfold _load_from_source, self_schema, bind at 1 2 3 4 5 6 7, lift.
    rewrite Hs, Hsrc. simpl. rewrite Hty. simpl. by rewrite Hconn, Hq, Hm. }
  destruct (import_module m) as [[]|e] eqn:Himp.
  - destruct (Py.eq_str ty "mysql" || Py.eq_str ty "postgres") eqn:Hsql.
    + destruct (load_function m ("load_from_" ++ py_str ty) conn q) as [df|e] eqn:Hcall.
      * exists (Ok df), [BackendCall m ("load_from_" ++ py_str ty) conn q].
        split; [| split; [by eexists | done]].
        intros st Hs. rewrite (Hrun st Hs).
        unfold except_ImportError, bind, lift, emit. simpl.
        by rewrite ?log_log.
      * exists (match e with
                | ImportError _ =>
                    Raise (ImportError (Str.capitalize (py_str ty)
                                        ++ " connector not found. Please install the "
                                        ++ m ++ " library."))
                | _ => Raise e
                end), [BackendCall m ("load_from_" ++ py_str ty) conn q].
        split; [| split; [by eexists | done]].
        intros st Hs. rewrite (Hrun st Hs).
        unfold except_ImportError, bind, lift, emit. simpl.
        rewrite ?log_log. by destruct e.
    + destruct (connector_query m (Str.capitalize (py_str ty) ++ "Connector") conn q)
        as [df|e] eqn:Hcall.
      * exists (Ok df), [BackendCall m (Str.capitalize (py_str ty) ++ "Connector") conn q].
        split; [| split; [by eexists | done]].
        intros st Hs. rewrite (Hrun st Hs).
        unfold except_ImportError, bind, lift, emit. simpl.
        by rewrite ?log_log.
      * exists (match e with
                | ImportError _ =>
                    Raise (ImportError (Str.capitalize (py_str ty)
                                        ++ " connector not found. Please install the "
                                        ++ m ++ " library."))
                | _ => Raise e
                end), [BackendCall m (Str.capitalize (py_str ty) ++ "Connector") conn q].
        split; [| split; [by eexists | done]].
        intros st Hs. rewrite (Hrun st Hs).
        unfold except_ImportError, bind, lift, emit. simpl.
        rewrite ?log_log. by destruct e.
  - exists (match e with
            | ImportError _ =>
                Raise (ImportError (Str.capitalize (py_str ty)
                                    ++ " connector not found. Please install the "
                                    ++ m ++ " library."))
            | _ => Raise e
            end), [].
    split; [| done].
    intros st Hs. rewrite (Hrun st Hs).
    unfold except_ImportError, bind, lift, emit. simpl.
    by destruct e.
Qed.

(** The source fetch only talks to the backend, and what it returns is
    determined by the schema. *)
Lemma load_from_source_shape (doc : pyval) :
  ∃ r evs,
    forallb is_source_event evs = true
    ∧ ∀ st, schema st = doc → _load_from_source st = (r, log evs st).
Proof.
  assert (∀ e (stop : ∀ st, schema st = doc → _load_from_source st = (Raise e, st)),
            ∃ r evs, forallb is_source_event evs = true
                     ∧ ∀ st, schema st = doc → _load_from_source st = (r, log evs st))
    as Hstop.
  { intros e stop. exists (Raise e), []. split; [done |].
    intros st Hs. by rewrite log_nil, stop. }
  destruct (Py.getitem doc "source") as [src|e] eqn:Hsrc.
  2: { apply (Hstop e). intros st Hs.
       unfold _load_from_source, self_schema, bind, lift. simpl.
       by rewrite Hs, Hsrc. }
  destruct (Py.getitem src "type") as [ty|e] eqn:Hty.
  2: { apply (Hstop e). intros st Hs.
       unfold _load_from_source, self_schema, bind, lift. simpl.
       rewrite Hs, Hsrc. simpl. by rewrite Hty. }
  destruct (Py.get src "connection" (PDict [])) as [conn|e] eqn:Hconn.
  2: { apply (Hstop e). intros st Hs.
       unfold _load_from_source, self_schema, bind, lift. simpl.
       rewrite Hs, Hsrc. simpl. rewrite Hty. simpl. by rewrite Hconn. }
  destruct (_generate_query doc doc) as [q|e] eqn:Hq.
  2: { apply (Hstop e). intros st Hs.
       unfold _load_from_source, self_schema, bind, lift. simpl.
       rewrite Hs, Hsrc. simpl. rewrite Hty. simpl. by rewrite Hconn, Hq. }
  destruct (registry_getitem ty) as [m|e] eqn:Hm.
  2: { apply (Hstop e). intros st Hs.
       unfold _load_from_source, self_schema, bind, lift. simpl.
       rewrite Hs, Hsrc. simpl. rewrite Hty. simpl. by rewrite Hconn, Hq, Hm. }
  destruct (load_from_source_calls doc src ty conn m q Hsrc Hty Hconn Hq Hm)
    as (r & evs & Hrun & _ & Hevs).
  by exists r, (ImportModule m :: evs).
Qed.

(** *** [load], step by step *)

Lemma load_schema_absent (id : string) (st : state) :
  fs st !! schema_path id = None →
  load id st
  = (Raise (FileNotFoundError ("Schema file not found: " ++ schema_path id)),
     State (schema st) (PStr id) (fs st) (clock st)
           (trace st ++ [PathExists (schema_path id)])%list).
Proof.
  intros Hf. unfold load, bind at 1, set_dataset_path.
  by erewrite bind_raise by (by apply load_schema_missing).
Qed.

Lemma load_schema_unreadable (id : string) (st : state) (f : file) (e : exn) :
  fs st !! schema_path id = Some f →
  yaml_safe_load (content f) = Raise e →
  load id st
  = (Raise e, State (schema st) (PStr id) (fs st) (clock st)
                    (trace st ++ schema_reads id)%list).
Proof.
  intros Hf Hdoc. unfold load, bind at 1, set_dataset_path.
  erewrite bind_raise; [done |].
  erewrite load_schema_found by done. by rewrite Hdoc.
Qed.

(** Once the schema is read, [load] validates the source type, derives
    the cache file, decides on freshness and then either reads the cache
    or fetches, transforms and writes. *)
Lemma load_resolved (id : string) (st : state) (f : file) (doc : pyval) :
  fs st !! schema_path id = Some f →
  yaml_safe_load (content f) = Ok doc →
  load id st
  = match _validate_source_type doc with
    | Raise e => (Raise e, resolved id doc st)
    | Ok _ =>
        match _get_cache_file_path (PStr id) doc with
        | Raise e => (Raise e, resolved id doc st)
        | Ok cache_file =>
            bind (_is_cache_valid cache_file) (fun valid =>
              if valid then _read_cache cache_file
              else
                bind _load_from_source (fun df =>
                bind (lift (_apply_transformations doc df)) (fun df =>
                bind (_cache_data df cache_file) (fun _ => ret df))))
              (resolved id doc st)
        end
    end.
Proof.
  intros Hf Hdoc. unfold load, bind at 1, set_dataset_path.
  erewrite bind_ok; [| erewrite load_schema_found by done; by rewrite Hdoc].
  cbn [fs clock trace schema dataset_path]. fold (resolved id doc st).
  unfold bind at 1, self_schema. unfold bind at 1, lift.
  change (schema (resolved id doc st)) with doc.
  destruct (_validate_source_type doc) as [[]|e]; [| done].
  unfold bind at 1, self_dataset_path. unfold bind at 1.
  change (dataset_path (resolved id doc st)) with (PStr id).
  by destruct (_get_cache_file_path (PStr id) doc).
Qed.

(** The miss path: fetch, transform, write. *)
Lemma refresh_run (doc : pyval) (cache_file : string) (st : state)
    (r : result table) (evs : list event) :
  schema st = doc →
  (∀ st', schema st' = doc → _load_from_source st' = (r, log evs st')) →
  bind _load_from_source (fun df =>
  bind (lift (_apply_transformations doc df)) (fun df =>
  bind (_cache_data df cache_file) (fun _ => ret df))) st
  = match r with
    | Raise e => (Raise e, log evs st)
    | Ok df =>
        match _apply_transformations doc df with
        | Raise e => (Raise e, log evs st)
        | Ok df' =>
            match _cache_data df' cache_file (log evs st) with
            | (Ok _, st') => (Ok df', st')
            | (Raise e, st') => (Raise e, st')
            end
        end
    end.
Proof.
  intros Hs Hrun. unfold bind at 1. rewrite (Hrun st Hs).
  destruct r as [df|e]; [| done].
  unfold bind at 1, lift.
  destruct (_apply_transformations doc df) as [df'|e]; [| done].
  unfold bind, ret.
  destruct (_cache_data df' cache_file (log evs st)) as [[[]|e] st']; done.
Qed.

(** A supported source type passes validation. *)
Lemma validate_supported (doc src ty : pyval) (m : string) :
  Py.getitem doc "source" = Ok src →
  Py.getitem src "type" = Ok ty →
  registry_getitem ty = Ok m →
  _validate_source_type doc = Ok tt.
Proof.
  intros Hsrc Hty Hm. unfold _validate_source_type. rewrite Hsrc. simpl.
  rewrite Hty. unfold rbind, registry_getitem, registry_contains in *.
  destruct ty as [| [] | |k| | |]; try done.
  by destruct (registry_lookup k SUPPORTED_SOURCES).
Qed.

(** The source of a validated schema is a mapping, so its connection
    settings can be read. *)
Lemma connection_of_source (src ty : pyval) :
  Py.getitem src "type" = Ok ty →
  ∃ conn, Py.get src "connection" (PDict []) = Ok conn.
Proof.
  destruct src as [| | | | | |kvs]; simpl; try done.
  intros _. destruct (Py.assoc "connection" kvs); by eexists.
Qed.

(** *** Source-type validation *)

(** C3: when the source type of the schema is not a key of the registry,
    [load] fails with the unsupported-type error naming that value, having
    made no call but the two that read the schema: no cache decision, no
    cache read or write, no access to the source, and no file changed. *)
Theorem unsupported_source_type_fails_fast
    (id : string) (st : state) (f : file) (doc src ty : pyval) :
  fs st !! schema_path id = Some f →
  yaml_safe_load (content f) = Ok doc →
  Py.getitem doc "source" = Ok src →
  Py.getitem src "type" = Ok ty →
  registry_contains ty = Ok false →
  ∃ st',
    load id st
    = (Raise (ValueError ("Unsupported database type: " ++ py_str ty)), st')
    ∧ fs st' = fs st
    ∧ trace st' = (trace st ++ [PathExists (schema_path id); OpenRead (schema_path id)])%list.
Proof.
  intros Hf Hdoc Hsrc Hty Hreg. exists (resolved id doc st).
  split; [| done]. rewrite (load_resolved id st f doc Hf Hdoc).
  unfold _validate_source_type. rewrite Hsrc. simpl. rewrite Hty. simpl.
  by rewrite Hreg.
Qed.

(** A value that cannot be hashed is rejected by the membership test
    itself, just as early. *)
Lemma unhashable_source_type_fails_fast
    (id : string) (st : state) (f : file) (doc src ty : pyval) :
  fs st !! schema_path id = Some f →
  yaml_safe_load (content f) = Ok doc →
  Py.getitem doc "source" = Ok src →
  Py.getitem src "type" = Ok ty →
  Py.hashable ty = false →
  load id st = (Raise TypeError, resolved id doc st).
Proof.
  intros Hf Hdoc Hsrc Hty Hhash. rewrite (load_resolved id st f doc Hf Hdoc).
  unfold _validate_source_type. rewrite Hsrc. simpl. rewrite Hty. simpl.
  by destruct ty.
Qed.

(** *** The cache decision *)

(** With a supported source type and a cache file, [load] continues
    according to the freshness decision. *)
Lemma load_decided (id : string) (st st2 : state) (f : file)
    (doc src ty : pyval) (m cache_file : string) (valid : bool) :
  fs st !! schema_path id = Some f →
  yaml_safe_load (content f) = Ok doc →
  Py.getitem doc "source" = Ok src →
  Py.getitem src "type" = Ok ty →
  registry_getitem ty = Ok m →
  _get_cache_file_path (PStr id) doc = Ok cache_file →
  _is_cache_valid cache_file (resolved id doc st) = (Ok valid, st2) →
  load id st
  = if valid then _read_cache cache_file st2
    else
      bind _load_from_source (fun df =>
      bind (lift (_apply_transformations doc df)) (fun df =>
      bind (_cache_data df cache_file) (fun _ => ret df))) st2.
Proof.
  intros Hf Hdoc Hsrc Hty Hm Hcf Hvalid.
  rewrite (load_resolved id st f doc Hf Hdoc).
  rewrite (validate_supported doc src ty m Hsrc Hty Hm), Hcf.
  rewrite (bind_ok _ _ _ _ _ Hvalid). by destruct valid.
Qed.

Lemma cache_data_frame (df : table) (cache_file : string) (st : state) :
  ∃ wr, trace (snd (_cache_data df cache_file st)) = (trace st ++ wr)%list
        ∧ forallb is_write wr = true.
Proof.
  rewrite cache_data_run.
  destruct (rbind _ _) as [format|]; [| exists []; by rewrite app_nil_r]. simpl.
  destruct (Py.eq_str format "parquet");
    [destruct (to_parquet df); by eexists |].
  destruct (Py.eq_str format "csv");
    [destruct (to_csv df); by eexists |].
  exists []. by rewrite app_nil_r.
Qed.

(** The miss path adds the calls of the fetch and then at most writes;
    when the fetch or a transformation fails, it writes nothing. *)
Lemma refresh_frame (doc : pyval) (cache_file : string) (st : state)
    (r : result table) (evs : list event) :
  schema st = doc →
  (∀ st', schema st' = doc → _load_from_source st' = (r, log evs st')) →
  ∃ r' st' wr,
    bind _load_from_source (fun df =>
    bind (lift (_apply_transformations doc df)) (fun df =>
    bind (_cache_data df cache_file) (fun _ => ret df))) st = (r', st')
    ∧ trace st' = (trace st ++ evs ++ wr)%list
    ∧ forallb is_write wr = true
    ∧ schema st' = doc
    ∧ ((∀ df, r = Ok df → ∃ e, _apply_transformations doc df = Raise e) →
       wr = [] ∧ fs st' = fs st).
Proof.
  intros Hs Hrun. rewrite (refresh_run doc cache_file st r evs Hs Hrun).
  destruct r as [df|e].
  2: { eexists _, _, []. split; [done |]. by rewrite app_nil_r. }
  destruct (_apply_transformations doc df) as [df'|e] eqn:Htr.
  2: { eexists _, _, []. split; [done |]. by rewrite app_nil_r. }
  destruct (cache_data_frame df' cache_file (log evs st)) as (wr & Hwr & Hw).
  pose proof (cache_data_schema df' cache_file (log evs st)) as Hsch.
  destruct (_cache_data df' cache_file (log evs st)) as [[[]|e] st'];
    simpl in *; eexists _, st', wr; (split; [done |]);
    rewrite Hwr, <- app_assoc; (split; [done |]); (split; [done |]);
    (split; [congruence |]); intros Hfail;
    destruct (Hfail df eq_refl) as [e' He']; congruence.
Qed.

Lemma forallb_In {A} (P : A → bool) (l : list A) (x : A) :
  forallb P l = true → In x l → P x = true.
Proof. intros Hall Hin. by apply (proj1 (forallb_forall P l) Hall). Qed.

(** A negative freshness decision leads to a fetch, and nothing is read
    from the cache. *)
Lemma miss_fetches (id : string) (st : state) (f : file)
    (doc src ty : pyval) (m cache_file q : string) (dec : list event) :
  fs st !! schema_path id = Some f →
  yaml_safe_load (content f) = Ok doc →
  Py.getitem doc "source" = Ok src →
  Py.getitem src "type" = Ok ty →
  registry_getitem ty = Ok m →
  _get_cache_file_path (PStr id) doc = Ok cache_file →
  _generate_query doc doc = Ok q →
  _is_cache_valid cache_file (resolved id doc st)
  = (Ok false, log dec (resolved id doc st)) →
  forallb (fun ev => negb (is_cache_io ev)) dec = true →
  ∃ r st' evs,
    load id st = (r, st')
    ∧ calls_between st st' evs
    ∧ source_fetch_made src m q evs
    ∧ ∀ fmt p, ¬ In (ReadTable fmt p) evs.
Proof.
  intros Hf Hdoc Hsrc Hty Hm Hcf Hq Hdec Hquiet.
  destruct (connection_of_source src ty Hty) as [conn Hconn].
  destruct (load_from_source_calls doc src ty conn m q Hsrc Hty Hconn Hq Hm)
    as (r0 & evs0 & Hrun & Hcall & Hevs0).
  rewrite (load_decided id st _ f doc src ty m cache_file false Hf Hdoc Hsrc Hty Hm Hcf Hdec).
  destruct (refresh_frame doc cache_file (log dec (resolved id doc st)) r0
              (ImportModule m :: evs0) eq_refl Hrun)
    as (r & st' & wr & -> & Htrace & Hwr & _ & _).
  exists r, st', (schema_reads id ++ dec ++ (ImportModule m :: evs0) ++ wr)%list.
  split; [done |]. split.
  { unfold calls_between. rewrite Htrace. simpl. by rewrite <- !app_assoc. }
  split.
  - exists conn. split; [done |]. split.
    + apply in_or_app. right. apply in_or_app. right. by left.
    + intros Himp. destruct (Hcall Himp) as [entry ->]. exists entry.
      apply in_or_app. right. apply in_or_app. right. right. by left.
  - intros fmt p Hin.
    apply in_app_or in Hin as [Hin|Hin].
    { simpl in Hin. by destruct Hin as [|[|]]. }
    apply in_app_or in Hin as [Hin|Hin].
    { by pose proof (forallb_In _ _ _ Hquiet Hin). }
    apply in_app_or in Hin as [Hin|Hin].
    { destruct Hin as [|Hin]; [done |]. by pose proof (forallb_In _ _ _ Hevs0 Hin). }
    by pose proof (forallb_In _ _ _ Hwr Hin).
Qed.

(** C1, as the code has it: with a declared update frequency other than
    "weekly", [load] judges the cache stale and fetches from the source,
    whether or not an artifact exists and whatever its age, and reads
    nothing from the cache; with no declared frequency it does so when no
    artifact exists, and with an artifact present the freshness decision
    itself fails on the missing key, before any access to the source. *)
Theorem other_frequency_always_fetches
    (id : string) (st : state) (f : file)
    (doc src ty : pyval) (m cache_file q : string) :
  fs st !! schema_path id = Some f →
  yaml_safe_load (content f) = Ok doc →
  Py.getitem doc "source" = Ok src →
  Py.getitem src "type" = Ok ty →
  registry_getitem ty = Ok m →
  _get_cache_file_path (PStr id) doc = Ok cache_file →
  _generate_query doc doc = Ok q →
  (∀ frequency,
     Py.getitem doc "update_frequency" = Ok frequency →
     Py.eq_str frequency "weekly" = false →
     ∃ r st' evs,
       load id st = (r, st')
       ∧ calls_between st st' evs
       ∧ source_fetch_made src m q evs
       ∧ ∀ fmt p, ¬ In (ReadTable fmt p) evs)
  ∧ (fs st !! cache_file = None →
     ∃ r st' evs,
       load id st = (r, st')
       ∧ calls_between st st' evs
       ∧ source_fetch_made src m q evs
       ∧ ∀ fmt p, ¬ In (ReadTable fmt p) evs)
  ∧ (∀ artifact,
       Py.getitem doc "update_frequency" = Raise (KeyError "update_frequency") →
       fs st !! cache_file = Some artifact →
       ∃ st',
         load id st = (Raise (KeyError "update_frequency"), st')
         ∧ fs st' = fs st
         ∧ calls_between st st'
             (schema_reads id ++ [PathExists cache_file; GetMtime cache_file])).
Proof.
  intros Hf Hdoc Hsrc Hty Hm Hcf Hq.
  pose proof (is_cache_valid_run cache_file (resolved id doc st)) as Hrun.
  change (fs (resolved id doc st)) with (fs st) in Hrun.
  change (schema (resolved id doc st)) with doc in Hrun.
  split; [| split].
  - intros frequency Hfreq Hother. rewrite Hfreq, Hother in Hrun.
    destruct (fs st !! cache_file) as [artifact|].
    + by apply (miss_fetches id st f doc src ty m cache_file q
                  [PathExists cache_file; GetMtime cache_file]).
    + by apply (miss_fetches id st f doc src ty m cache_file q
                  [PathExists cache_file]).
  - intros Hnone. rewrite Hnone in Hrun.
    by apply (miss_fetches id st f doc src ty m cache_file q [PathExists cache_file]).
  - intros artifact Hfreq Hsome. rewrite Hsome, Hfreq in Hrun.
    eexists. split; [| split].
    + rewrite (load_resolved id st f doc Hf Hdoc).
      rewrite (validate_supported doc src ty m Hsrc Hty Hm), Hcf.
      apply bind_raise. exact Hrun.
    + done.
    + unfold calls_between. simpl. by rewrite <- app_assoc.
Qed.

(** *** The weekly policy *)

Lemma read_cache_supported (cache_file : string) (st : state) (fmt : string) :
  declared_format (schema st) = Ok (PStr fmt) →
  fmt = "parquet" ∨ fmt = "csv" →
  _read_cache cache_file st
  = (match fs st !! cache_file with
     | Some artifact => decoder_of fmt (content artifact)
     | None => Raise (FileNotFoundError cache_file)
     end, log [ReadTable fmt cache_file] st).
Proof.
  intros Hfmt Hsup. rewrite read_cache_run. unfold declared_format in Hfmt.
  rewrite Hfmt. by destruct Hsup as [-> | ->].
Qed.

Lemma cache_data_supported (df : table) (cache_file : string) (st : state)
    (fmt bytes : string) :
  declared_format (schema st) = Ok (PStr fmt) →
  fmt = "parquet" ∨ fmt = "csv" →
  encoder_of fmt df = Ok bytes →
  _cache_data df cache_file st
  = (Ok tt, State (schema st) (dataset_path st)
                  (<[cache_file := File (clock st) bytes]> (fs st)) (clock st)
                  (trace st ++ [WriteTable fmt cache_file])%list).
Proof.
  intros Hfmt Hsup Henc. rewrite cache_data_run. unfold declared_format in Hfmt.
  rewrite Hfmt. destruct Hsup as [-> | ->]; unfold encoder_of in Henc; simpl in *;
    by rewrite Henc.
Qed.

(** Under the weekly policy a missing artifact and one of seven days or
    more are judged stale. *)
Lemma weekly_stale_decision (id : string) (doc : pyval) (st : state)
    (cache_file : string) :
  Py.getitem doc "update_frequency" = Ok (PStr "weekly") →
  (fs st !! cache_file = None
   ∨ ∃ artifact, fs st !! cache_file = Some artifact
                 ∧ (clock st - mtime artifact >= one_week)%Z) →
  ∃ dec,
    _is_cache_valid cache_file (resolved id doc st)
    = (Ok false, log dec (resolved id doc st))
    ∧ forallb (fun ev => negb (is_cache_io ev)) dec = true.
Proof.
  intros Hweekly Hstale.
  pose proof (is_cache_valid_run cache_file (resolved id doc st)) as Hrun.
  change (fs (resolved id doc st)) with (fs st) in Hrun.
  change (schema (resolved id doc st)) with doc in Hrun.
  change (clock (resolved id doc st)) with (clock st) in Hrun.
  rewrite Hweekly in Hrun. simpl in Hrun.
  destruct Hstale as [Hnone | (artifact & Hsome & Hold)].
  - rewrite Hnone in Hrun. by eexists.
  - rewrite Hsome in Hrun.
    assert ((mtime artifact >? clock st - one_week)%Z = false) as Hgt.
    { destruct (mtime artifact >? clock st - one_week)%Z eqn:Hcmp; [| done].
      apply Z.gtb_lt in Hcmp. lia. }
    rewrite Hgt in Hrun. by eexists.
Qed.

Lemma weekly_hit (id : string) (st : state) (f artifact : file)
    (doc src ty : pyval) (m cache_file fmt : string) :
  fs st !! schema_path id = Some f →
  yaml_safe_load (content f) = Ok doc →
  Py.getitem doc "source" = Ok src →
  Py.getitem src "type" = Ok ty →
  registry_getitem ty = Ok m →
  _get_cache_file_path (PStr id) doc = Ok cache_file →
  Py.getitem doc "update_frequency" = Ok (PStr "weekly") →
  fs st !! cache_file = Some artifact →
  (clock st - mtime artifact < one_week)%Z →
  declared_format doc = Ok (PStr fmt) →
  fmt = "parquet" ∨ fmt = "csv" →
  ∃ st',
    load id st = (decoder_of fmt (content artifact), st')
    ∧ fs st' = fs st
    ∧ calls_between st st'
        (schema_reads id
         ++ [PathExists cache_file; GetMtime cache_file; ClockNow;
             ReadTable fmt cache_file]).
Proof.
  intros Hf Hdoc Hsrc Hty Hm Hcf Hweekly Hsome Hfresh Hfmt Hsup.
  pose proof (is_cache_valid_run cache_file (resolved id doc st)) as Hrun.
  change (fs (resolved id doc st)) with (fs st) in Hrun.
  change (schema (resolved id doc st)) with doc in Hrun.
  change (clock (resolved id doc st)) with (clock st) in Hrun.
  rewrite Hweekly, Hsome in Hrun. simpl in Hrun.
  assert ((mtime artifact >? clock st - one_week)%Z = true) as Hgt
    by (apply Z.gtb_lt; lia).
  rewrite Hgt in Hrun.
  rewrite (load_decided id st _ f doc src ty m cache_file true Hf Hdoc Hsrc Hty Hm Hcf Hrun).
  rewrite (read_cache_supported cache_file
             (log [PathExists cache_file; GetMtime cache_file; ClockNow]
                  (resolved id doc st)) fmt Hfmt Hsup).
  simpl. rewrite Hsome.
  eexists. split; [done |]. split; [done |].
  unfold calls_between. simpl. by rewrite <- !app_assoc.
Qed.

Lemma weekly_refresh (id : string) (st : state) (f : file)
    (doc src ty : pyval) (m cache_file fmt bytes : string) (df df' : table) :
  fs st !! schema_path id = Some f →
  yaml_safe_load (content f) = Ok doc →
  Py.getitem doc "source" = Ok src →
  Py.getitem src "type" = Ok ty →
  registry_getitem ty = Ok m →
  _get_cache_file_path (PStr id) doc = Ok cache_file →
  Py.getitem doc "update_frequency" = Ok (PStr "weekly") →
  (fs st !! cache_file = None
   ∨ ∃ artifact, fs st !! cache_file = Some artifact
                 ∧ (clock st - mtime artifact >= one_week)%Z) →
  fst (_load_from_source (resolved id doc st)) = Ok df →
  _apply_transformations doc df = Ok df' →
  declared_format doc = Ok (PStr fmt) →
  fmt = "parquet" ∨ fmt = "csv" →
  encoder_of fmt df' = Ok bytes →
  ∃ st' evs,
    load id st = (Ok df', st')
    ∧ fs st' = <[cache_file := File (clock st) bytes]> (fs st)
    ∧ calls_between st st' (evs ++ [WriteTable fmt cache_file])
    ∧ forallb (fun ev => negb (is_cache_io ev)) evs = true.
Proof.
  intros Hf Hdoc Hsrc Hty Hm Hcf Hweekly Hstale Hfetch Htr Hfmt Hsup Henc.
  destruct (weekly_stale_decision id doc st cache_file Hweekly Hstale)
    as (dec & Hdec & Hquiet).
  destruct (load_from_source_shape doc) as (r & evs & Hevs & Hrun).
  rewrite (Hrun (resolved id doc st) eq_refl) in Hfetch. simpl in Hfetch. subst r.
  rewrite (load_decided id st _ f doc src ty m cache_file false Hf Hdoc Hsrc Hty Hm Hcf Hdec).
  rewrite (refresh_run doc cache_file (log dec (resolved id doc st)) (Ok df) evs
             eq_refl Hrun), Htr.
  rewrite (cache_data_supported df' cache_file (log evs (log dec (resolved id doc st)))
             fmt bytes Hfmt Hsup Henc).
  eexists _, (schema_reads id ++ dec ++ evs)%list. split; [done |]. split; [done |].
  split.
  - unfold calls_between. simpl. by rewrite <- !app_assoc.
  - rewrite !forallb_app. rewrite Hquiet. simpl.
    clear -Hevs. induction evs as [|ev evs IH]; simpl in *; [done |].
    apply andb_true_iff in Hevs as [Hev Hevs]. rewrite (IH Hevs).
    by destruct ev.
Qed.

(** C2: under the weekly policy, an artifact younger than seven days is
    read and returned without any call to the source; a missing artifact
    and one of seven days or more lead to a fetch from the source, and
    when the fetch and the transformations succeed the transformed
    table is written to the cache file and returned. *)
Theorem weekly_cache_policy
    (id : string) (st : state) (f : file)
    (doc src ty : pyval) (m cache_file : string) :
  fs st !! schema_path id = Some f →
  yaml_safe_load (content f) = Ok doc →
  Py.getitem doc "source" = Ok src →
  Py.getitem src "type" = Ok ty →
  registry_getitem ty = Ok m →
  _get_cache_file_path (PStr id) doc = Ok cache_file →
  Py.getitem doc "update_frequency" = Ok (PStr "weekly") →
  (∀ artifact fmt,
     fs st !! cache_file = Some artifact →
     (clock st - mtime artifact < one_week)%Z →
     declared_format doc = Ok (PStr fmt) →
     fmt = "parquet" ∨ fmt = "csv" →
     ∃ st',
       load id st = (decoder_of fmt (content artifact), st')
       ∧ fs st' = fs st
       ∧ calls_between st st'
           (schema_reads id
            ++ [PathExists cache_file; GetMtime cache_file; ClockNow;
                ReadTable fmt cache_file]))
  ∧ (∀ q,
       (fs st !! cache_file = None
        ∨ ∃ artifact, fs st !! cache_file = Some artifact
                      ∧ (clock st - mtime artifact >= one_week)%Z) →
       _generate_query doc doc = Ok q →
       ∃ r st' evs,
         load id st = (r, st')
         ∧ calls_between st st' evs
         ∧ source_fetch_made src m q evs
         ∧ ∀ fmt p, ¬ In (ReadTable fmt p) evs)
  ∧ (∀ df df' fmt bytes,
       (fs st !! cache_file = None
        ∨ ∃ artifact, fs st !! cache_file = Some artifact
                      ∧ (clock st - mtime artifact >= one_week)%Z) →
       fst (_load_from_source (resolved id doc st)) = Ok df →
       _apply_transformations doc df = Ok df' →
       declared_format doc = Ok (PStr fmt) →
       fmt = "parquet" ∨ fmt = "csv" →
       encoder_of fmt df' = Ok bytes →
       ∃ st' evs,
         load id st = (Ok df', st')
         ∧ fs st' = <[cache_file := File (clock st) bytes]> (fs st)
         ∧ calls_between st st' (evs ++ [WriteTable fmt cache_file])
         ∧ forallb (fun ev => negb (is_cache_io ev)) evs = true).
Proof.
  intros Hf Hdoc Hsrc Hty Hm Hcf Hweekly. split; [| split].
  - intros artifact fmt. by apply (weekly_hit id st f artifact doc src ty m).
  - intros q Hstale Hq.
    destruct (weekly_stale_decision id doc st cache_file Hweekly Hstale)
      as (dec & Hdec & Hquiet).
    by apply (miss_fetches id st f doc src ty m cache_file q dec).
  - intros df df' fmt bytes.
    by apply (weekly_refresh id st f doc src ty m cache_file fmt bytes df df').
Qed.

(** *** Cache hits and failed refreshes *)

Lemma is_cache_valid_frame (cache_file : string) (st : state) :
  ∃ v dec,
    _is_cache_valid cache_file st = (v, log dec st)
    ∧ forallb (fun ev => negb (is_cache_io ev)) dec = true.
Proof.
  rewrite is_cache_valid_run.
  destruct (fs st !! cache_file) as [artifact|]; [| by eexists _, _].
  destruct (Py.getitem (schema st) "update_frequency") as [frequency|e];
    [| by eexists _, _].
  destruct (Py.eq_str frequency "weekly"); by eexists _, _.
Qed.

(** A positive decision needs an artifact, and leaves the three calls of
    the decision in the trace. *)
Lemma is_cache_valid_true (cache_file : string) (st : state) :
  fst (_is_cache_valid cache_file st) = Ok true →
  ∃ artifact,
    fs st !! cache_file = Some artifact
    ∧ _is_cache_valid cache_file st
      = (Ok true, log [PathExists cache_file; GetMtime cache_file; ClockNow] st).
Proof.
  rewrite is_cache_valid_run.
  destruct (fs st !! cache_file) as [artifact|]; [| done].
  destruct (Py.getitem (schema st) "update_frequency") as [frequency|e]; [| done].
  destruct (Py.eq_str frequency "weekly"); [| done].
  simpl. intros [= ->]. by exists artifact.
Qed.

(** The freshness state machine: the decision is VALID exactly for an
    existing artifact under the weekly policy that is less than seven
    days old. *)
Lemma is_cache_valid_iff (cache_file : string) (st : state) :
  fst (_is_cache_valid cache_file st) = Ok true
  ↔ ∃ artifact frequency,
      fs st !! cache_file = Some artifact
      ∧ Py.getitem (schema st) "update_frequency" = Ok frequency
      ∧ Py.eq_str frequency "weekly" = true
      ∧ (clock st - mtime artifact < one_week)%Z.
Proof.
  rewrite is_cache_valid_run. split.
  - destruct (fs st !! cache_file) as [artifact|]; [| done].
    destruct (Py.getitem (schema st) "update_frequency") as [frequency|e]; [| done].
    destruct (Py.eq_str frequency "weekly") eqn:Hweekly; [| done].
    simpl. intros [= Hgt]. apply Z.gtb_lt in Hgt.
    exists artifact, frequency. repeat (split; [done |]). lia.
  - intros (artifact & frequency & -> & -> & -> & Hfresh). simpl.
    f_equal. apply Z.gtb_lt. lia.
Qed.

(** C10: on a cache hit [load] returns what the decoder of the declared
    format reads from the artifact, as it is: no transformation is
    applied, nothing is written and the source is not called, so the
    files, and with them the artifact's content and modification time,
    are the same after the call. *)
Theorem cache_hit_returns_artifact_untouched
    (id : string) (st : state) (f : file)
    (doc src ty : pyval) (m cache_file : string) :
  fs st !! schema_path id = Some f →
  yaml_safe_load (content f) = Ok doc →
  Py.getitem doc "source" = Ok src →
  Py.getitem src "type" = Ok ty →
  registry_getitem ty = Ok m →
  _get_cache_file_path (PStr id) doc = Ok cache_file →
  fst (_is_cache_valid cache_file (resolved id doc st)) = Ok true →
  ∃ artifact r st' rd,
    fs st !! cache_file = Some artifact
    ∧ load id st = (r, st')
    ∧ r = match declared_format doc with
          | Raise e => Raise e
          | Ok format =>
              if Py.eq_str format "parquet" then read_parquet (content artifact)
              else if Py.eq_str format "csv" then read_csv (content artifact)
              else Raise (ValueError ("Unsupported cache format: " ++ py_str format))
          end
    ∧ fs st' = fs st
    ∧ fs st' !! cache_file = Some artifact
    ∧ calls_between st st'
        (schema_reads id
         ++ [PathExists cache_file; GetMtime cache_file; ClockNow] ++ rd)
    ∧ (rd = [] ∨ ∃ fmt, rd = [ReadTable fmt cache_file]).
Proof.
  intros Hf Hdoc Hsrc Hty Hm Hcf Hvalid.
  destruct (is_cache_valid_true _ _ Hvalid) as (artifact & Hsome & Hrun).
  change (fs (resolved id doc st)) with (fs st) in Hsome.
  rewrite (load_decided id st _ f doc src ty m cache_file true Hf Hdoc Hsrc Hty Hm Hcf Hrun).
  rewrite read_cache_run. simpl. unfold declared_format. rewrite Hsome.
  exists artifact.
  destruct (rbind _ _) as [format|e].
  - destruct (Py.eq_str format "parquet").
    { eexists _, _, [_]. repeat (split; [done |]). split; [| by right; eexists].
      unfold calls_between. simpl. by rewrite <- !app_assoc. }
    destruct (Py.eq_str format "csv").
    { eexists _, _, [_]. repeat (split; [done |]). split; [| by right; eexists].
      unfold calls_between. simpl. by rewrite <- !app_assoc. }
    eexists _, _, []. repeat (split; [done |]). split; [| by left].
    unfold calls_between. simpl. by rewrite <- !app_assoc.
  - eexists _, _, []. repeat (split; [done |]). split; [| by left].
    unfold calls_between. simpl. by rewrite <- !app_assoc.
Qed.

(** C4: when the fetch does not return a table, or a transformation of
    the fetched table fails, [load] writes nothing: the files are as they
    were and no write to the cache was attempted. *)
Theorem failed_fetch_or_transform_writes_nothing
    (id : string) (st st' : state) (r : result table) :
  load id st = (r, st') →
  (∀ df, fst (_load_from_source st') = Ok df →
         ∃ e, _apply_transformations (schema st') df = Raise e) →
  fs st' = fs st
  ∧ ∃ evs, calls_between st st' evs ∧ ∀ fmt p, ¬ In (WriteTable fmt p) evs.
Proof.
  intros Hload Hfail.
  destruct (fs st !! schema_path id) as [f|] eqn:Hf.
  2: { rewrite (load_schema_absent id st Hf) in Hload. injection Hload as <- <-.
       split; [done |]. eexists. split; [done |].
       intros fmt p [|[]]; done. }
  destruct (yaml_safe_load (content f)) as [doc|e] eqn:Hdoc.
  2: { rewrite (load_schema_unreadable id st f e Hf Hdoc) in Hload.
       injection Hload as <- <-. split; [done |]. eexists. split; [done |].
       intros fmt p [|[|[]]]; done. }
  rewrite (load_resolved id st f doc Hf Hdoc) in Hload.
  assert (∀ fmt p, ¬ In (WriteTable fmt p) (schema_reads id)) as Hreads
    by (intros fmt p [|[|[]]]; done).
  destruct (_validate_source_type doc) as [[]|e].
  2: { injection Hload as <- <-. split; [done |]. by exists (schema_reads id). }
  destruct (_get_cache_file_path (PStr id) doc) as [cache_file|e].
  2: { injection Hload as <- <-. split; [done |]. by exists (schema_reads id). }
  destruct (is_cache_valid_frame cache_file (resolved id doc st))
    as (v & dec & Hdec & Hquiet).
  assert (∀ fmt p, ¬ In (WriteTable fmt p) dec) as Hdecw.
  { intros fmt p Hin. by pose proof (forallb_In _ _ _ Hquiet Hin). }
  unfold bind at 1 in Hload. rewrite Hdec in Hload.
  destruct v as [[]|e].
  - destruct (read_cache_frame cache_file (log dec (resolved id doc st)))
      as (rd & Hrd & Hrdq).
    rewrite Hload in Hrd. simpl in Hrd. subst st'. split; [done |].
    exists (schema_reads id ++ dec ++ rd)%list. split.
    { unfold calls_between. simpl. by rewrite <- !app_assoc. }
    intros fmt p Hin.
    apply in_app_or in Hin as [Hin|Hin]; [by apply (Hreads fmt p) |].
    apply in_app_or in Hin as [Hin|Hin]; [by apply (Hdecw fmt p) |].
    by pose proof (forallb_In _ _ _ Hrdq Hin).
  - destruct (load_from_source_shape doc) as (r0 & evs0 & Hevs0 & Hrun).
    destruct (refresh_frame doc cache_file (log dec (resolved id doc st)) r0 evs0
                eq_refl Hrun) as (r' & st2 & wr & Hrefresh & Htrace & Hwr & Hsch & Hnone).
    rewrite Hrefresh in Hload. injection Hload as <- <-.
    destruct Hnone as [-> Hfs].
    { intros df ->. rewrite <- Hsch. apply (Hfail df). by rewrite (Hrun st2 Hsch). }
    split; [done |].
    exists (schema_reads id ++ dec ++ evs0)%list. split.
    { unfold calls_between. rewrite Htrace. simpl.
      by rewrite app_nil_r, <- !app_assoc. }
    intros fmt p Hin.
    apply in_app_or in Hin as [Hin|Hin]; [by apply (Hreads fmt p) |].
    apply in_app_or in Hin as [Hin|Hin]; [by apply (Hdecw fmt p) |].
    by pose proof (forallb_In _ _ _ Hevs0 Hin).
  - injection Hload as <- <-. split; [done |].
    exists (schema_reads id ++ dec)%list. split.
    { unfold calls_between. simpl. by rewrite <- !app_assoc. }
    intros fmt p Hin.
    apply in_app_or in Hin as [Hin|Hin]; [by apply (Hreads fmt p) |].
    by apply (Hdecw fmt p).
Qed.

End Pipeline.

(** * The theorems at work on the concrete world *)

Section Examples.

Import Demo.

Local Ltac by_computation := vm_compute; reflexivity.


(** An address whose local part is a lone surrogate: the split succeeds,
    the encoding of the local part raises, and the handler returns the
    value as it was. *)
Lemma lone_surrogate_local_part_enters_the_handler :
  Text.contains_char "@" lone_local = true
  ∧ unpack2 (Text.rsplit1 "@" lone_local) = Ok ([Text.Lone 0], [Text.Enc "x"])
  ∧ @anonymize_attempt world lone_local = Raise (ValueError "surrogates not allowed")
  ∧ @_anonymize_str world lone_local = Ok lone_local.
Proof. repeat split; by_computation. Qed.

Lemma anonymize_handler_entered_by_encoding_witness :
  Text.contains_char "@" lone_local = true
  ∧ ∃ local domain,
      unpack2 (Text.rsplit1 "@" lone_local) = Ok (local, domain)
      ∧ lone_local = (local ++ Text.of_string "@" ++ domain)%list
      ∧ Text.contains_char "@" domain = false
      ∧ (Text.has_lone local = true →
           (∃ msg, @anonymize_attempt world lone_local = Raise (ValueError msg))
           ∧ @_anonymize_str world lone_local = Ok lone_local)
      ∧ (Text.has_lone local = false →
           ∃ bytes,
             Text.encode local = Ok bytes
             ∧ @anonymize_attempt world lone_local
               = Ok (Text.of_string (@md5_hexdigest world bytes)
                     ++ Text.of_string "@" ++ domain)%list
             ∧ @_anonymize_str world lone_local
               = Ok (Text.of_string (@md5_hexdigest world bytes)
                     ++ Text.of_string "@" ++ domain)%list).
Proof.
  split; [by_computation |].
  apply (proj1 (@anonymize_handler_entered_by_encoding world lone_local eq_refl)).
Defined.

Lemma generate_query_pure_witness :
  @_generate_query world
    (PDict [("source", PDict [("table", PStr "t")]);
            ("columns", PList [PDict [("name", PStr "a")]; PDict [("name", PStr "b")]]);
            ("order_by", PList [PStr "a"]);
            ("limit", PInt 10)])
    (PDict [("source", PDict [("table", PStr "t")]);
            ("columns", PList [PDict [("name", PStr "a")]; PDict [("name", PStr "b")]]);
            ("order_by", PList [PStr "a"]);
            ("limit", PInt 10)])
  = Ok "SELECT a, b FROM t ORDER BY a LIMIT 10".
Proof.
  apply (proj1 (@generate_query_pure world) _
           [PDict [("name", PStr "a")]; PDict [("name", PStr "b")]] ["a"; "b"]
           (PDict [("table", PStr "t")]) "t" (OrderList ["a"]) (Some 10%Z)).
  - reflexivity.
  - repeat constructor.
  - reflexivity.
  - reflexivity.
  - reflexivity.
  - reflexivity.
Defined.

Lemma cache_file_path_derivation_witness :
  Py.assoc "destination"
    [("destination", PDict [("format", PStr "csv"); ("path", PStr "out/latest.csv")])]
  = Some (PDict [("format", PStr "csv"); ("path", PStr "out/latest.csv")])
  ∧ _get_cache_file_path (PStr "sales")
      (PDict [("destination",
               PDict [("format", PStr "csv"); ("path", PStr "out/latest.csv")])])
    = Ok "datasets/sales/out/latest.csv".
Proof.
  split; [reflexivity |].
  apply (proj1 (cache_file_path_derivation "sales"
                  [("destination",
                    PDict [("format", PStr "csv"); ("path", PStr "out/latest.csv")])]
                  [("format", PStr "csv"); ("path", PStr "out/latest.csv")]
                  eq_refl) "out/latest.csv").
  reflexivity.
Defined.


(** A schema of an unregistered source type: refused after the schema
    has been read and before anything else. *)
Lemma unsupported_source_type_fails_fast_witness :
  ∃ st',
    @load world "sales" (start (files "mongodb") 1000)
    = (Raise (ValueError "Unsupported database type: mongodb"), st')
    ∧ fs st' = files "mongodb"
    ∧ trace st' = [PathExists "datasets/sales/schema.yaml";
                   OpenRead "datasets/sales/schema.yaml"].
Proof.
  apply (@unsupported_source_type_fails_fast world "sales"
           (start (files "mongodb") 1000) (File 0 "mongodb") mongodb
           (source "mongodb") (PStr "mongodb")).
  - by_computation.
  - by_computation.
  - reflexivity.
  - reflexivity.
  - by_computation.
Defined.

(** No declared update frequency and an artifact in place: the freshness
    decision fails on the missing key, and the source is never called. *)
Lemma undeclared_frequency_with_artifact_never_fetches :
  Py.getitem undeclared "update_frequency" = Raise (KeyError "update_frequency")
  ∧ @load world "sales" (start (files "undeclared") 1000)
    = (Raise (KeyError "update_frequency"),
       State undeclared (PStr "sales") (files "undeclared") 1000
             [PathExists "datasets/sales/schema.yaml";
              OpenRead "datasets/sales/schema.yaml";
              PathExists "datasets/sales/data.parquet";
              GetMtime "datasets/sales/data.parquet"])
  ∧ ¬ (∃ ev, In ev (trace (snd (@load world "sales" (start (files "undeclared") 1000))))
            ∧ is_source_event ev = true).
Proof.
  split; [by_computation |]. split; [by_computation |].
  intros (ev & Hin & Hsrc).
  assert (forallb (fun ev => negb (is_source_event ev))
            (trace (snd (@load world "sales" (start (files "undeclared") 1000))))
          = true) as Hquiet by by_computation.
  pose proof (forallb_In _ _ _ Hquiet Hin) as Hev. simpl in Hev.
  rewrite Hsrc in Hev. discriminate.
Qed.

(** A daily schema with a fresh artifact in place: the source is called
    all the same. *)
Lemma other_frequency_always_fetches_witness :
  ∃ r st' evs,
    @load world "sales" (start (files "daily") 1000) = (r, st')
    ∧ calls_between (start (files "daily") 1000) st' evs
    ∧ @source_fetch_made world (source "mysql") "pandasai_sql"
        "SELECT id, email FROM customers" evs
    ∧ ∀ fmt p, ¬ In (ReadTable fmt p) evs.
Proof.
  apply (proj1 (@other_frequency_always_fetches world "sales"
                  (start (files "daily") 1000) (File 0 "daily") daily
                  (source "mysql") (PStr "mysql") "pandasai_sql"
                  "datasets/sales/data.parquet" "SELECT id, email FROM customers"
                  ltac:(by_computation) ltac:(by_computation) eq_refl eq_refl
                  ltac:(by_computation) ltac:(by_computation) ltac:(by_computation))
           (PStr "daily")).
  - by_computation.
  - by_computation.
Defined.

(** A weekly schema and an artifact written 1000 microseconds ago: the
    artifact is decoded and returned, and the source is left alone. *)
Lemma weekly_cache_policy_witness :
  ∃ st',
    @load world "sales" (start (files "weekly") 1000)
    = (Ok [("email", [PStr "bob@example.com"])], st')
    ∧ fs st' = files "weekly"
    ∧ calls_between (start (files "weekly") 1000) st'
        [PathExists "datasets/sales/schema.yaml";
         OpenRead "datasets/sales/schema.yaml";
         PathExists "datasets/sales/data.parquet";
         GetMtime "datasets/sales/data.parquet";
         ClockNow;
         ReadTable "parquet" "datasets/sales/data.parquet"].
Proof.
  apply (proj1 (@weekly_cache_policy world "sales"
                  (start (files "weekly") 1000) (File 0 "weekly") weekly
                  (source "mysql") (PStr "mysql") "pandasai_sql"
                  "datasets/sales/data.parquet"
                  ltac:(by_computation) ltac:(by_computation) eq_refl eq_refl
                  ltac:(by_computation) ltac:(by_computation) ltac:(by_computation))
           (File 0 "bob@example.com") "parquet").
  - by_computation.
  - by_computation.
  - by_computation.
  - by left.
Defined.

(** The same hit, seen from the decision: files and artifact are as they
    were, and only the cache was read. *)
Lemma cache_hit_returns_artifact_untouched_witness :
  ∃ artifact r st' rd,
    files "weekly" !! "datasets/sales/data.parquet" = Some artifact
    ∧ @load world "sales" (start (files "weekly") 1000) = (r, st')
    ∧ r = Ok [("email", [PStr (content artifact)])]
    ∧ fs st' = files "weekly"
    ∧ fs st' !! "datasets/sales/data.parquet" = Some artifact
    ∧ calls_between (start (files "weekly") 1000) st'
        ([PathExists "datasets/sales/schema.yaml";
          OpenRead "datasets/sales/schema.yaml";
          PathExists "datasets/sales/data.parquet";
          GetMtime "datasets/sales/data.parquet";
          ClockNow] ++ rd)
    ∧ (rd = [] ∨ ∃ fmt, rd = [ReadTable fmt "datasets/sales/data.parquet"]).
Proof.
  apply (@cache_hit_returns_artifact_untouched world "sales"
           (start (files "weekly") 1000) (File 0 "weekly") weekly
           (source "mysql") (PStr "mysql") "pandasai_sql"
           "datasets/sales/data.parquet").
  - by_computation.
  - by_computation.
  - reflexivity.
  - reflexivity.
  - by_computation.
  - by_computation.
  - by_computation.
Defined.

(** A transformation that names a column the source does not return
    fails after the fetch: the new table is not written and the old
    artifact stays. *)
Lemma failed_fetch_or_transform_writes_nothing_witness :
  fs (snd (@load world "sales" (start (files "phoneless") 1000))) = files "phoneless"
  ∧ ∃ evs,
      calls_between (start (files "phoneless") 1000)
        (snd (@load world "sales" (start (files "phoneless") 1000))) evs
      ∧ ∀ fmt p, ¬ In (WriteTable fmt p) evs.
Proof.
  apply (@failed_fetch_or_transform_writes_nothing world "sales"
           (start (files "phoneless") 1000)
           (snd (@load world "sales" (start (files "phoneless") 1000)))
           (fst (@load world "sales" (start (files "phoneless") 1000)))).
  - by destruct (@load world "sales" (start (files "phoneless") 1000)).
  - intros df Hdf. exists (KeyError "phone").
    vm_compute in Hdf. injection Hdf as <-. by_computation.
Defined.

(** An artifact of exactly seven days is stale: the table is fetched,
    anonymized, written to the cache file and returned. *)
Example weekly_artifact_of_seven_days_is_refreshed :
  @load world "sales" (start (files "weekly") one_week)
  = (Ok [("id", [PInt 1; PInt 2]);
         ("email", [PStr "md5(alice)@example.com"; PStr "not-an-email"])],
     State weekly (PStr "sales")
           (<["datasets/sales/data.parquet" := File one_week "stored"]> (files "weekly"))
           one_week
           [PathExists "datasets/sales/schema.yaml";
            OpenRead "datasets/sales/schema.yaml";
            PathExists "datasets/sales/data.parquet";
            GetMtime "datasets/sales/data.parquet";
            ClockNow;
            ImportModule "pandasai_sql";
            BackendCall "pandasai_sql" "load_from_mysql"
              (PDict [("host", PStr "db")]) "SELECT id, email FROM customers";
            WriteTable "parquet" "datasets/sales/data.parquet"]).
Proof. by_computation. Qed.

(** No declared update frequency and no artifact: the policy is never
    looked at, and the table is fetched. *)
Example undeclared_frequency_without_artifact_fetches :
  fst (@load world "sales" (start (without_cache "undeclared") 1000))
  = Ok [("id", [PInt 1; PInt 2]);
        ("email", [PStr "md5(alice)@example.com"; PStr "not-an-email"])]
  ∧ trace (snd (@load world "sales" (start (without_cache "undeclared") 1000)))
    = [PathExists "datasets/sales/schema.yaml";
       OpenRead "datasets/sales/schema.yaml";
       PathExists "datasets/sales/data.parquet";
       ImportModule "pandasai_sql";
       BackendCall "pandasai_sql" "load_from_mysql"
         (PDict [("host", PStr "db")]) "SELECT id, email FROM customers";
       WriteTable "parquet" "datasets/sales/data.parquet"].
Proof. split; by_computation. Qed.

End Examples.

(** * Further properties of the loader *)

Section Further.

Context `{!Collaborators}.

(** ** Schema resolution and validation *)

(** X1: when the schema document of the dataset does not exist, [load]
    fails with the file-not-found error naming its path after the one
    existence test; when the document cannot be parsed, the parser's
    error comes out as it is.  In both cases the loader keeps the schema
    it had, no file changes, and neither the cache nor the source is
    touched. *)
Theorem schema_resolution_failures (id : string) (st : state) :
  (fs st !! schema_path id = None →
   load id st
   = (Raise (FileNotFoundError ("Schema file not found: " ++ schema_path id)),
      State (schema st) (PStr id) (fs st) (clock st)
            (trace st ++ [PathExists (schema_path id)])%list))
  ∧ (∀ f e,
       fs st !! schema_path id = Some f →
       yaml_safe_load (content f) = Raise e →
       load id st
       = (Raise e,
          State (schema st) (PStr id) (fs st) (clock st)
                (trace st
                 ++ [PathExists (schema_path id); OpenRead (schema_path id)])%list)).
Proof.
  split.
  - apply load_schema_absent.
  - intros f e Hf Hdoc. by apply (load_schema_unreadable id st f e).
Qed.

Lemma registry_lookup_in (k : string) (reg : list (string * string)) :
  is_Some (registry_lookup k reg) ↔ In k (map fst reg).
Proof.
  induction reg as [|[k' m] reg IH]; simpl.
  - split; [by intros [? ?] | done].
  - destruct (decide (k' = k)) as [->|Hne].
    + split; [by left | by eexists].
    + rewrite IH. split; [by right | by intros [|]].
Qed.

(** X2: validation accepts exactly the schemas whose source type is one
    of the seven names of the registry, and every schema it accepts has
    a backend module in the registry, so the dispatch that follows never
    fails on the lookup. *)
Theorem validation_accepts_registered_types (doc : pyval) :
  (_validate_source_type doc = Ok tt
   ↔ ∃ src k,
       Py.getitem doc "source" = Ok src
       ∧ Py.getitem src "type" = Ok (PStr k)
       ∧ In k ["mysql"; "postgres"; "yahoo_finance"; "bigquery";
               "snowflake"; "databricks"; "oracle"])
  ∧ (_validate_source_type doc = Ok tt →
     ∃ src ty m,
       Py.getitem doc "source" = Ok src
       ∧ Py.getitem src "type" = Ok ty
       ∧ registry_getitem ty = Ok m).
Proof.
  assert (_validate_source_type doc = Ok tt →
          ∃ src k m,
            Py.getitem doc "source" = Ok src
            ∧ Py.getitem src "type" = Ok (PStr k)
            ∧ registry_lookup k SUPPORTED_SOURCES = Some m) as Hinv.
  { intros Hok. unfold _validate_source_type, rbind, registry_contains in Hok.
    destruct (Py.getitem doc "source") as [src|] eqn:Hsrc; [| done].
    destruct (Py.getitem src "type") as [ty|] eqn:Hty; [| done].
    destruct ty as [| | |k| | |]; try done.
    destruct (registry_lookup k SUPPORTED_SOURCES) as [m|] eqn:Hm; [| done].
    by exists src, k, m. }
  split; [split |].
  - intros Hok. destruct (Hinv Hok) as (src & k & m & Hsrc & Hty & Hm).
    exists src, k. split; [done |]. split; [done |].
    change (In k (map fst SUPPORTED_SOURCES)). apply registry_lookup_in. by exists m.
  - intros (src & k & Hsrc & Hty & Hin).
    change (In k (map fst SUPPORTED_SOURCES)) in Hin.
    apply registry_lookup_in in Hin as [m Hm].
    apply (validate_supported doc src (PStr k) m Hsrc Hty).
    unfold registry_getitem. by rewrite Hm.
  - intros Hok. destruct (Hinv Hok) as (src & k & m & Hsrc & Hty & Hm).
    exists src, (PStr k), m. split; [done |]. split; [done |].
    unfold registry_getitem. by rewrite Hm.
Qed.

(** ** The source fetch *)

(** The fetch of a schema with a registered source type and a query, as
    the guarded block it comes down to. *)
Lemma load_from_source_guarded (st : state) (src conn : pyval) (k m q : string) :
  Py.getitem (schema st) "source" = Ok src →
  Py.getitem src "type" = Ok (PStr k) →
  Py.get src "connection" (PDict []) = Ok conn →
  _generate_query (schema st) (schema st) = Ok q →
  registry_lookup k SUPPORTED_SOURCES = Some m →
  _load_from_source st
  = except_ImportError
      (bind (emit (ImportModule m)) (fun _ =>
       bind (lift (import_module m)) (fun _ =>
       bind (emit (BackendCall m (entry_point k) conn q)) (fun _ =>
       lift (if decide (k = "mysql" ∨ k = "postgres")
             then load_function m (entry_point k) conn q
             else connector_query m (entry_point k) conn q)))))
      (connector_not_found k m) st.
Proof.
  intros Hsrc Hty Hconn Hq Hm.
  assert (registry_getitem (PStr k) = Ok m) as Hg
    by (unfold registry_getitem; by rewrite Hm).
  remember (PStr k) as ty eqn:Ety.
  unfold _load_from_source, self_schema, bind at 1 2 3 4 5 6 7, lift.
  rewrite Hsrc. simpl. rewrite Hty. simpl. rewrite Hconn, Hq, Hg. subst ty.
  unfold entry_point, connector_not_found.
  change (py_str (PStr k)) with k. unfold Py.eq_str.
  destruct (decide (k = "mysql")) as [->|Hmysql].
  { destruct (decide (_ ∨ _)) as [_|Hno]; [done | destruct Hno; by left]. }
  destruct (decide (k = "postgres")) as [->|Hpostgres].
  { destruct (decide (_ ∨ _)) as [_|Hno]; [done | destruct Hno; by right]. }
  destruct (decide (_ ∨ _)) as [[|]|_]; done.
Qed.

(** X3: for a registered source type the fetch imports the module the
    registry names and then runs one entry point of it, "load_from_<type>"
    for mysql and postgres and "<Type>Connector" (the type capitalized)
    for the others, with the connection settings of the schema (an empty
    mapping when there are none) and the generated query; an answer of
    the backend that is not an import error is what the fetch returns.
    The fetch changes neither files nor the loader. *)
Theorem fetch_follows_the_naming_convention
    (st : state) (src : pyval) (k m q : string) :
  Py.getitem (schema st) "source" = Ok src →
  Py.getitem src "type" = Ok (PStr k) →
  registry_lookup k SUPPORTED_SOURCES = Some m →
  _generate_query (schema st) (schema st) = Ok q →
  import_module m = Ok tt →
  ∃ conn,
    Py.get src "connection" (PDict []) = Ok conn
    ∧ (Py.getitem src "connection" = Raise (KeyError "connection") → conn = PDict [])
    ∧ snd (_load_from_source st)
      = log [ImportModule m; BackendCall m (entry_point k) conn q] st
    ∧ ((∀ msg, (if decide (k = "mysql" ∨ k = "postgres")
                then load_function m (entry_point k) conn q
                else connector_query m (entry_point k) conn q)
               ≠ Raise (ImportError msg)) →
       fst (_load_from_source st)
       = if decide (k = "mysql" ∨ k = "postgres")
         then load_function m (entry_point k) conn q
         else connector_query m (entry_point k) conn q).
Proof.
  intros Hsrc Hty Hm Hq Himp.
  destruct (connection_of_source src (PStr k) Hty) as [conn Hconn].
  exists conn. split; [done |]. split.
  { destruct src as [| | | | | |kvs]; try done. simpl in *.
    destruct (Py.assoc "connection" kvs); [done | by intros _; injection Hconn]. }
  rewrite (load_from_source_guarded st src conn k m q Hsrc Hty Hconn Hq Hm).
  unfold except_ImportError, bind, lift, emit. simpl. rewrite Himp, log_log. simpl.
  destruct (if decide (k = "mysql" ∨ k = "postgres") then _ else _) as [df|e].
  - done.
  - split; [by destruct e |]. intros Hnot. destruct e; try done. by destruct (Hnot msg).
Qed.

(** X4: an import error, whether raised by the import of the backend
    module or by the backend's entry point, is replaced by the error
    that names the capitalized source type and the module to install;
    any other error of the import comes out as it is.  A failed import
    is followed by no call to the backend. *)
Theorem import_errors_are_reworded
    (st : state) (src : pyval) (k m q : string) :
  Py.getitem (schema st) "source" = Ok src →
  Py.getitem src "type" = Ok (PStr k) →
  registry_lookup k SUPPORTED_SOURCES = Some m →
  _generate_query (schema st) (schema st) = Ok q →
  (∀ msg,
     import_module m = Raise (ImportError msg) →
     _load_from_source st
     = (Raise (connector_not_found k m), log [ImportModule m] st))
  ∧ (∀ e,
       import_module m = Raise e →
       (∀ msg, e ≠ ImportError msg) →
       _load_from_source st = (Raise e, log [ImportModule m] st))
  ∧ (∀ conn msg,
       Py.get src "connection" (PDict []) = Ok conn →
       import_module m = Ok tt →
       (if decide (k = "mysql" ∨ k = "postgres")
        then load_function m (entry_point k) conn q
        else connector_query m (entry_point k) conn q)
       = Raise (ImportError msg) →
       _load_from_source st
       = (Raise (connector_not_found k m),
          log [ImportModule m; BackendCall m (entry_point k) conn q] st)).
Proof.
  intros Hsrc Hty Hm Hq.
  destruct (connection_of_source src (PStr k) Hty) as [conn Hconn].
  split; [| split].
  - intros msg Himp.
    rewrite (load_from_source_guarded st src conn k m q Hsrc Hty Hconn Hq Hm).
    unfold except_ImportError, bind, lift, emit. simpl. by rewrite Himp.
  - intros e Himp Hnot.
    rewrite (load_from_source_guarded st src conn k m q Hsrc Hty Hconn Hq Hm).
    unfold except_ImportError, bind, lift, emit. simpl. rewrite Himp.
    destruct e; try done. by destruct (Hnot msg).
  - intros conn' msg Hconn' Himp Hanswer.
    assert (conn' = conn) as -> by congruence.
    rewrite (load_from_source_guarded st src conn k m q Hsrc Hty Hconn Hq Hm).
    unfold except_ImportError, bind, lift, emit. simpl.
    by rewrite Himp, log_log, Hanswer.
Qed.

(** X5: the query is built only on a cache miss and before any backend
    is imported: when the cache is judged stale and the query cannot be
    built (a schema without columns, say), [load] fails with the error of
    the query construction right after the freshness decision, with no
    import, no call to a backend and no file changed. *)
Theorem query_errors_surface_before_any_import
    (id : string) (st : state) (f : file)
    (doc src ty : pyval) (m cache_file : string) (dec : list event) (e : exn) :
  fs st !! schema_path id = Some f →
  yaml_safe_load (content f) = Ok doc →
  Py.getitem doc "source" = Ok src →
  Py.getitem src "type" = Ok ty →
  registry_getitem ty = Ok m →
  _get_cache_file_path (PStr id) doc = Ok cache_file →
  _is_cache_valid cache_file (resolved id doc st)
  = (Ok false, log dec (resolved id doc st)) →
  _generate_query doc doc = Raise e →
  load id st = (Raise e, log dec (resolved id doc st)).
Proof.
  intros Hf Hdoc Hsrc Hty Hm Hcf Hdec Hq.
  rewrite (load_decided id st _ f doc src ty m cache_file false Hf Hdoc Hsrc Hty Hm Hcf Hdec).
  apply bind_raise.
  destruct (connection_of_source src ty Hty) as [conn Hconn].
  unfold _load_from_source, self_schema, bind, lift. simpl.
  rewrite Hsrc. simpl. rewrite Hty. simpl. by rewrite Hconn, Hq.
Qed.

(** ** Query construction on unusual schemas *)

Lemma rmapM_as_str_mixed (items : list pyval) (x : pyval) :
  In x items → (∀ s, x ≠ PStr s) → rmapM Py.as_str items = Raise TypeError.
Proof.
  intros Hin Hx. induction items as [|y items IH]; [done |]. simpl.
  destruct y as [| | |s| | |]; try done. simpl.
  destruct Hin as [Heq|Hin]; [by destruct (Hx s) |]. by rewrite (IH Hin).
Qed.

(** The first part of every query: the projection and the table. *)
Lemma generate_query_base (kvs : list (string * pyval)) (cv : pyval)
    (items : list pyval) (names : list string) (src tv : pyval) :
  Py.assoc "columns" kvs = Some cv →
  Py.iter cv = Ok items →
  Forall2 (fun col n => Py.getitem col "name" = Ok (PStr n)) items names →
  Py.assoc "source" kvs = Some src →
  Py.getitem src "table" = Ok tv →
  _generate_query (PDict kvs) (PDict kvs)
  = rbind
      (rbind (Ok (present (Py.assoc "order_by" kvs))) (fun has_order =>
         if has_order then
           rbind (Py.getitem (PDict kvs) "order_by") (fun order_by =>
           rbind (match order_by with
                  | PList l => rbind (rmapM Py.as_str l) (fun l => Ok (Str.join ", " l))
                  | _ => Ok (py_str order_by)
                  end) (fun clause =>
           Ok (("SELECT " ++ Str.join ", " names ++ " FROM " ++ py_str tv)
               ++ " ORDER BY " ++ clause)))
         else Ok ("SELECT " ++ Str.join ", " names ++ " FROM " ++ py_str tv)))
      (fun query =>
         rbind (Ok (present (Py.assoc "limit" kvs))) (fun has_limit =>
           if has_limit then
             rbind (Py.getitem (PDict kvs) "limit") (fun limit =>
             Ok (query ++ " LIMIT " ++ py_str limit))
           else Ok query)).
Proof.
  intros Hcols Hiter Hnames Hsrc Htable.
  unfold _generate_query. simpl. rewrite Hcols. simpl. rewrite Hiter. simpl.
  rewrite (rmapM_names _ _ Hnames). simpl. rewrite rmapM_as_str. simpl.
  rewrite Hsrc. simpl. by rewrite Htable.
Qed.

(** X6: what decides on the ORDER BY and LIMIT clauses is the presence of
    the key, not its value: an order_by that is not a list and a limit of
    any kind are printed as an f-string prints them, so a key with the
    value null appends "ORDER BY None" or "LIMIT None"; an order_by
    list with an element that is not a string makes the query
    construction fail with a type error. *)
Theorem clauses_follow_key_presence
    (kvs : list (string * pyval)) (cv : pyval) (items : list pyval)
    (names : list string) (src tv : pyval) :
  Py.assoc "columns" kvs = Some cv →
  Py.iter cv = Ok items →
  Forall2 (fun col n => Py.getitem col "name" = Ok (PStr n)) items names →
  Py.assoc "source" kvs = Some src →
  Py.getitem src "table" = Ok tv →
  (∀ v,
     Py.assoc "order_by" kvs = Some v → (∀ l, v ≠ PList l) →
     Py.assoc "limit" kvs = None →
     _generate_query (PDict kvs) (PDict kvs)
     = Ok (("SELECT " ++ Str.join ", " names ++ " FROM " ++ py_str tv)
           ++ " ORDER BY " ++ py_str v))
  ∧ (∀ limit,
       Py.assoc "order_by" kvs = None →
       Py.assoc "limit" kvs = Some limit →
       _generate_query (PDict kvs) (PDict kvs)
       = Ok (("SELECT " ++ Str.join ", " names ++ " FROM " ++ py_str tv)
             ++ " LIMIT " ++ py_str limit))
  ∧ (∀ v limit,
       Py.assoc "order_by" kvs = Some v → (∀ l, v ≠ PList l) →
       Py.assoc "limit" kvs = Some limit →
       _generate_query (PDict kvs) (PDict kvs)
       = Ok ((("SELECT " ++ Str.join ", " names ++ " FROM " ++ py_str tv)
              ++ " ORDER BY " ++ py_str v)
             ++ " LIMIT " ++ py_str limit))
  ∧ (∀ l x,
       Py.assoc "order_by" kvs = Some (PList l) →
       In x l → (∀ s, x ≠ PStr s) →
       _generate_query (PDict kvs) (PDict kvs) = Raise TypeError).
Proof.
  intros Hcols Hiter Hnames Hsrc Htable.
  rewrite (generate_query_base kvs cv items names src tv Hcols Hiter Hnames Hsrc Htable).
  simpl. repeat split.
  - intros v Hob Hv Hlim. rewrite Hob, Hlim. simpl.
    destruct v as [| | | | |l|]; try done. by destruct (Hv l).
  - intros limit Hob Hlim. by rewrite Hob, Hlim.
  - intros v limit Hob Hv Hlim. rewrite Hob, Hlim. simpl.
    destruct v as [| | | | |l|]; try done. by destruct (Hv l).
  - intros l x Hob Hin Hx. rewrite Hob. simpl.
    by rewrite (rmapM_as_str_mixed l x Hin Hx).
Qed.

Lemma rmapM_stops {A B} (f : A → result B) (pre post : list A) (x : A) (e : exn) :
  Forall (fun y => ∃ v, f y = Ok v) pre →
  f x = Raise e →
  rmapM f (pre ++ x :: post)%list = Raise e.
Proof.
  intros Hpre Hx. induction Hpre as [|y pre [v Hy] _ IH]; simpl.
  - by rewrite Hx.
  - by rewrite Hy, IH.
Qed.

Lemma rmapM_values {A B} (f : A → result B) (l : list A) :
  Forall (fun y => ∃ v, f y = Ok v) l →
  ∃ vs, rmapM f l = Ok vs ∧ Forall2 (fun y v => f y = Ok v) l vs.
Proof.
  induction 1 as [|y l [v Hy] _ (vs & Hvs & Hall)]; simpl.
  - by exists [].
  - exists (v :: vs). rewrite Hy, Hvs. split; [done | by constructor].
Qed.

(** X7: the query needs the columns, a name in every column and the
    table of the source: a schema without columns fails with the
    missing key "columns", the first column without a name with the
    error of that lookup, a name that is not a string with a type error
    (once every column has been looked up), and a source without table
    with the error of that lookup.  An empty list of columns is
    accepted and gives an empty projection. *)
Theorem query_needs_columns_names_and_table (kvs : list (string * pyval)) :
  (Py.assoc "columns" kvs = None →
   _generate_query (PDict kvs) (PDict kvs) = Raise (KeyError "columns"))
  ∧ (∀ cv pre col post e,
       Py.assoc "columns" kvs = Some cv →
       Py.iter cv = Ok (pre ++ col :: post)%list →
       Forall (fun c => ∃ v, Py.getitem c "name" = Ok v) pre →
       Py.getitem col "name" = Raise e →
       _generate_query (PDict kvs) (PDict kvs) = Raise e)
  ∧ (∀ cv items col v,
       Py.assoc "columns" kvs = Some cv →
       Py.iter cv = Ok items →
       Forall (fun c => ∃ v, Py.getitem c "name" = Ok v) items →
       In col items →
       Py.getitem col "name" = Ok v → (∀ s, v ≠ PStr s) →
       _generate_query (PDict kvs) (PDict kvs) = Raise TypeError)
  ∧ (∀ cv items names src e,
       Py.assoc "columns" kvs = Some cv →
       Py.iter cv = Ok items →
       Forall2 (fun col n => Py.getitem col "name" = Ok (PStr n)) items names →
       Py.assoc "source" kvs = Some src →
       Py.getitem src "table" = Raise e →
       _generate_query (PDict kvs) (PDict kvs) = Raise e)
  ∧ (∀ src tv,
       Py.assoc "columns" kvs = Some (PList []) →
       Py.assoc "source" kvs = Some src →
       Py.getitem src "table" = Ok tv →
       Py.assoc "order_by" kvs = None →
       Py.assoc "limit" kvs = None →
       _generate_query (PDict kvs) (PDict kvs)
       = Ok ("SELECT  FROM " ++ py_str tv)).
Proof.
  repeat split.
  - intros Hcols. unfold _generate_query. simpl. by rewrite Hcols.
  - intros cv pre col post e Hcols Hiter Hpre Hcol.
    unfold _generate_query. simpl. rewrite Hcols. simpl. rewrite Hiter. simpl.
    by rewrite (rmapM_stops _ pre post col e Hpre Hcol).
  - intros cv items col v Hcols Hiter Hall Hin Hcol Hv.
    unfold _generate_query. simpl. rewrite Hcols. simpl. rewrite Hiter. simpl.
    destruct (rmapM_values _ items Hall) as (vs & -> & Hvs). simpl.
    assert (In v vs) as Hinv.
    { clear -Hvs Hin Hcol. induction Hvs as [|c w items vs Hc _ IH]; [done |].
      destruct Hin as [->|Hin]; [left; congruence | right; by apply IH]. }
    by rewrite (rmapM_as_str_mixed vs v Hinv Hv).
  - intros cv items names src e Hcols Hiter Hnames Hsrc Htable.
    unfold _generate_query. simpl. rewrite Hcols. simpl. rewrite Hiter. simpl.
    rewrite (rmapM_names _ _ Hnames). simpl. rewrite rmapM_as_str. simpl.
    rewrite Hsrc. simpl. by rewrite Htable.
  - intros src tv Hcols Hsrc Htable Hob Hlim.
    rewrite (generate_query_base kvs (PList []) [] [] src tv Hcols eq_refl
               (List.Forall2_nil _) Hsrc Htable).
    by rewrite Hob, Hlim.
Qed.

(** ** Anonymization of values and columns *)



Lemma anonymize_series (col : series) :
  ∃ new, rmapM _anonymize col = Ok new
         ∧ Forall2 (fun old new => _anonymize old = Ok new) col new.
Proof.
  apply rmapM_values. induction col as [|v col IH]; constructor; [| done].
  apply anonymize_total.
Qed.

(** X9: an anonymize entry never fails on a label the table has.  When
    one column carries the label, the column is replaced in place by
    what [Series.apply] returns: a column without rows stays without
    rows, and otherwise [_anonymize] runs on every cell, in order, and
    the column becomes the conversion pandas makes of the values it
    returned, as many as there were rows.  When several columns carry
    the label the table is left as it is.  On a label no column carries
    the entry fails with the missing key, naming the label. *)
Theorem anonymize_entry_on_a_column
    (df : table) (transform type params : pyval) (c : string) :
  Py.getitem transform "type" = Ok type →
  Py.eq_str type "anonymize" = true →
  Py.getitem transform "params" = Ok params →
  Py.getitem params "column" = Ok (PStr c) →
  (∀ col,
     Frame.select c df = [col] →
     ∃ new,
       apply_transform df transform = Ok (Frame.set_column c new df)
       ∧ series_apply _anonymize col = Ok new
       ∧ (col = [] → new = [])
       ∧ (col ≠ [] →
            ∃ values,
              Forall2 (fun old value => _anonymize old = Ok value) col values
              ∧ List.length values = List.length col
              ∧ new = convert_objects values)
       ∧ Frame.labels (Frame.set_column c new df) = Frame.labels df)
  ∧ ((2 ≤ List.length (Frame.select c df))%nat → apply_transform df transform = Ok df)
  ∧ (Frame.select c df = [] →
     apply_transform df transform = Raise (KeyError c)).
Proof.
  intros Hty Hanon Hparams Hcol. unfold apply_transform.
  rewrite Hty. simpl. rewrite Hanon, Hparams. simpl. rewrite Hcol. simpl.
  split; [| split].
  - intros col Hc. rewrite Hc. simpl.
    assert (Hlabels : ∀ new,
              Frame.labels (Frame.set_column c new df) = Frame.labels df).
    { intros new. apply labels_set. rewrite column_select, Hc. by eexists. }
    destruct col as [|v col].
    + exists []. simpl. split; [done |]. split; [done |]. split; [done |].
      split; [done | apply Hlabels].
    + destruct (anonymize_series (v :: col)) as (values & Hvalues & Hall).
      exists (convert_objects values). unfold series_apply. rewrite Hvalues. simpl.
      split; [done |]. split; [done |]. split; [done |].
      split; [| apply Hlabels].
      intros _. exists values. split; [done |].
      split; [symmetry; by apply (Forall2_length _ _ _ Hall) | done].
  - intros Hlen.
    destruct (Frame.select c df) as [|col [|col' cols]]; simpl in *; [lia | lia | done].
  - intros Hc. by rewrite Hc.
Qed.

(** ** The transformation engine on unusual schemas *)

Lemma apply_transform_labels (df df' : table) (transform : pyval) :
  apply_transform df transform = Ok df' → Frame.labels df' = Frame.labels df.
Proof.
  intros Happly.
  destruct (Py.getitem transform "type") as [type|e] eqn:Hty.
  2: { unfold apply_transform in Happly. by rewrite Hty in Happly. }
  destruct (Py.eq_str type "anonymize" || Py.eq_str type "convert_timezone") eqn:Hknown.
  - destruct (apply_transform_one_column df df' transform type Hty Hknown Happly)
      as (c & _ & Hsome & [(old & new & _ & -> & _)|(_ & _ & ->)]); [| done].
    by apply labels_set.
  - apply orb_false_iff in Hknown as [Ha Hc].
    unfold apply_transform in Happly. rewrite Hty in Happly. simpl in Happly.
    rewrite Ha, Hc in Happly. by injection Happly as <-.
Qed.

(** X10: the transformations never add, drop, rename or reorder
    columns: whenever they succeed, the table they return has the labels
    of the table they were given, in the same order. *)
Theorem transformations_keep_the_labels (schema : pyval) (df df' : table) :
  _apply_transformations schema df = Ok df' →
  Frame.labels df' = Frame.labels df.
Proof.
  unfold _apply_transformations.
  destruct (Py.get schema "transformations" (PList [])) as [v|]; [| done]. simpl.
  destruct (Py.iter v) as [ts|]; [| done]. simpl.
  revert df. induction ts as [|t ts IH]; intros df; simpl.
  - by intros [= <-].
  - destruct (apply_transform df t) as [df1|] eqn:Ht; [| done]. simpl.
    intros Hrest. rewrite (IH df1 Hrest). by apply (apply_transform_labels df df1 t).
Qed.

(** X11: a schema without transformations, or with an empty list of
    them, leaves the table as it is; a transformations key that holds
    something that cannot be iterated (null, a number) makes the engine
    fail with that error; and the first entry that fails ends the run
    with its error, the entries after it not being applied. *)
Theorem transformations_edge_cases (kvs : list (string * pyval)) (df : table) :
  (Py.assoc "transformations" kvs = None
   ∨ Py.assoc "transformations" kvs = Some (PList []) →
   _apply_transformations (PDict kvs) df = Ok df)
  ∧ (∀ v e,
       Py.assoc "transformations" kvs = Some v →
       Py.iter v = Raise e →
       _apply_transformations (PDict kvs) df = Raise e)
  ∧ (Py.assoc "transformations" kvs = Some PNone →
     _apply_transformations (PDict kvs) df = Raise TypeError)
  ∧ (∀ before t after df1 e,
       Py.assoc "transformations" kvs = Some (PList (before ++ t :: after)%list) →
       apply_each before df = Ok df1 →
       apply_transform df1 t = Raise e →
       _apply_transformations (PDict kvs) df = Raise e).
Proof.
  unfold _apply_transformations. simpl. repeat split.
  - intros [-> | ->]; done.
  - intros v e -> Hiter. simpl. by rewrite Hiter.
  - by intros ->.
  - intros before t after df1 e -> Hbefore Ht. simpl.
    rewrite apply_each_app, Hbefore. simpl. by rewrite Ht.
Qed.

(** ** The freshness decision and the cache path *)

(** X12: the freshness decision is a table of three outcomes.  It is
    VALID exactly for an existing artifact, under the weekly policy,
    that is less than seven days old; it fails exactly when an artifact
    exists and the update frequency cannot be read from the schema, with
    the error of that lookup; otherwise it is negative.  The clock is
    read only under the weekly policy with an artifact in place, and the
    decision changes neither the files nor the loader. *)
Theorem freshness_decision_table (cache_file : string) (st : state) :
  (fst (_is_cache_valid cache_file st) = Ok true
   ↔ ∃ artifact frequency,
       fs st !! cache_file = Some artifact
       ∧ Py.getitem (schema st) "update_frequency" = Ok frequency
       ∧ Py.eq_str frequency "weekly" = true
       ∧ (clock st - mtime artifact < one_week)%Z)
  ∧ (∀ e,
       fst (_is_cache_valid cache_file st) = Raise e
       ↔ ∃ artifact,
           fs st !! cache_file = Some artifact
           ∧ Py.getitem (schema st) "update_frequency" = Raise e)
  ∧ (∃ dec,
       snd (_is_cache_valid cache_file st) = log dec st
       ∧ (In ClockNow dec
          ↔ ∃ artifact frequency,
              fs st !! cache_file = Some artifact
              ∧ Py.getitem (schema st) "update_frequency" = Ok frequency
              ∧ Py.eq_str frequency "weekly" = true)).
Proof.
  split; [apply is_cache_valid_iff |]. rewrite is_cache_valid_run. split.
  - intros e. split.
    + destruct (fs st !! cache_file) as [artifact|]; [| done].
      destruct (Py.getitem (schema st) "update_frequency") as [frequency|e'].
      * by destruct (Py.eq_str frequency "weekly").
      * simpl. intros [= ->]. by exists artifact.
    + by intros (artifact & -> & ->).
  - destruct (fs st !! cache_file) as [artifact|].
    2: { eexists. split; [done |]. split.
         - by intros [|[]].
         - by intros (? & ? & ? & _). }
    destruct (Py.getitem (schema st) "update_frequency") as [frequency|e].
    2: { eexists. split; [done |]. split.
         - by intros [|[|[]]].
         - by intros (? & ? & _ & ? & _). }
    destruct (Py.eq_str frequency "weekly") eqn:Hweekly.
    + eexists. split; [done |]. split.
      * intros _. by exists artifact, frequency.
      * intros _. right. right. by left.
    + eexists. split; [done |]. split.
      * by intros [|[|[]]].
      * intros (? & ? & _ & [= <-] & Hw). congruence.
Qed.

Lemma join_step_absolute (path b : string) :
  Str.startswith "/" b = true → Path.join_step path b = b.
Proof. intros Habs. unfold Path.join_step. by rewrite Habs. Qed.

(** X13: the cache path follows the rules of the POSIX path join.  With
    a relative identifier and a relative declared path it is
    "datasets/<identifier>/<path>"; a declared path that starts with "/"
    is taken alone, so the cache file then lies outside the datasets
    root. *)
Theorem explicit_path_joins_posix_style
    (id p : string) (kvs dest : list (string * pyval)) :
  Py.assoc "destination" kvs = Some (PDict dest) →
  Py.assoc "path" dest = Some (PStr p) →
  (Str.startswith "/" p = true →
   _get_cache_file_path (PStr id) (PDict kvs) = Ok p)
  ∧ (id ≠ EmptyString →
     Str.startswith "/" id = false →
     Str.endswith_char "/" id = false →
     Str.startswith "/" p = false →
     _get_cache_file_path (PStr id) (PDict kvs) = Ok ("datasets/" ++ id ++ "/" ++ p)).
Proof.
  intros Hdest Hp.
  assert (_get_cache_file_path (PStr id) (PDict kvs) = Ok (Path.join "datasets" [id; p]))
    as ->.
  { unfold _get_cache_file_path. simpl. rewrite Hdest. simpl. by rewrite Hp. }
  split.
  - intros Habs.
    change (Path.join "datasets" [id; p])
      with (Path.join_step (Path.join_step "datasets" id) p).
    by rewrite join_step_absolute.
  - intros Hid Hrel Hend Hprel. by rewrite join_relative.
Qed.

Lemma str_app_inv_head (p a b : string) : p ++ a = p ++ b → a = b.
Proof.
  induction p as [|c p IH]; [done |].
  change (String c (p ++ a) = String c (p ++ b) → a = b).
  intros [= Heq]. by apply IH.
Qed.

Lemma join_step_inj (path a b : string) :
  Str.startswith "/" a = false →
  Str.startswith "/" b = false →
  Path.join_step path a = Path.join_step path b → a = b.
Proof.
  intros Ha Hb. unfold Path.join_step. rewrite Ha, Hb.
  destruct (_ || _).
  - apply str_app_inv_head.
  - intros Heq. apply str_app_inv_head in Heq.
    by apply (str_app_inv_head "/") in Heq.
Qed.

(** X14: with no declared path, whatever the dataset identifier and the
    format, the cache file is never the schema document of the dataset,
    so a cache write under the default name cannot overwrite the
    schema. *)
Theorem default_cache_file_is_not_the_schema
    (id cache_file : string) (kvs dest : list (string * pyval)) :
  Py.assoc "destination" kvs = Some (PDict dest) →
  Py.assoc "path" dest = None →
  _get_cache_file_path (PStr id) (PDict kvs) = Ok cache_file →
  cache_file ≠ schema_path id.
Proof.
  intros Hdest Hp. unfold _get_cache_file_path. simpl. rewrite Hdest. simpl.
  rewrite Hp. simpl.
  destruct (Py.assoc "format" dest) as [fmt|]; [| done]. simpl.
  unfold schema_path.
  change (Path.join "datasets" [id; "schema.yaml"])
    with (Path.join_step (Path.join_step "datasets" id) "schema.yaml").
  destruct (Py.eq_str fmt "parquet"); intros [= <-] Heq;
    [change (Path.join "datasets" [id; "data." ++ "parquet"])
       with (Path.join_step (Path.join_step "datasets" id) "data.parquet") in Heq
    |change (Path.join "datasets" [id; "data." ++ "csv"])
       with (Path.join_step (Path.join_step "datasets" id) "data.csv") in Heq];
    by apply join_step_inj in Heq.
Qed.

(** ** Refreshing and reloading *)

(** A miss whose fetch, transformations and encoding succeed. *)
Lemma miss_writes (id : string) (st : state) (f : file)
    (doc src ty : pyval) (m cache_file fmt bytes : string)
    (dec : list event) (df df' : table) :
  fs st !! schema_path id = Some f →
  yaml_safe_load (content f) = Ok doc →
  Py.getitem doc "source" = Ok src →
  Py.getitem src "type" = Ok ty →
  registry_getitem ty = Ok m →
  _get_cache_file_path (PStr id) doc = Ok cache_file →
  _is_cache_valid cache_file (resolved id doc st)
  = (Ok false, log dec (resolved id doc st)) →
  fst (_load_from_source (resolved id doc st)) = Ok df →
  _apply_transformations doc df = Ok df' →
  declared_format doc = Ok (PStr fmt) →
  fmt = "parquet" ∨ fmt = "csv" →
  encoder_of fmt df' = Ok bytes →
  ∃ evs,
    forallb is_source_event evs = true
    ∧ load id st
      = (Ok df',
         State doc (PStr id) (<[cache_file := File (clock st) bytes]> (fs st)) (clock st)
               (trace st ++ schema_reads id ++ dec ++ evs
                ++ [WriteTable fmt cache_file])%list).
Proof.
  intros Hf Hdoc Hsrc Hty Hm Hcf Hdec Hfetch Htr Hfmt Hsup Henc.
  destruct (load_from_source_shape doc) as (r & evs & Hevs & Hrun).
  rewrite (Hrun (resolved id doc st) eq_refl) in Hfetch. simpl in Hfetch. subst r.
  exists evs. split; [done |].
  rewrite (load_decided id st _ f doc src ty m cache_file false Hf Hdoc Hsrc Hty Hm Hcf Hdec).
  rewrite (refresh_run doc cache_file (log dec (resolved id doc st)) (Ok df) evs
             eq_refl Hrun), Htr.
  rewrite (cache_data_supported df' cache_file (log evs (log dec (resolved id doc st)))
             fmt bytes Hfmt Hsup Henc).
  simpl. by rewrite <- !app_assoc.
Qed.

(** X15: the declared cache format is looked at only when the cache is
    read or written.  On a miss with a format that is neither parquet
    nor csv, or with no format at all, [load] first fetches from the
    source and transforms, and only then fails, with the
    unsupported-format error naming the value, or with the error of the
    lookup; nothing is written and the fetched table is lost. *)
Theorem unsupported_format_is_noticed_after_the_fetch
    (id : string) (st : state) (f : file)
    (doc src ty : pyval) (m cache_file : string)
    (dec : list event) (df df' : table) :
  fs st !! schema_path id = Some f →
  yaml_safe_load (content f) = Ok doc →
  Py.getitem doc "source" = Ok src →
  Py.getitem src "type" = Ok ty →
  registry_getitem ty = Ok m →
  _get_cache_file_path (PStr id) doc = Ok cache_file →
  _is_cache_valid cache_file (resolved id doc st)
  = (Ok false, log dec (resolved id doc st)) →
  fst (_load_from_source (resolved id doc st)) = Ok df →
  _apply_transformations doc df = Ok df' →
  ∃ evs,
    forallb is_source_event evs = true
    ∧ snd (_load_from_source (resolved id doc st)) = log evs (resolved id doc st)
    ∧ (∀ format,
         declared_format doc = Ok format →
         Py.eq_str format "parquet" = false →
         Py.eq_str format "csv" = false →
         load id st
         = (Raise (ValueError ("Unsupported cache format: " ++ py_str format)),
            log (dec ++ evs) (resolved id doc st)))
    ∧ (∀ e,
         declared_format doc = Raise e →
         load id st = (Raise e, log (dec ++ evs) (resolved id doc st))).
Proof.
  intros Hf Hdoc Hsrc Hty Hm Hcf Hdec Hfetch Htr.
  destruct (load_from_source_shape doc) as (r & evs & Hevs & Hrun).
  rewrite (Hrun (resolved id doc st) eq_refl) in Hfetch. simpl in Hfetch. subst r.
  exists evs. split; [done |]. split; [by rewrite (Hrun (resolved id doc st) eq_refl) |].
  rewrite (load_decided id st _ f doc src ty m cache_file false Hf Hdoc Hsrc Hty Hm Hcf Hdec).
  rewrite (refresh_run doc cache_file (log dec (resolved id doc st)) (Ok df) evs
             eq_refl Hrun), Htr.
  rewrite cache_data_run, log_log.
  change (schema (log (dec ++ evs) (resolved id doc st))) with doc.
  unfold declared_format. split.
  - intros format -> Hp Hc. by rewrite Hp, Hc.
  - by intros e ->.
Qed.

(** X16: a refresh restarts the freshness window.  Under the weekly
    policy, after a load that fetched and wrote the cache, a second load
    at any time less than seven days after the first is a cache hit: it
    returns what the decoder makes of the bytes the first load wrote,
    and calls the source no more.  This needs the cache file not to be
    the schema document itself. *)
Theorem refresh_then_reload_hits
    (id : string) (st : state) (f : file)
    (doc src ty : pyval) (m cache_file fmt bytes : string)
    (df df' : table) (later : Z) :
  fs st !! schema_path id = Some f →
  yaml_safe_load (content f) = Ok doc →
  Py.getitem doc "source" = Ok src →
  Py.getitem src "type" = Ok ty →
  registry_getitem ty = Ok m →
  _get_cache_file_path (PStr id) doc = Ok cache_file →
  Py.getitem doc "update_frequency" = Ok (PStr "weekly") →
  (fs st !! cache_file = None
   ∨ ∃ artifact, fs st !! cache_file = Some artifact
                 ∧ (clock st - mtime artifact >= one_week)%Z) →
  fst (_load_from_source (resolved id doc st)) = Ok df →
  _apply_transformations doc df = Ok df' →
  declared_format doc = Ok (PStr fmt) →
  fmt = "parquet" ∨ fmt = "csv" →
  encoder_of fmt df' = Ok bytes →
  cache_file ≠ schema_path id →
  (later - clock st < one_week)%Z →
  ∃ st1 st2,
    load id st = (Ok df', st1)
    ∧ load id (at_time later st1) = (decoder_of fmt bytes, st2)
    ∧ fs st2 = fs st1
    ∧ calls_between (at_time later st1) st2
        (schema_reads id
         ++ [PathExists cache_file; GetMtime cache_file; ClockNow;
             ReadTable fmt cache_file]).
Proof.
  intros Hf Hdoc Hsrc Hty Hm Hcf Hweekly Hstale Hfetch Htr Hfmt Hsup Henc Hne Hlater.
  destruct (weekly_stale_decision id doc st cache_file Hweekly Hstale)
    as (dec & Hdec & _).
  destruct (miss_writes id st f doc src ty m cache_file fmt bytes dec df df'
              Hf Hdoc Hsrc Hty Hm Hcf Hdec Hfetch Htr Hfmt Hsup Henc)
    as (evs & _ & Hload).
  eexists. rewrite Hload.
  destruct (weekly_hit id
              (at_time later
                 (State doc (PStr id) (<[cache_file := File (clock st) bytes]> (fs st))
                    (clock st)
                    (trace st ++ schema_reads id ++ dec ++ evs
                     ++ [WriteTable fmt cache_file])%list))
              f (File (clock st) bytes) doc src ty m cache_file fmt)
    as (st2 & Hreload & Hfs & Hcalls); try done.
  - simpl. by rewrite lookup_insert_ne.
  - simpl. by rewrite lookup_insert_eq.
  - by exists st2.
Qed.

(** X17: a successful refresh, under any policy, returns the very table
    it caches: the file at the cache path holds the encoding of the
    returned table, stamped with the current time, every other file is
    as it was, and the loader remembers the schema and the identifier. *)
Theorem refresh_writes_what_it_returns
    (id : string) (st : state) (f : file)
    (doc src ty : pyval) (m cache_file fmt bytes : string)
    (dec : list event) (df df' : table) :
  fs st !! schema_path id = Some f →
  yaml_safe_load (content f) = Ok doc →
  Py.getitem doc "source" = Ok src →
  Py.getitem src "type" = Ok ty →
  registry_getitem ty = Ok m →
  _get_cache_file_path (PStr id) doc = Ok cache_file →
  _is_cache_valid cache_file (resolved id doc st)
  = (Ok false, log dec (resolved id doc st)) →
  fst (_load_from_source (resolved id doc st)) = Ok df →
  _apply_transformations doc df = Ok df' →
  declared_format doc = Ok (PStr fmt) →
  fmt = "parquet" ∨ fmt = "csv" →
  encoder_of fmt df' = Ok bytes →
  ∃ st',
    load id st = (Ok df', st')
    ∧ fs st' !! cache_file = Some (File (clock st) bytes)
    ∧ (∀ p, p ≠ cache_file → fs st' !! p = fs st !! p)
    ∧ schema st' = doc
    ∧ dataset_path st' = PStr id.
Proof.
  intros Hf Hdoc Hsrc Hty Hm Hcf Hdec Hfetch Htr Hfmt Hsup Henc.
  destruct (miss_writes id st f doc src ty m cache_file fmt bytes dec df df'
              Hf Hdoc Hsrc Hty Hm Hcf Hdec Hfetch Htr Hfmt Hsup Henc)
    as (evs & _ & Hload).
  eexists. split; [exact Hload |]. simpl.
  split; [by rewrite lookup_insert_eq |].
  split; [| done]. intros p Hp. by rewrite lookup_insert_ne.
Qed.

(** X18: a fresh artifact that cannot be decoded is not healed by a
    fetch: on a VALID decision with a supported format, the error of
    the decoder is the outcome of [load], the source is not called and
    no file changes. *)
Theorem unreadable_fresh_cache_is_not_refetched
    (id : string) (st : state) (f artifact : file)
    (doc src ty : pyval) (m cache_file fmt : string) (e : exn) :
  fs st !! schema_path id = Some f →
  yaml_safe_load (content f) = Ok doc →
  Py.getitem doc "source" = Ok src →
  Py.getitem src "type" = Ok ty →
  registry_getitem ty = Ok m →
  _get_cache_file_path (PStr id) doc = Ok cache_file →
  fst (_is_cache_valid cache_file (resolved id doc st)) = Ok true →
  fs st !! cache_file = Some artifact →
  declared_format doc = Ok (PStr fmt) →
  fmt = "parquet" ∨ fmt = "csv" →
  decoder_of fmt (content artifact) = Raise e →
  ∃ st',
    load id st = (Raise e, st')
    ∧ fs st' = fs st
    ∧ calls_between st st'
        (schema_reads id
         ++ [PathExists cache_file; GetMtime cache_file; ClockNow;
             ReadTable fmt cache_file]).
Proof.
  intros Hf Hdoc Hsrc Hty Hm Hcf Hvalid Hsome Hfmt Hsup Hdecode.
  destruct (is_cache_valid_true _ _ Hvalid) as (artifact' & _ & Hrun).
  rewrite (load_decided id st _ f doc src ty m cache_file true Hf Hdoc Hsrc Hty Hm Hcf Hrun).
  rewrite (read_cache_supported cache_file
             (log [PathExists cache_file; GetMtime cache_file; ClockNow]
                  (resolved id doc st)) fmt Hfmt Hsup).
  simpl. rewrite Hsome, Hdecode.
  eexists. split; [done |]. split; [done |].
  unfold calls_between. simpl. by rewrite <- !app_assoc.
Qed.

(** ** Whole runs of [load] *)

(** X19: [load] reads the schema anew at every call and never consults
    what the loader held before: a loader that has already loaded
    something and a loader just made behave alike on the same files at
    the same time, in what they return, in the files they leave and in
    the calls they make; when the call succeeds they end in the same
    state. *)
Theorem load_starts_afresh (id : string) (st : state) :
  fst (load id st) = fst (load id (__init__ st))
  ∧ fs (snd (load id st)) = fs (snd (load id (__init__ st)))
  ∧ trace (snd (load id st)) = trace (snd (load id (__init__ st)))
  ∧ (∀ t, fst (load id st) = Ok t →
          snd (load id st) = snd (load id (__init__ st))).
Proof.
  destruct (fs st !! schema_path id) as [f|] eqn:Hf.
  2: { rewrite (load_schema_absent id st Hf), (load_schema_absent id (__init__ st) Hf).
       done. }
  destruct (yaml_safe_load (content f)) as [doc|e] eqn:Hdoc.
  2: { rewrite (load_schema_unreadable id st f e Hf Hdoc),
         (load_schema_unreadable id (__init__ st) f e Hf Hdoc). done. }
  rewrite (load_resolved id st f doc Hf Hdoc), (load_resolved id (__init__ st) f doc Hf Hdoc).
  done.
Qed.

(** The calls of a fetch: none, the import alone, or the import and one
    call to the backend; a table comes only out of the last. *)
Lemma load_from_source_events (doc : pyval) :
  ∃ r evs,
    (∀ st, schema st = doc → _load_from_source st = (r, log evs st))
    ∧ ((evs = [] ∧ ∃ e, r = Raise e)
       ∨ (∃ m e, evs = [ImportModule m] ∧ r = Raise e)
       ∨ (∃ m entry conn q, evs = [ImportModule m; BackendCall m entry conn q])).
Proof.
  assert (∀ e (stop : ∀ st, schema st = doc → _load_from_source st = (Raise e, st)),
            ∃ r evs,
              (∀ st, schema st = doc → _load_from_source st = (r, log evs st))
              ∧ ((evs = [] ∧ ∃ e, r = Raise e)
                 ∨ (∃ m e, evs = [ImportModule m] ∧ r = Raise e)
                 ∨ (∃ m entry conn q, evs = [ImportModule m; BackendCall m entry conn q])))
    as Hstop.
  { intros e stop. exists (Raise e), []. split.
    - intros st Hs. by rewrite log_nil, stop.
    - left. split; [done | by exists e]. }
  destruct (Py.getitem doc "source") as [src|e] eqn:Hsrc.
  2: { apply (Hstop e). intros st Hs.
       unfold _load_from_source, self_schema, bind, lift. simpl.
       by rewrite Hs, Hsrc. }
  destruct (Py.getitem src "type") as [ty|e] eqn:Hty.
  2: { apply (Hstop e). intros st Hs.
       unfold _load_from_source, self_schema, bind, lift. simpl.
       rewrite Hs, Hsrc. simpl. by rewrite Hty. }
  destruct (connection_of_source src ty Hty) as [conn Hconn].
  destruct (_generate_query doc doc) as [q|e] eqn:Hq.
  2: { apply (Hstop e). intros st Hs.
       unfold _load_from_source, self_schema, bind, lift. simpl.
       rewrite Hs, Hsrc. simpl. rewrite Hty. simpl. by rewrite Hconn, Hq. }
  destruct (registry_getitem ty) as [m|e] eqn:Hm.
  2: { apply (Hstop e). intros st Hs.
       unfold _load_from_source, self_schema, bind, lift. simpl.
       rewrite Hs, Hsrc. simpl. rewrite Hty. simpl. by rewrite Hconn, Hq, Hm. }
  assert (∃ k, ty = PStr k ∧ registry_lookup k SUPPORTED_SOURCES = Some m)
    as (k & -> & Hk).
  { unfold registry_getitem in Hm. destruct ty as [| [] | |k| | |]; try done.
    destruct (registry_lookup k SUPPORTED_SOURCES) as [m'|] eqn:Hk; [| done].
    injection Hm as <-. by exists k. }
  assert (∀ st, schema st = doc →
            _load_from_source st
            = except_ImportError
                (bind (emit (ImportModule m)) (fun _ =>
                 bind (lift (import_module m)) (fun _ =>
                 bind (emit (BackendCall m (entry_point k) conn q)) (fun _ =>
                 lift (if decide (k = "mysql" ∨ k = "postgres")
                       then load_function m (entry_point k) conn q
                       else connector_query m (entry_point k) conn q)))))
                (connector_not_found k m) st) as Hguard.
  { intros st Hs. apply (load_from_source_guarded st src conn k m q); by rewrite ?Hs. }
  destruct (import_module m) as [[]|e] eqn:Himp.
  - destruct (if decide (k = "mysql" ∨ k = "postgres")
              then load_function m (entry_point k) conn q
              else connector_query m (entry_point k) conn q) as [df|e] eqn:Hanswer.
    + exists (Ok df), [ImportModule m; BackendCall m (entry_point k) conn q]. split.
      * intros st Hs. rewrite (Hguard st Hs).
        unfold except_ImportError, bind, lift, emit. simpl. by rewrite log_log.
      * right. right. by eexists _, _, _, _.
    + exists (match e with
              | ImportError _ => Raise (connector_not_found k m)
              | _ => Raise e
              end), [ImportModule m; BackendCall m (entry_point k) conn q]. split.
      * intros st Hs. rewrite (Hguard st Hs).
        unfold except_ImportError, bind, lift, emit. simpl. rewrite log_log.
        by destruct e.
      * right. right. by eexists _, _, _, _.
  - exists (match e with
            | ImportError _ => Raise (connector_not_found k m)
            | _ => Raise e
            end), [ImportModule m]. split.
    + intros st Hs. rewrite (Hguard st Hs).
      unfold except_ImportError, bind, lift, emit. simpl. by destruct e.
    + right. left. exists m. destruct e; by eexists.
Qed.

Lemma is_cache_valid_quiet (cache_file : string) (st : state) :
  ∃ v dec,
    _is_cache_valid cache_file st = (v, log dec st)
    ∧ cache_and_source_calls dec = [].
Proof.
  rewrite is_cache_valid_run.
  destruct (fs st !! cache_file) as [artifact|]; [| by eexists _, _].
  destruct (Py.getitem (schema st) "update_frequency") as [frequency|e];
    [| by eexists _, _].
  destruct (Py.eq_str frequency "weekly"); by eexists _, _.
Qed.

Lemma cache_and_source_calls_app (evs1 evs2 : list event) :
  cache_and_source_calls (evs1 ++ evs2)
  = (cache_and_source_calls evs1 ++ cache_and_source_calls evs2)%list.
Proof. apply List.filter_app. Qed.

(** What the write step does: nothing but fail, or one write call that
    leaves the files as they were or puts new bytes at the cache path. *)
Lemma cache_data_effect (df : table) (cache_file : string) (st : state) :
  ∃ r st',
    _cache_data df cache_file st = (r, st')
    ∧ schema st' = schema st
    ∧ ((st' = st ∧ ∃ e, r = Raise e)
       ∨ (∃ fmt,
            trace st' = (trace st ++ [WriteTable fmt cache_file])%list
            ∧ ((fs st' = fs st ∧ ∃ e, r = Raise e)
               ∨ (r = Ok tt
                  ∧ ∃ bytes, fs st' = <[cache_file := File (clock st) bytes]> (fs st))))).
Proof.
  rewrite cache_data_run.
  destruct (rbind _ _) as [format|e].
  2: { eexists _, _. split; [done |]. split; [done |]. left. split; [done | by eexists]. }
  simpl. destruct (Py.eq_str format "parquet").
  { destruct (to_parquet df) as [bytes|e]; eexists _, _; (split; [done |]);
      (split; [done |]); right; exists "parquet"; (split; [done |]).
    - right. split; [done | by exists bytes].
    - left. split; [done | by eexists]. }
  destruct (Py.eq_str format "csv").
  { destruct (to_csv df) as [bytes|e]; eexists _, _; (split; [done |]);
      (split; [done |]); right; exists "csv"; (split; [done |]).
    - right. split; [done | by exists bytes].
    - left. split; [done | by eexists]. }
  eexists _, _. split; [done |]. split; [done |]. left. split; [done | by eexists].
Qed.

(** The anatomy of a run of [load], by the calls it makes to the cache
    content and to the source. *)
Lemma load_anatomy (id : string) (st : state) :
  ∃ r st' evs,
    load id st = (r, st')
    ∧ calls_between st st' evs
    ∧ ((cache_and_source_calls evs = [] ∧ fs st' = fs st ∧ ∃ e, r = Raise e)
       ∨ (∃ fmt cache_file,
            cache_and_source_calls evs = [ReadTable fmt cache_file] ∧ fs st' = fs st)
       ∨ (∃ m e,
            cache_and_source_calls evs = [ImportModule m]
            ∧ fs st' = fs st ∧ r = Raise e)
       ∨ (∃ m entry conn q e,
            cache_and_source_calls evs = [ImportModule m; BackendCall m entry conn q]
            ∧ fs st' = fs st ∧ r = Raise e)
       ∨ (∃ m entry conn q fmt cache_file,
            cache_and_source_calls evs
            = [ImportModule m; BackendCall m entry conn q; WriteTable fmt cache_file]
            ∧ _get_cache_file_path (PStr id) (schema st') = Ok cache_file
            ∧ ((fs st' = fs st ∧ ∃ e, r = Raise e)
               ∨ ((∃ t, r = Ok t)
                  ∧ ∃ bytes, fs st' = <[cache_file := File (clock st) bytes]> (fs st))))).
Proof.
  destruct (fs st !! schema_path id) as [f|] eqn:Hf.
  2: { rewrite (load_schema_absent id st Hf). eexists _, _, _.
       split; [done |]. split; [done |]. left. split; [done |]. split; [done | by eexists]. }
  destruct (yaml_safe_load (content f)) as [doc|e] eqn:Hdoc.
  2: { rewrite (load_schema_unreadable id st f e Hf Hdoc). eexists _, _, _.
       split; [done |]. split; [done |]. left. split; [done |]. split; [done | by eexists]. }
  rewrite (load_resolved id st f doc Hf Hdoc).
  destruct (_validate_source_type doc) as [[]|e].
  2: { eexists _, _, (schema_reads id). split; [done |]. split; [done |].
       left. split; [done |]. split; [done | by eexists]. }
  destruct (_get_cache_file_path (PStr id) doc) as [cache_file|e] eqn:Hcf.
  2: { eexists _, _, (schema_reads id). split; [done |]. split; [done |].
       left. split; [done |]. split; [done | by eexists]. }
  destruct (is_cache_valid_quiet cache_file (resolved id doc st))
    as (v & dec & Hdec & Hquiet).
  unfold bind at 1. rewrite Hdec.
  assert (cache_and_source_calls (schema_reads id ++ dec) = []) as Hpre.
  { by rewrite cache_and_source_calls_app, Hquiet. }
  destruct v as [[]|e].
  - (* hit *)
    rewrite read_cache_run.
    change (schema (log dec (resolved id doc st))) with doc.
    change (fs (log dec (resolved id doc st))) with (fs st).
    destruct (rbind _ _) as [format|e].
    2: { eexists _, _, (schema_reads id ++ dec)%list. split; [done |].
         split; [unfold calls_between; simpl; by rewrite <- !app_assoc |].
         left. split; [done |]. split; [done | by eexists]. }
    destruct (Py.eq_str format "parquet").
    { eexists _, _, ((schema_reads id ++ dec) ++ [ReadTable "parquet" cache_file])%list.
      split; [done |].
      split; [unfold calls_between; simpl; by rewrite <- !app_assoc |].
      right. left. exists "parquet", cache_file.
      rewrite cache_and_source_calls_app, Hpre. done. }
    destruct (Py.eq_str format "csv").
    { eexists _, _, ((schema_reads id ++ dec) ++ [ReadTable "csv" cache_file])%list.
      split; [done |].
      split; [unfold calls_between; simpl; by rewrite <- !app_assoc |].
      right. left. exists "csv", cache_file.
      rewrite cache_and_source_calls_app, Hpre. done. }
    eexists _, _, (schema_reads id ++ dec)%list. split; [done |].
    split; [unfold calls_between; simpl; by rewrite <- !app_assoc |].
    left. split; [done |]. split; [done | by eexists].
  - (* miss *)
    destruct (load_from_source_events doc) as (r0 & evs0 & Hrun & Hshape).
    rewrite (refresh_run doc cache_file (log dec (resolved id doc st)) r0 evs0
               eq_refl Hrun).
    destruct Hshape as [[-> [e ->]] | [(m & e & -> & ->) | (m & entry & conn & q & ->)]].
    + eexists _, _, ((schema_reads id ++ dec) ++ [])%list. split; [done |].
      split; [unfold calls_between; simpl; by rewrite <- !app_assoc |].
      left. rewrite app_nil_r. split; [done |]. split; [done | by eexists].
    + eexists _, _, ((schema_reads id ++ dec) ++ [ImportModule m])%list.
      split; [done |].
      split; [unfold calls_between; simpl; by rewrite <- !app_assoc |].
      right. right. left. exists m, e.
      rewrite cache_and_source_calls_app, Hpre. done.
    + destruct r0 as [df|e].
      2: { eexists _, _, ((schema_reads id ++ dec)
                          ++ [ImportModule m; BackendCall m entry conn q])%list.
           split; [done |].
           split; [unfold calls_between; simpl; by rewrite <- !app_assoc |].
           right. right. right. left. exists m, entry, conn, q, e.
           rewrite cache_and_source_calls_app, Hpre. done. }
      destruct (_apply_transformations doc df) as [df'|e].
      2: { eexists _, _, ((schema_reads id ++ dec)
                          ++ [ImportModule m; BackendCall m entry conn q])%list.
           split; [done |].
           split; [unfold calls_between; simpl; by rewrite <- !app_assoc |].
           right. right. right. left. exists m, entry, conn, q, e.
           rewrite cache_and_source_calls_app, Hpre. done. }
      destruct (cache_data_effect df' cache_file
                  (log [ImportModule m; BackendCall m entry conn q]
                     (log dec (resolved id doc st))))
        as (r & st' & -> & Hsch & Heffect).
      destruct Heffect as [[-> [e ->]] | (fmt & Htrace & Hfs)].
      * eexists _, _, ((schema_reads id ++ dec)
                       ++ [ImportModule m; BackendCall m entry conn q])%list.
        split; [done |].
        split; [unfold calls_between; simpl; by rewrite <- !app_assoc |].
        right. right. right. left. exists m, entry, conn, q, e.
        rewrite cache_and_source_calls_app, Hpre. done.
      * exists (match r with Ok _ => Ok df' | Raise e => Raise e end), st',
          ((schema_reads id ++ dec)
           ++ [ImportModule m; BackendCall m entry conn q; WriteTable fmt cache_file])%list.
        split; [by destruct r as [[]|e] |].
        split; [unfold calls_between; rewrite Htrace; simpl; by rewrite <- !app_assoc |].
        right. right. right. right. exists m, entry, conn, q, fmt, cache_file.
        rewrite cache_and_source_calls_app, Hpre. split; [done |].
        split; [by rewrite Hsch |].
        destruct Hfs as [[Hfs [e ->]] | [-> [bytes Hfs]]].
        -- left. split; [done | by eexists].
        -- right. split; [by eexists | by exists bytes].
  - (* the decision itself fails *)
    eexists _, _, (schema_reads id ++ dec)%list. split; [done |].
    split; [unfold calls_between; simpl; by rewrite <- !app_assoc |].
    left. split; [done |]. split; [done | by eexists].
Qed.

(** X20: a run of [load] changes at most one file, the cache file of the
    schema it read, and only by a write call to it; every file that was
    there before is still there after. *)
Theorem load_touches_only_the_cache_file
    (id : string) (st st' : state) (r : result table) :
  load id st = (r, st') →
  (∀ p, is_Some (fs st !! p) → is_Some (fs st' !! p))
  ∧ (∀ p, fs st' !! p ≠ fs st !! p →
          _get_cache_file_path (PStr id) (schema st') = Ok p
          ∧ ∃ evs fmt, calls_between st st' evs ∧ In (WriteTable fmt p) evs).
Proof.
  intros Hload.
  destruct (load_anatomy id st) as (r' & st2 & evs & Hrun & Hcalls & Hcases).
  rewrite Hload in Hrun. injection Hrun as <- <-.
  assert (fs st' = fs st →
          (∀ p, is_Some (fs st !! p) → is_Some (fs st' !! p))
          ∧ (∀ p, fs st' !! p ≠ fs st !! p →
                  _get_cache_file_path (PStr id) (schema st') = Ok p
                  ∧ ∃ evs fmt, calls_between st st' evs ∧ In (WriteTable fmt p) evs))
    as Hsame.
  { intros ->. split; [done |]. by intros p []. }
  destruct Hcases as [(_ & Hfs & _) | [(fmt & cf & _ & Hfs)
    | [(m & e & _ & Hfs & _) | [(m & entry & conn & q & e & _ & Hfs & _)
    | (m & entry & conn & q & fmt & cf & Hio & Hcf & Hfs)]]]]; try by apply Hsame.
  destruct Hfs as [[Hfs _] | [_ [bytes Hfs]]]; [by apply Hsame |].
  rewrite Hfs. split.
  - intros p Hp. destruct (decide (cf = p)) as [->|Hne].
    + rewrite lookup_insert_eq. by eexists.
    + by rewrite lookup_insert_ne.
  - intros p Hp. destruct (decide (cf = p)) as [->|Hne].
    + split; [done |]. exists evs, fmt. split; [done |].
      assert (In (WriteTable fmt p) (cache_and_source_calls evs)) as Hin
        by (rewrite Hio; right; right; by left).
      unfold cache_and_source_calls in Hin. by apply List.filter_In in Hin as [Hin _].
    + by rewrite lookup_insert_ne in Hp.
Qed.

(** X21: as far as the cache content and the source go, a run of [load]
    has one of five shapes: no call at all, one cache read, one import,
    one import and one backend call, or one import, one backend call
    and one cache write.  So a run never both reads the cache and calls
    the source, never tries an import, a backend call or a write twice,
    and never writes without having fetched; a run that returns a table
    has read the cache or written it. *)
Theorem load_runs_one_of_five_shapes (id : string) (st : state) :
  ∃ evs,
    calls_between st (snd (load id st)) evs
    ∧ (cache_and_source_calls evs = []
       ∨ (∃ fmt p, cache_and_source_calls evs = [ReadTable fmt p])
       ∨ (∃ m, cache_and_source_calls evs = [ImportModule m])
       ∨ (∃ m entry conn q,
            cache_and_source_calls evs = [ImportModule m; BackendCall m entry conn q])
       ∨ (∃ m entry conn q fmt p,
            cache_and_source_calls evs
            = [ImportModule m; BackendCall m entry conn q; WriteTable fmt p]))
    ∧ (∀ t, fst (load id st) = Ok t →
            (∃ fmt p, cache_and_source_calls evs = [ReadTable fmt p])
            ∨ (∃ m entry conn q fmt p,
                 cache_and_source_calls evs
                 = [ImportModule m; BackendCall m entry conn q; WriteTable fmt p])).
Proof.
  destruct (load_anatomy id st) as (r & st' & evs & -> & Hcalls & Hcases).
  exists evs. split; [done |].
  destruct Hcases as [(Hio & _ & e & ->) | [(fmt & cf & Hio & _)
    | [(m & e & Hio & _ & ->) | [(m & entry & conn & q & e & Hio & _ & ->)
    | (m & entry & conn & q & fmt & cf & Hio & _ & _)]]]]; simpl.
  - split; [by left | done].
  - split; [right; left; by eexists _, _ | intros t _; left; by eexists _, _].
  - split; [right; right; left; by eexists | done].
  - split; [right; right; right; left; by eexists _, _, _, _ | done].
  - split; [right; right; right; right; by eexists _, _, _, _, _, _
           | intros t _; right; by eexists _, _, _, _, _, _].
Qed.

End Further.

(** * The further properties at work *)

Section FurtherExamples.

Import Demo.

Local Ltac by_computation := vm_compute; reflexivity.

Lemma schema_resolution_failures_witness :
  @load world "sales" (start ∅ 0)
  = (Raise (FileNotFoundError "Schema file not found: datasets/sales/schema.yaml"),
     State PNone (PStr "sales") ∅ 0 [PathExists "datasets/sales/schema.yaml"]).
Proof.
  apply (proj1 (@schema_resolution_failures world "sales" (start ∅ 0))).
  by_computation.
Defined.

Lemma validation_accepts_registered_types_witness :
  ∃ src ty m,
    Py.getitem weekly "source" = Ok src
    ∧ Py.getitem src "type" = Ok ty
    ∧ registry_getitem ty = Ok m.
Proof.
  apply (proj2 (@validation_accepts_registered_types world weekly)).
  by_computation.
Defined.

Lemma fetch_follows_the_naming_convention_witness :
  snd (@_load_from_source world
         (Scenario.holding (schema_with [] "snowflake" "parquet" "email")))
  = log [ImportModule "pandasai.ee.connectors.snowflake";
         BackendCall "pandasai.ee.connectors.snowflake" "SnowflakeConnector"
           (PDict [("host", PStr "db")]) "SELECT id, email FROM customers"]
        (Scenario.holding (schema_with [] "snowflake" "parquet" "email")).
Proof.
  destruct (@fetch_follows_the_naming_convention world
              (Scenario.holding (schema_with [] "snowflake" "parquet" "email"))
              (source "snowflake") "snowflake" "pandasai.ee.connectors.snowflake"
              "SELECT id, email FROM customers")
    as (conn & Hconn & _ & Hcalls & _).
  - reflexivity.
  - reflexivity.
  - by_computation.
  - by_computation.
  - reflexivity.
  - vm_compute in Hconn. injection Hconn as <-. exact Hcalls.
Defined.

Lemma import_errors_are_reworded_witness :
  @_load_from_source Scenario.offline (Scenario.holding weekly)
  = (Raise (ImportError
              "Mysql connector not found. Please install the pandasai_sql library."),
     log [ImportModule "pandasai_sql"] (Scenario.holding weekly)).
Proof.
  apply (proj1 (@import_errors_are_reworded Scenario.offline
                  (Scenario.holding weekly) (source "mysql") "mysql" "pandasai_sql"
                  "SELECT id, email FROM customers"
                  eq_refl eq_refl ltac:(by_computation) ltac:(by_computation))
           "No module named pandasai_sql").
  reflexivity.
Defined.

Lemma query_errors_surface_before_any_import_witness :
  @load Scenario.unreadable "sales" (start (Scenario.files "columnless") 1000)
  = (Raise (KeyError "columns"),
     State Scenario.columnless (PStr "sales") (Scenario.files "columnless") 1000
           [PathExists "datasets/sales/schema.yaml";
            OpenRead "datasets/sales/schema.yaml";
            PathExists "datasets/sales/data.parquet"]).
Proof.
  apply (@query_errors_surface_before_any_import Scenario.unreadable "sales"
           (start (Scenario.files "columnless") 1000) (File 0 "columnless")
           Scenario.columnless (source "mysql") (PStr "mysql") "pandasai_sql"
           "datasets/sales/data.parquet" [PathExists "datasets/sales/data.parquet"]).
  - by_computation.
  - by_computation.
  - reflexivity.
  - reflexivity.
  - by_computation.
  - by_computation.
  - by_computation.
  - by_computation.
Defined.

Lemma clauses_follow_key_presence_witness :
  @_generate_query world PNone
    (PDict [("columns", PList [PDict [("name", PStr "a")]]);
            ("source", PDict [("table", PStr "t")]);
            ("limit", PNone)])
  = Ok "SELECT a FROM t LIMIT None".
Proof.
  apply (proj1 (proj2 (@clauses_follow_key_presence world
                         [("columns", PList [PDict [("name", PStr "a")]]);
                          ("source", PDict [("table", PStr "t")]);
                          ("limit", PNone)]
                         (PList [PDict [("name", PStr "a")]])
                         [PDict [("name", PStr "a")]] ["a"]
                         (PDict [("table", PStr "t")]) (PStr "t")
                         eq_refl eq_refl ltac:(repeat constructor) eq_refl eq_refl))
           PNone).
  - reflexivity.
  - reflexivity.
Defined.

Lemma query_needs_columns_names_and_table_witness :
  @_generate_query world PNone (PDict [("source", PDict [("table", PStr "t")])])
  = Raise (KeyError "columns").
Proof.
  apply (proj1 (@query_needs_columns_names_and_table world
                  [("source", PDict [("table", PStr "t")])])).
  reflexivity.
Defined.


Lemma anonymize_entry_on_a_column_witness :
  ∃ new,
    @apply_transform world customers
      (PDict [("type", PStr "anonymize"); ("params", PDict [("column", PStr "email")])])
    = Ok (Frame.set_column "email" new customers)
    ∧ @series_apply world (@_anonymize world)
        [PStr "alice@example.com"; PStr "not-an-email"] = Ok new
    ∧ ([PStr "alice@example.com"; PStr "not-an-email"] = [] → new = [])
    ∧ ([PStr "alice@example.com"; PStr "not-an-email"] ≠ [] →
         ∃ values,
           Forall2 (fun old value => @_anonymize world old = Ok value)
             [PStr "alice@example.com"; PStr "not-an-email"] values
           ∧ List.length values
             = List.length [PStr "alice@example.com"; PStr "not-an-email"]
           ∧ new = @convert_objects world values)
    ∧ Frame.labels (Frame.set_column "email" new customers) = Frame.labels customers.
Proof.
  apply (proj1 (@anonymize_entry_on_a_column world customers
                  (PDict [("type", PStr "anonymize");
                          ("params", PDict [("column", PStr "email")])])
                  (PStr "anonymize") (PDict [("column", PStr "email")]) "email"
                  eq_refl eq_refl eq_refl eq_refl)).
  reflexivity.
Defined.

Lemma transformations_keep_the_labels_witness :
  Frame.labels
    [("id", [PInt 1; PInt 2]);
     ("email", [PStr "md5(alice)@example.com"; PStr "not-an-email"])]
  = Frame.labels customers.
Proof.
  apply (@transformations_keep_the_labels world weekly customers).
  by_computation.
Defined.

Lemma transformations_edge_cases_witness :
  @_apply_transformations world (PDict [("transformations", PNone)]) customers
  = Raise TypeError.
Proof.
  apply (proj1 (proj2 (proj2 (@transformations_edge_cases world
                                [("transformations", PNone)] customers)))).
  reflexivity.
Defined.

Lemma freshness_decision_table_witness :
  ∃ artifact frequency,
    files "weekly" !! "datasets/sales/data.parquet" = Some artifact
    ∧ Py.getitem weekly "update_frequency" = Ok frequency
    ∧ Py.eq_str frequency "weekly" = true
    ∧ (1000 - mtime artifact < one_week)%Z.
Proof.
  apply (proj1 (proj1 (freshness_decision_table "datasets/sales/data.parquet"
                         (State weekly (PStr "sales") (files "weekly") 1000 [])))).
  by_computation.
Defined.

Lemma explicit_path_joins_posix_style_witness :
  _get_cache_file_path (PStr "sales")
    (PDict [("destination", PDict [("format", PStr "csv"); ("path", PStr "/tmp/out.csv")])])
  = Ok "/tmp/out.csv".
Proof.
  apply (proj1 (explicit_path_joins_posix_style "sales" "/tmp/out.csv"
                  [("destination",
                    PDict [("format", PStr "csv"); ("path", PStr "/tmp/out.csv")])]
                  [("format", PStr "csv"); ("path", PStr "/tmp/out.csv")]
                  eq_refl eq_refl)).
  reflexivity.
Defined.

Lemma default_cache_file_is_not_the_schema_witness :
  "datasets/sales/data.parquet" ≠ schema_path "sales".
Proof.
  apply (default_cache_file_is_not_the_schema "sales" "datasets/sales/data.parquet"
           [("destination", PDict [("format", PStr "parquet")])]
           [("format", PStr "parquet")]).
  - reflexivity.
  - reflexivity.
  - reflexivity.
Defined.

(** A daily schema that declares the format "json": the default file
    name is "data.csv", the table is fetched and anonymized, and then
    the write step refuses the format. *)
Lemma unsupported_format_is_noticed_after_the_fetch_witness :
  ∃ evs,
    forallb is_source_event evs = true
    ∧ @load Scenario.unreadable "sales" (start (Scenario.files "json") 1000)
      = (Raise (ValueError "Unsupported cache format: json"),
         log ([PathExists "datasets/sales/data.csv"] ++ evs)
             (resolved "sales" Scenario.json (start (Scenario.files "json") 1000))).
Proof.
  destruct (@unsupported_format_is_noticed_after_the_fetch Scenario.unreadable "sales"
              (start (Scenario.files "json") 1000) (File 0 "json") Scenario.json
              (source "mysql") (PStr "mysql") "pandasai_sql" "datasets/sales/data.csv"
              [PathExists "datasets/sales/data.csv"] customers
              [("id", [PInt 1; PInt 2]);
               ("email", [PStr "md5(alice)@example.com"; PStr "not-an-email"])])
    as (evs & Hevs & _ & Hformat & _).
  - by_computation.
  - by_computation.
  - reflexivity.
  - reflexivity.
  - by_computation.
  - by_computation.
  - by_computation.
  - by_computation.
  - by_computation.
  - exists evs. split; [exact Hevs |].
    apply (Hformat (PStr "json")); by_computation.
Defined.

(** The artifact is seven days old at the first load, which refreshes
    it; five microseconds later the second load reads it back. *)
Lemma refresh_then_reload_hits_witness :
  ∃ st1 st2,
    @load world "sales" (start (files "weekly") one_week)
    = (Ok [("id", [PInt 1; PInt 2]);
           ("email", [PStr "md5(alice)@example.com"; PStr "not-an-email"])], st1)
    ∧ @load world "sales" (at_time (one_week + 5) st1)
      = (Ok [("email", [PStr "stored"])], st2)
    ∧ fs st2 = fs st1
    ∧ calls_between (at_time (one_week + 5) st1) st2
        [PathExists "datasets/sales/schema.yaml";
         OpenRead "datasets/sales/schema.yaml";
         PathExists "datasets/sales/data.parquet";
         GetMtime "datasets/sales/data.parquet";
         ClockNow;
         ReadTable "parquet" "datasets/sales/data.parquet"].
Proof.
  apply (@refresh_then_reload_hits world "sales" (start (files "weekly") one_week)
           (File 0 "weekly") weekly (source "mysql") (PStr "mysql") "pandasai_sql"
           "datasets/sales/data.parquet" "parquet" "stored" customers
           [("id", [PInt 1; PInt 2]);
            ("email", [PStr "md5(alice)@example.com"; PStr "not-an-email"])]
           (one_week + 5)).
  - by_computation.
  - by_computation.
  - reflexivity.
  - reflexivity.
  - by_computation.
  - by_computation.
  - by_computation.
  - right. exists (File 0 "bob@example.com"). split; [by_computation |].
    vm_compute. discriminate.
  - by_computation.
  - by_computation.
  - by_computation.
  - by left.
  - by_computation.
  - vm_compute. discriminate.
  - by_computation.
Defined.

Lemma refresh_writes_what_it_returns_witness :
  ∃ st',
    @load world "sales" (start (files "daily") 1000)
    = (Ok [("id", [PInt 1; PInt 2]);
           ("email", [PStr "md5(alice)@example.com"; PStr "not-an-email"])], st')
    ∧ fs st' !! "datasets/sales/data.parquet" = Some (File 1000 "stored")
    ∧ (∀ p, p ≠ "datasets/sales/data.parquet" → fs st' !! p = files "daily" !! p)
    ∧ schema st' = daily
    ∧ dataset_path st' = PStr "sales".
Proof.
  apply (@refresh_writes_what_it_returns world "sales" (start (files "daily") 1000)
           (File 0 "daily") daily (source "mysql") (PStr "mysql") "pandasai_sql"
           "datasets/sales/data.parquet" "parquet" "stored"
           [PathExists "datasets/sales/data.parquet";
            GetMtime "datasets/sales/data.parquet"]
           customers
           [("id", [PInt 1; PInt 2]);
            ("email", [PStr "md5(alice)@example.com"; PStr "not-an-email"])]).
  - by_computation.
  - by_computation.
  - reflexivity.
  - reflexivity.
  - by_computation.
  - by_computation.
  - by_computation.
  - by_computation.
  - by_computation.
  - by_computation.
  - by left.
  - by_computation.
Defined.

Lemma unreadable_fresh_cache_is_not_refetched_witness :
  ∃ st',
    @load Scenario.unreadable "sales" (start (files "weekly") 1000)
    = (Raise (ExternalError "corrupt"), st')
    ∧ fs st' = files "weekly"
    ∧ calls_between (start (files "weekly") 1000) st'
        [PathExists "datasets/sales/schema.yaml";
         OpenRead "datasets/sales/schema.yaml";
         PathExists "datasets/sales/data.parquet";
         GetMtime "datasets/sales/data.parquet";
         ClockNow;
         ReadTable "parquet" "datasets/sales/data.parquet"].
Proof.
  apply (@unreadable_fresh_cache_is_not_refetched Scenario.unreadable "sales"
           (start (files "weekly") 1000) (File 0 "weekly") (File 0 "bob@example.com")
           weekly (source "mysql") (PStr "mysql") "pandasai_sql"
           "datasets/sales/data.parquet" "parquet" (ExternalError "corrupt")).
  - by_computation.
  - by_computation.
  - reflexivity.
  - reflexivity.
  - by_computation.
  - by_computation.
  - by_computation.
  - by_computation.
  - by_computation.
  - by left.
  - by_computation.
Defined.

(** A loader that still holds another dataset's schema. *)
Lemma load_starts_afresh_witness :
  fst (@load world "sales" (State mongodb (PStr "other") (files "weekly") 1000 []))
  = fst (@load world "sales"
           (__init__ (State mongodb (PStr "other") (files "weekly") 1000 []))).
Proof.
  exact (proj1 (@load_starts_afresh world "sales"
                  (State mongodb (PStr "other") (files "weekly") 1000 []))).
Defined.

(** The schema document is still there after a refresh. *)
Lemma load_touches_only_the_cache_file_witness :
  is_Some (files "daily" !! "datasets/sales/schema.yaml")
  ∧ is_Some (fs (snd (@load world "sales" (start (files "daily") 1000)))
             !! "datasets/sales/schema.yaml").
Proof.
  assert (is_Some (files "daily" !! "datasets/sales/schema.yaml")) as Hthere
    by (exists (File 0 "daily"); by_computation).
  split; [exact Hthere |].
  apply (proj1 (@load_touches_only_the_cache_file world "sales"
                  (start (files "daily") 1000)
                  (snd (@load world "sales" (start (files "daily") 1000)))
                  (fst (@load world "sales" (start (files "daily") 1000)))
                  ltac:(by destruct (@load world "sales" (start (files "daily") 1000))))
           "datasets/sales/schema.yaml" Hthere).
Defined.

Lemma load_runs_one_of_five_shapes_witness :
  ∃ evs,
    calls_between (start (files "daily") 1000)
      (snd (@load world "sales" (start (files "daily") 1000))) evs
    ∧ (∀ t, fst (@load world "sales" (start (files "daily") 1000)) = Ok t →
            (∃ fmt p, cache_and_source_calls evs = [ReadTable fmt p])
            ∨ (∃ m entry conn q fmt p,
                 cache_and_source_calls evs
                 = [ImportModule m; BackendCall m entry conn q; WriteTable fmt p])).
Proof.
  destruct (@load_runs_one_of_five_shapes world "sales" (start (files "daily") 1000))
    as (evs & Hcalls & _ & Hok).
  exists evs. split; [exact Hcalls | exact Hok].
Defined.

End FurtherExamples.
